(** * Authorization and trash lifecycle of the drive backend

  A shallow embedding of the request handlers of the repository:
  - [Api]: the TypeScript sources (the role resolver [resolveUserRole], the
    shares, folders, files and search routes), over the
    [owner_id]/[deleted_at] schema;
  - [Legacy]: the Express server of [server/index.js], over the
    [owner]/[is_deleted]/[bucket_path] schema.

  The relational store is a record of tables (lists of rows, in table
  order), blob storage is the list of stored object keys.  A store call
  either succeeds on the current state or fails with a message chosen by an
  oracle ([Faults]); handlers are state-passing functions returning the
  HTTP response together with the new state. *)

From Stdlib Require Import List String Ascii ZArith Bool Lia Permutation.
Import ListNotations.

Local Open Scope string_scope.
Local Open Scope list_scope.

(** ** JavaScript values as the handlers use them *)
Module JS.

(** [if (s)] on a string: only the empty string is falsy. *)
Definition truthy (s : string) : bool := negb (s =? "").

(** [if (x)] on [string | null | undefined]. *)
Definition truthyOpt (o : option string) : bool :=
  match o with
  | Some s => truthy s
  | None => false
  end.

(** [x || dflt] on [string | undefined]. *)
Definition orElse (o : option string) (dflt : string) : string :=
  match o with
  | Some s => if truthy s then s else dflt
  | None => dflt
  end.

(** [x || null] on [string | undefined]. *)
Definition orNull (o : option string) : option string :=
  match o with
  | Some s => if truthy s then Some s else None
  | None => None
  end.

(** White space as [parseInt] and the class [\s] of a regular expression
    see it: the WhiteSpace and LineTerminator characters of ECMAScript.  A
    string is the sequence of the UTF-8 bytes of the handler's string, so a
    white space character takes one to three bytes.  One byte: U+0009 to
    U+000D and U+0020. *)
Definition isSpace (c : ascii) : bool :=
  let n := nat_of_ascii c in
  ((9 <=? n) && (n <=? 13))%nat || (n =? 32)%nat.

(** Two bytes: U+00A0. *)
Definition isSpace2 (c1 c2 : ascii) : bool :=
  ((nat_of_ascii c1 =? 194) && (nat_of_ascii c2 =? 160))%nat.

(** Three bytes: U+1680, U+2000 to U+200A, U+2028, U+2029, U+202F, U+205F,
    U+3000 and U+FEFF. *)
Definition isSpace3 (c1 c2 c3 : ascii) : bool :=
  let b1 := nat_of_ascii c1 in
  let b2 := nat_of_ascii c2 in
  let b3 := nat_of_ascii c3 in
  ((b1 =? 225) && (b2 =? 154) && (b3 =? 128)
   || (b1 =? 226) && (b2 =? 128)
      && ((128 <=? b3) && (b3 <=? 138) || (b3 =? 168) || (b3 =? 169) || (b3 =? 175))
   || (b1 =? 226) && (b2 =? 129) && (b3 =? 159)
   || (b1 =? 227) && (b2 =? 128) && (b3 =? 128)
   || (b1 =? 239) && (b2 =? 187) && (b3 =? 191))%nat.

Definition digit (c : ascii) : option Z :=
  let n := nat_of_ascii c in
  if ((48 <=? n) && (n <=? 57))%nat then Some (Z.of_nat (n - 48)) else None.

(** The string without its leading white space. *)
Fixpoint trimStart (s : string) : string :=
  match s with
  | String c1 r1 =>
      if isSpace c1 then trimStart r1
      else
        match r1 with
        | String c2 r2 =>
            if isSpace2 c1 c2 then trimStart r2
            else
              match r2 with
              | String c3 r3 => if isSpace3 c1 c2 c3 then trimStart r3 else s
              | EmptyString => s
              end
        | EmptyString => s
        end
  | EmptyString => s
  end.

(** The longest prefix of decimal digits, read as a number; [acc] is the
    value read so far, [None] before the first digit. *)
Fixpoint digits (s : string) (acc : option Z) : option Z :=
  match s with
  | String c rest =>
      match digit c with
      | Some d =>
          digits rest (Some (10 * match acc with Some a => a | None => 0 end + d)%Z)
      | None => acc
      end
  | EmptyString => acc
  end.

(** The underscore that opens a run of white space. *)
Definition underscore (inRun : bool) (s : string) : string :=
  if inRun then s else String "_" s.

(** [s.replace(/\s+/g, "_")]: every run of white space becomes one
    underscore; [inRun] tells that the previous character was white space. *)
Fixpoint replaceSpaces (inRun : bool) (s : string) : string :=
  match s with
  | String c1 r1 =>
      if isSpace c1 then underscore inRun (replaceSpaces true r1)
      else
        match r1 with
        | String c2 r2 =>
            if isSpace2 c1 c2 then underscore inRun (replaceSpaces true r2)
            else
              match r2 with
              | String c3 r3 =>
                  if isSpace3 c1 c2 c3 then underscore inRun (replaceSpaces true r3)
                  else String c1 (replaceSpaces false r1)
              | EmptyString => String c1 (replaceSpaces false r1)
              end
        | EmptyString => String c1 (replaceSpaces false r1)
        end
  | EmptyString => EmptyString
  end.

(** The numbers the search handler computes with: doubles whose value is an
    integer, the two infinities and [NaN].  (The sign of zero is not kept:
    [Math.max(-0, 0)] is [0], and [-0 + x] is [0 + x] for the [x] of the
    handler.) *)
Inductive Number :=
| NaN
| Finite (z : Z)
| Infinity (negative : bool).

(** Every integer up to 2^53 in absolute value is a double. *)
Definition maxExact : Z := 9007199254740992.

(** From 2^1024 on, a rounded value is infinite. *)
Definition overflow : Z := Z.shiftl 1 1024.

(** The double nearest to the integer [a] > 2^53: [a] keeps its 53 leading
    bits, rounded to nearest, to even on a tie. *)
Definition nearest (a : Z) : Z :=
  let e := (Z.log2 a - 52)%Z in
  let q := Z.shiftr a e in
  let r := (a - Z.shiftl q e)%Z in
  let half := Z.shiftl 1 (e - 1) in
  let q := if (half <? r)%Z || ((half =? r)%Z && Z.odd q) then (q + 1)%Z else q in
  Z.shiftl q e.

(** The double of an integer. *)
Definition toNumber (z : Z) : Number :=
  if (Z.abs z <=? maxExact)%Z then Finite z
  else
    let v := nearest (Z.abs z) in
    if (overflow <=? v)%Z then Infinity (z <? 0)%Z else Finite (Z.sgn z * v)%Z.

(** [x + y] and [x - y] on doubles: the exact result, rounded. *)
Definition add (x y : Number) : Number :=
  match x, y with
  | Finite a, Finite b => toNumber (a + b)
  | Finite _, Infinity s => Infinity s
  | Infinity s, Finite _ => Infinity s
  | Infinity s, Infinity t => if Bool.eqb s t then Infinity s else NaN
  | _, _ => NaN
  end.

Definition negate (x : Number) : Number :=
  match x with
  | NaN => NaN
  | Finite a => Finite (- a)
  | Infinity s => Infinity (negb s)
  end.

Definition sub (x y : Number) : Number := add x (negate y).

(** [x < 0] on a number. *)
Definition negative (x : Number) : bool :=
  match x with
  | NaN => false
  | Finite a => (a <? 0)%Z
  | Infinity s => s
  end.

(** A number that is at most the integer [f]. *)
Definition below (f : Z) (x : Number) : Prop :=
  match x with
  | NaN => False
  | Finite a => (a <= f)%Z
  | Infinity s => s = true
  end.

(** [parseInt(s, 10)]: white space, a sign, then the longest run of decimal
    digits, whose number is rounded to a double; [NaN] without a digit. *)
Definition parseInt (s : string) : Number :=
  match trimStart s with
  | String "-" rest =>
      match digits rest None with
      | Some v => toNumber (- v)
      | None => NaN
      end
  | String "+" rest =>
      match digits rest None with
      | Some v => toNumber v
      | None => NaN
      end
  | t =>
      match digits t None with
      | Some v => toNumber v
      | None => NaN
      end
  end.

(** [Math.min(x, c)] and [Math.max(x, c)] for an integer [c]. *)
Definition mathMin (x : Number) (c : Z) : Number :=
  match x with
  | NaN => NaN
  | Finite v => Finite (Z.min v c)
  | Infinity true => Infinity true
  | Infinity false => Finite c
  end.

Definition mathMax (x : Number) (c : Z) : Number :=
  match x with
  | NaN => NaN
  | Finite v => Finite (Z.max v c)
  | Infinity true => Finite c
  | Infinity false => Infinity false
  end.

(** Library functions and store operators the handlers call and whose
    results the embedding leaves open: string builtins, the pattern match
    and the ordering of the store (any reordering of the rows), the date
    arithmetic of [Date.setDate]. *)
Class Platform (File Folder : Type) := {
  trim : string -> string;
  toLowerCase : string -> string;
  encodeURIComponent : string -> string;
  ilike : string -> string -> bool;
  addDays : Z -> Z -> Z;
  orderFiles : string -> bool -> list File -> list File;
  orderFolders : string -> bool -> list Folder -> list Folder;
  orderFiles_perm : forall col asc rows, Permutation (orderFiles col asc rows) rows;
  orderFolders_perm : forall col asc rows, Permutation (orderFolders col asc rows) rows
}.

End JS.

(** ** Results of supabase queries *)
Module Query.

(** [.single()]: the row when exactly one row matches, no data otherwise. *)
Definition single {A : Type} (rows : list A) : option A :=
  match rows with
  | [r] => Some r
  | _ => None
  end.

(** The error of [.single()] when the rows are not exactly one. *)
Definition notSingle : string := "JSON object requested, multiple (or no) rows returned".

(** [.range(from, to)] on a query that asks the exact count of its rows.
    The client sends [offset = from] and [limit = to - from + 1], computed on
    doubles.  The store answers an error, [None] here, when the two are not
    integers of its 64 bits, when one of them is negative and, the count
    being asked, when the offset is past the last row; else it answers the
    rows from position [offset] on, [limit] of them at most. *)
Definition range {A : Type} (from to : JS.Number) (rows : list A) : option (list A) :=
  match from, JS.add (JS.sub to from) (JS.Finite 1) with
  | JS.Finite offset, JS.Finite limit =>
      if ((offset <? 0) || (limit <? 0) || (Z.shiftl 1 63 <=? offset)
          || (Z.shiftl 1 63 <=? limit) || (Z.of_nat (List.length rows) <? offset))%Z
      then None
      else Some (firstn (Z.to_nat limit) (skipn (Z.to_nat offset) rows))
  | _, _ => None
  end.

End Query.

(** ** Store calls and their failures *)
Module Store.

(** The store calls a handler issues; the oracle gives the error message of
    a call that fails. *)
Inductive Call :=
| Select (table : string)
| Insert (table : string)
| Update (table : string)
| Delete (table : string)
| Upsert (table : string)
| StorageUpload (key : string)
| StorageRemove (key : string)
| StorageSign (key : string).

Definition Faults := Call -> option string.

Definition noFaults : Faults := fun _ => None.

(** [storage.remove([key])]: the object is gone unless the call fails. *)
Definition removeObject (flt : Faults) (key : string) (objects : list string) : list string :=
  match flt (StorageRemove key) with
  | Some _ => objects
  | None => filter (fun k => negb (k =? key)) objects
  end.

End Store.

(** ** Handlers: state passing with early return *)
Module Handler.

(** A step of a handler over state [S] answering with [R]: [inl r] when the
    response has been sent and the handler has returned, [inr a] when it goes
    on with [a]. *)
Definition M (S R A : Type) : Type := S -> (R + A) * S.

Definition ret {S R A : Type} (a : A) : M S R A := fun s => (inr a, s).

Definition bind {S R A B : Type} (m : M S R A) (k : A -> M S R B) : M S R B :=
  fun s =>
    match m s with
    | (inl r, s') => (inl r, s')
    | (inr a, s') => k a s'
    end.

(** [return res.status(..).json(..)] *)
Definition respond {S R A : Type} (r : R) : M S R A := fun s => (inl r, s).

Definition get {S R : Type} : M S R S := fun s => (inr s, s).

Definition put {S R : Type} (s : S) : M S R unit := fun _ => (inr tt, s).

(** A handler ends with a response. *)
Definition run {S R : Type} (m : M S R R) (s : S) : R * S :=
  match m s with
  | (inl r, s') => (r, s')
  | (inr r, s') => (r, s')
  end.

Declare Scope handler_scope.
Delimit Scope handler_scope with handler.

Notation "x <- m ;; k" := (bind m (fun x => k))
  (at level 61, m at next level, right associativity) : handler_scope.
Notation "m ;;; k" := (bind m (fun _ => k))
  (at level 61, right associativity) : handler_scope.

End Handler.

(** ** The TypeScript API *)
Module Api.

Import JS Query Store.

Inductive ResourceType := file | folder.

(** [Role] of [utils/permissions]; [Exclude<Role,'owner'>] in the shares
    routes shows the third member. *)
Inductive Role := owner | editor | viewer.

Definition ResourceType_eqb (a b : ResourceType) : bool :=
  match a, b with
  | file, file | folder, folder => true
  | _, _ => false
  end.

(** Rows of the four tables; timestamps are milliseconds since the epoch. *)
Record FileRow := mkFile {
  f_id : string;
  f_name : string;
  f_size : Z;
  f_type : string;
  f_storage_path : string;
  f_owner_id : string;
  f_folder_id : option string;
  f_created_at : Z;
  f_deleted_at : option Z
}.

Record FolderRow := mkFolder {
  d_id : string;
  d_name : string;
  d_parent_id : option string;
  d_owner_id : string;
  d_created_at : Z;
  d_deleted_at : option Z
}.

Record ShareRow := mkShare {
  s_resource_type : ResourceType;
  s_resource_id : string;
  s_owner_id : string;
  s_role : Role;
  s_expires_at : option Z;
  s_link_token : string
}.

Record PermissionRow := mkPermission {
  p_resource_type : ResourceType;
  p_resource_id : string;
  p_grantee_email : string;
  p_role : Role
}.

Record Db := mkDb {
  files : list FileRow;
  folders : list FolderRow;
  shares : list ShareRow;
  permissions : list PermissionRow
}.

(** [resourceType === 'file' ? 'files' : 'folders'] *)
Definition tableOf (resourceType : ResourceType) : string :=
  match resourceType with
  | file => "files"
  | folder => "folders"
  end.

(** [from(table).select('owner_id').eq('id', id)] on either table. *)
Definition ownerIds (db : Db) (table : string) (id : string) : list string :=
  if table =? "files"
  then map f_owner_id (filter (fun r => f_id r =? id) (files db))
  else map d_owner_id (filter (fun r => d_id r =? id) (folders db)).

(** [.single()] on that query: [data] of the result. *)
Definition selectOwner (flt : Faults) (db : Db) (table id : string) : option string :=
  match flt (Select table) with
  | Some _ => None
  | None => single (ownerIds db table id)
  end.

(** The filter of the share query of the resolver. *)
Definition shareMatches (resourceType : ResourceType) (resourceId token : string)
    (r : ShareRow) : bool :=
  ResourceType_eqb (s_resource_type r) resourceType
  && (s_resource_id r =? resourceId)
  && (s_link_token r =? token).

Definition selectShare (flt : Faults) (db : Db) (resourceType : ResourceType)
    (resourceId token : string) : option ShareRow :=
  match flt (Select "shares") with
  | Some _ => None
  | None => single (filter (shareMatches resourceType resourceId token) (shares db))
  end.

(** Step 1 of [resolveUserRole]:
    [ownerRow.data?.owner_id && userId && ownerRow.data.owner_id === userId]. *)
Definition isOwner (flt : Faults) (db : Db) (userId : option string)
    (resourceType : ResourceType) (resourceId : string) : bool :=
  match selectOwner flt db (tableOf resourceType) resourceId with
  | Some owner_id =>
      truthy owner_id && truthyOpt userId &&
      match userId with
      | Some u => owner_id =? u
      | None => false
      end
  | None => false
  end.

(** Step 3 of [resolveUserRole]: the link share. *)
Definition linkRole (flt : Faults) (now : Z) (db : Db)
    (resourceType : ResourceType) (resourceId : string)
    (shareToken : option string) : option Role :=
  match shareToken with
  | Some token =>
      if truthy token then
        match selectShare flt db resourceType resourceId token with
        | Some sh =>
            match s_expires_at sh with
            | Some e => if (e <? now)%Z then None else Some (s_role sh)
            | None => Some (s_role sh)
            end
        | None => None
        end
      else None
  | None => None
  end.

(** [resolveUserRole(userId, resourceType, resourceId, shareToken)];
    [now] is the value of [new Date()].  Step 2 of the source is an empty
    block: the function has no email argument and issues no query on
    [permissions]. *)
Definition resolveUserRole (flt : Faults) (now : Z) (db : Db)
    (userId : option string) (resourceType : ResourceType)
    (resourceId : string) (shareToken : option string) : option Role :=
  if isOwner flt db userId resourceType resourceId then Some owner
  else linkRole flt now db resourceType resourceId shareToken.

(** The resource store holds the resource: the owner query has its row. *)
Definition resourceOwner (db : Db) (resourceType : ResourceType)
    (resourceId : string) : option string :=
  single (ownerIds db (tableOf resourceType) resourceId).


(** *** Requests, responses and the state the handlers act on *)

(** [req.user], the payload of the verified token. *)
Record User := mkUser {
  u_id : string;
  u_email : string
}.

(** The relational store and the objects of bucket ['files']. *)
Record World := mkWorld {
  db : Db;
  storage : list string
}.

(** What one request draws from outside the handler: the failures of its
    store calls, the clock, [uuid()], the values the store generates for a
    new row ([id], [link_token]), the signing of a URL and
    [process.env.PUBLIC_APP_ORIGIN]. *)
Record Env := mkEnv {
  flt : Faults;
  now : Z;
  uuid : string;
  rowId : string;
  linkToken : string;
  sign : string -> string;
  origin : option string
}.

Inductive Body :=
| Error (error : string)
| Message (message : string)
| Link (link : string) (role : Role) (expires_at : option Z)
| Uploaded (key : string) (signedUrl : option string) (file : FileRow)
| Found (found_files : list FileRow) (found_folders : list FolderRow).

Record Response := json {
  status : nat;
  body : Body
}.

Definition setFiles (rows : list FileRow) (w : World) : World :=
  mkWorld (mkDb rows (folders (db w)) (shares (db w)) (permissions (db w))) (storage w).

Definition setFolders (rows : list FolderRow) (w : World) : World :=
  mkWorld (mkDb (files (db w)) rows (shares (db w)) (permissions (db w))) (storage w).

Definition setShares (rows : list ShareRow) (w : World) : World :=
  mkWorld (mkDb (files (db w)) (folders (db w)) rows (permissions (db w))) (storage w).

Definition setStorage (objects : list string) (w : World) : World :=
  mkWorld (db w) objects.

Import Handler.
Local Open Scope handler_scope.

Definition Route := M World Response Response.

(** The owner check every route of the API starts with:
    [if (!row.data) return 404; if (row.data.owner_id !== user.id) return 403]. *)
Definition requireOwner (env : Env) (user : User) (table id notFound : string)
    : M World Response unit :=
  w <- get ;;
  match selectOwner (flt env) (db w) table id with
  | None => respond (json 404 (Error notFound))
  | Some owner_id =>
      if owner_id =? u_id user then ret tt
      else respond (json 403 (Error "Not allowed"))
  end.

(** *** shares.routes: POST /api/shares/link *)

Record LinkBody := mkLinkBody {
  lb_resourceType : option ResourceType;
  lb_resourceId : option string;
  lb_role : option Role;
  lb_expiresInDays : option Z
}.

(** The conflict target of the upsert: [onConflict: 'resource_type,resource_id']. *)
Definition shareKey (resourceType : ResourceType) (resourceId : string) (r : ShareRow) : bool :=
  ResourceType_eqb (s_resource_type r) resourceType && (s_resource_id r =? resourceId).

(** The columns of the conflict target. *)
Definition keyOf (r : ShareRow) : ResourceType * string :=
  (s_resource_type r, s_resource_id r).

(** The rows after the upsert of
    [{resource_type, resource_id, owner_id, role, expires_at}]: a row in
    conflict gets the columns of the payload and keeps the others; without
    conflict a row is appended, its [link_token] generated by the store. *)
Definition upsertRows (generated : string) (resourceType : ResourceType)
    (resourceId owner_id : string) (role : Role) (expires_at : option Z)
    (rows : list ShareRow) : list ShareRow :=
  if existsb (shareKey resourceType resourceId) rows
  then map (fun r =>
              if shareKey resourceType resourceId r
              then mkShare resourceType resourceId owner_id role expires_at (s_link_token r)
              else r) rows
  else rows ++ [mkShare resourceType resourceId owner_id role expires_at generated].

(** [.upsert(..).select('*').single()]: the error, or the row written. *)
Definition upsertShare (env : Env) (resourceType : ResourceType)
    (resourceId owner_id : string) (role : Role) (expires_at : option Z)
    : M World Response (string + ShareRow) :=
  fun w =>
    match flt env (Upsert "shares") with
    | Some e => (inr (inl e), w)
    | None =>
        let rows := upsertRows (linkToken env) resourceType resourceId owner_id role
                      expires_at (shares (db w)) in
        match single (filter (shareKey resourceType resourceId) rows) with
        | Some row => (inr (inr row), setShares rows w)
        | None => (inr (inl notSingle), w)
        end
    end.

Definition typeName (resourceType : ResourceType) : string :=
  match resourceType with
  | file => "file"
  | folder => "folder"
  end.

Definition shareUrl (env : Env) (resourceType : ResourceType) (resourceId token : string) : string :=
  match origin env with Some o => o | None => "http://localhost:3000" end
  ++ "/share/" ++ typeName resourceType ++ "/" ++ resourceId ++ "?t=" ++ token.

Section Routes.

Context {P : Platform FileRow FolderRow}.

Definition createLink (env : Env) (user : User) (body : LinkBody) : Route :=
  match lb_resourceType body, orNull (lb_resourceId body), lb_role body with
  | Some resourceType, Some resourceId, Some role =>
      requireOwner env user (tableOf resourceType) resourceId "Resource not found" ;;;
      let expires_at :=
        match lb_expiresInDays body with
        | Some days => if (0 <? days)%Z then Some (addDays (now env) days) else None
        | None => None
        end in
      upsert <- upsertShare env resourceType resourceId (u_id user) role expires_at ;;
      match upsert with
      | inl e => respond (json 500 (Error e))
      | inr data =>
          respond (json 200 (Link (shareUrl env resourceType resourceId (s_link_token data))
                               (s_role data) (s_expires_at data)))
      end
  | _, _, _ => respond (json 400 (Error "resourceType, resourceId, role required"))
  end.

(** *** folders.routes: DELETE /api/folders/:id and POST /api/folders/:id/restore *)

(** [from('folders').update({deleted_at}).eq('id', id)]: its error, if any. *)
Definition updateFolderDeletedAt (env : Env) (id : string) (deleted_at : option Z)
    : M World Response (option string) :=
  fun w =>
    match flt env (Update "folders") with
    | Some e => (inr (Some e), w)
    | None =>
        (inr None,
         setFolders
           (map (fun r =>
                   if d_id r =? id
                   then mkFolder (d_id r) (d_name r) (d_parent_id r) (d_owner_id r)
                          (d_created_at r) deleted_at
                   else r) (folders (db w))) w)
    end.

Definition softDeleteFolder (env : Env) (user : User) (id : string) : Route :=
  requireOwner env user "folders" id "Folder not found" ;;;
  error <- updateFolderDeletedAt env id (Some (now env)) ;;
  match error with
  | Some e => respond (json 500 (Error e))
  | None => respond (json 200 (Message "Moved to Trash"))
  end.

Definition restoreFolder (env : Env) (user : User) (id : string) : Route :=
  requireOwner env user "folders" id "Folder not found" ;;;
  error <- updateFolderDeletedAt env id None ;;
  match error with
  | Some e => respond (json 500 (Error e))
  | None => respond (json 200 (Message "Restored"))
  end.

(** *** files.routes: POST /api/files/upload *)

(** [req.file] as the handler reads it. *)
Record Upload := mkUpload {
  originalname : string;
  mimetype : string;
  size : Z
}.

(** [storage.from(BUCKET).upload(key, .., {upsert: false})]: an object
    already stored under the key is not overwritten. *)
Definition storageUpload (env : Env) (key : string) : M World Response (option string) :=
  fun w =>
    match flt env (StorageUpload key) with
    | Some e => (inr (Some e), w)
    | None =>
        if existsb (String.eqb key) (storage w)
        then (inr (Some "The resource already exists"), w)
        else (inr None, setStorage (key :: storage w) w)
    end.

(** [storage.from(BUCKET).remove([key]).catch(() => {})] *)
Definition storageRemove (env : Env) (key : string) : M World Response unit :=
  fun w => (inr tt, setStorage (removeObject (flt env) key (storage w)) w).

(** [from('files').insert([row]).select('*').single()]: [id], [created_at]
    and [deleted_at] are the store's. *)
Definition insertFile (env : Env) (name : string) (size : Z) (type storage_path owner_id : string)
    (folder_id : option string) : M World Response (string + FileRow) :=
  fun w =>
    match flt env (Insert "files") with
    | Some e => (inr (inl e), w)
    | None =>
        let row := mkFile (rowId env) name size type storage_path owner_id folder_id
                     (now env) None in
        (inr (inr row), setFiles (files (db w) ++ [row]) w)
    end.

Definition uploadFile (env : Env) (user : User) (reqFile : option Upload)
    (folderId : option string) : Route :=
  match reqFile with
  | None => respond (json 400 (Error "file is required"))
  | Some upload =>
      (if truthyOpt folderId
       then requireOwner env user "folders"
              (match folderId with Some i => i | None => "" end) "Target folder not found"
       else ret tt) ;;;
      let key :=
        (u_id user ++ "/" ++ uuid env ++ "_" ++ encodeURIComponent (originalname upload))%string in
      up <- storageUpload env key ;;
      match up with
      | Some e => respond (json 500 (Error e))
      | None =>
          insert <- insertFile env (originalname upload) (size upload) (mimetype upload) key
                      (u_id user) folderId ;;
          match insert with
          | inl e =>
              (* roll back storage object if DB insert failed *)
              storageRemove env key ;;;
              respond (json 500 (Error e))
          | inr data =>
              let signedUrl :=
                match flt env (StorageSign key) with
                | Some _ => None
                | None => Some (sign env key)
                end in
              respond (json 200 (Uploaded key signedUrl data))
          end
      end
  end.

(** *** search.routes: GET /api/search *)

Record SearchQuery := mkSearchQuery {
  sq_q : option string;
  sq_scope : option string;
  sq_limit : option string;
  sq_offset : option string;
  sq_sort : option string;
  sq_order : option string
}.

(** The error of a query whose window the store does not serve. *)
Definition badRange : string := "Requested range not satisfiable".

(** The query on [files]: [owner_id = user.id], [deleted_at is null], the
    name pattern when [q] is not empty, the order, the window from [offset]
    to [offset + limit - 1], computed on doubles, with the exact count
    asked.  Rows are returned whole: the column list of [select] is not
    modelled. *)
Definition searchFiles (flt : Faults) (db : Db) (user : User) (q sort order : string)
    (offset limit : Number) : string + list FileRow :=
  match flt (Select "files") with
  | Some e => inl e
  | None =>
      let f := filter (fun r => (f_owner_id r =? u_id user) &&
                                match f_deleted_at r with None => true | Some _ => false end)
                 (files db) in
      let f := if truthy q then filter (fun r => ilike (f_name r) ("%" ++ q ++ "%")) f else f in
      let f := if sort =? "name" then orderFiles "name" (order =? "asc") f
               else orderFiles "created_at" (order =? "asc") f in
      let to := sub (add offset limit) (Finite 1) in
      match range offset to f with
      | Some rows => inr rows
      | None => inl badRange
      end
  end.

Definition searchFolders (flt : Faults) (db : Db) (user : User) (q sort order : string)
    (offset limit : Number) : string + list FolderRow :=
  match flt (Select "folders") with
  | Some e => inl e
  | None =>
      let d := filter (fun r => (d_owner_id r =? u_id user) &&
                                match d_deleted_at r with None => true | Some _ => false end)
                 (folders db) in
      let d := if truthy q then filter (fun r => ilike (d_name r) ("%" ++ q ++ "%")) d else d in
      let d := if sort =? "name" then orderFolders "name" (order =? "asc") d
               else orderFolders "created_at" (order =? "asc") d in
      let to := sub (add offset limit) (Finite 1) in
      match range offset to d with
      | Some rows => inr rows
      | None => inl badRange
      end
  end.

Definition search (flt : Faults) (db : Db) (user : User) (query : SearchQuery) : Response :=
  let q := match sq_q query with Some s => trim s | None => "" end in
  let scope := orElse (sq_scope query) "all" in
  let limit := mathMin (parseInt (orElse (sq_limit query) "20")) 100 in
  let offset := mathMax (parseInt (orElse (sq_offset query) "0")) 0 in
  let sort := orElse (sq_sort query) "created_at" in
  let order := if toLowerCase (orElse (sq_order query) "desc") =? "asc" then "asc" else "desc" in
  let wantFiles := (scope =? "files") || (scope =? "all") in
  let wantFolders := (scope =? "folders") || (scope =? "all") in
  match (if wantFiles then searchFiles flt db user q sort order offset limit else inr []) with
  | inl e => json 500 (Error e)
  | inr files =>
      match (if wantFolders then searchFolders flt db user q sort order offset limit
             else inr []) with
      | inl e => json 500 (Error e)
      | inr folders => json 200 (Found files folders)
      end
  end.

End Routes.

(** The query with another [offset] parameter. *)
Definition withOffset (offset : option string) (query : SearchQuery) : SearchQuery :=
  mkSearchQuery (sq_q query) (sq_scope query) (sq_limit query) offset (sq_sort query)
    (sq_order query).

(** The resources a response of the search carries. *)
Definition filesOf (r : Response) : list FileRow :=
  match body r with
  | Found fs _ => fs
  | _ => []
  end.

Definition foldersOf (r : Response) : list FolderRow :=
  match body r with
  | Found _ ds => ds
  | _ => []
  end.

(** *** The other routes of the API *)

(** The answers of the routes that send rows: [Sent] for an error or a
    message, the other answers are [res.json(..)] with status 200. *)
Inductive Reply :=
| Sent (r : Response)
| FolderJson (row : FolderRow)
| FileJson (row : FileRow)
| FilesJson (rows : list FileRow)
| TrashJson (trashedFiles : list FileRow) (trashedFolders : list FolderRow)
| SignedUrlJson (signedUrl : string)
| GrantJson (row : PermissionRow)
| SharesJson (link : option string) (share : option ShareRow) (grants : list PermissionRow).

Definition statusOf (r : Reply) : nat :=
  match r with
  | Sent r => status r
  | _ => 200
  end.

Definition DataRoute := M World Reply Reply.

(** A step that may answer with an error, inside a route that sends rows. *)
Definition lift {A : Type} (m : M World Response A) : M World Reply A :=
  fun w =>
    match m w with
    | (inl r, w') => (inl (Sent r), w')
    | (inr a, w') => (inr a, w')
    end.

(** [return res.status(status).json({ error })] *)
Definition fail {A : Type} (status : nat) (error : string) : M World Reply A :=
  respond (Sent (json status (Error error))).

Definition setPermissions (rows : list PermissionRow) (w : World) : World :=
  mkWorld (mkDb (files (db w)) (folders (db w)) (shares (db w)) rows) (storage w).

(** [.maybeSingle()]: no data without rows, and none with several. *)
Definition maybeSingle {A : Type} (rows : list A) : option A := single rows.

(** **** shares.routes: DELETE /link, POST /grant, DELETE /grant, GET *)

(** [await from('shares').delete().eq('resource_type', ..).eq('resource_id', ..)],
    result unread. *)
Definition deleteShares (env : Env) (resourceType : ResourceType) (resourceId : string)
    : M World Response unit :=
  fun w =>
    match flt env (Delete "shares") with
    | Some _ => (inr tt, w)
    | None =>
        (inr tt,
         setShares (filter (fun r => negb (shareKey resourceType resourceId r))
                      (shares (db w))) w)
    end.

Definition revokeLink (env : Env) (user : User) (resourceType : ResourceType)
    (resourceId : string) : Route :=
  requireOwner env user (tableOf resourceType) resourceId "Resource not found" ;;;
  deleteShares env resourceType resourceId ;;;
  respond (json 200 (Message "Link revoked")).

Record GrantBody := mkGrantBody {
  gb_resourceType : option ResourceType;
  gb_resourceId : option string;
  gb_email : option string;
  gb_role : option Role
}.

(** The conflict target of the grant:
    [onConflict: 'resource_type,resource_id,grantee_email']. *)
Definition grantKey (resourceType : ResourceType) (resourceId email : string)
    (r : PermissionRow) : bool :=
  ResourceType_eqb (p_resource_type r) resourceType
  && (p_resource_id r =? resourceId)
  && (p_grantee_email r =? email).

Definition grantKeyOf (r : PermissionRow) : ResourceType * string * string :=
  (p_resource_type r, p_resource_id r, p_grantee_email r).

(** The rows after the upsert of a grant: the row in conflict is rewritten,
    otherwise the grant is appended. *)
Definition upsertGrantRows (resourceType : ResourceType) (resourceId email : string)
    (role : Role) (rows : list PermissionRow) : list PermissionRow :=
  if existsb (grantKey resourceType resourceId email) rows
  then map (fun r =>
              if grantKey resourceType resourceId email r
              then mkPermission resourceType resourceId email role
              else r) rows
  else rows ++ [mkPermission resourceType resourceId email role].

(** [from('permissions').upsert(..).select('*').single()] *)
Definition upsertPermission (env : Env) (resourceType : ResourceType)
    (resourceId email : string) (role : Role) : M World Reply (string + PermissionRow) :=
  fun w =>
    match flt env (Upsert "permissions") with
    | Some e => (inr (inl e), w)
    | None =>
        let rows := upsertGrantRows resourceType resourceId email role (permissions (db w)) in
        match single (filter (grantKey resourceType resourceId email) rows) with
        | Some row => (inr (inr row), setPermissions rows w)
        | None => (inr (inl notSingle), w)
        end
    end.

(** [await from('permissions').delete().eq(..).eq(..).eq('grantee_email', ..)],
    result unread. *)
Definition deletePermissions (env : Env) (resourceType : ResourceType)
    (resourceId email : string) : M World Response unit :=
  fun w =>
    match flt env (Delete "permissions") with
    | Some _ => (inr tt, w)
    | None =>
        (inr tt,
         setPermissions (filter (fun r => negb (grantKey resourceType resourceId email r))
                           (permissions (db w))) w)
    end.

Section MoreRoutes.

Context {P : Platform FileRow FolderRow}.

Definition grant (env : Env) (user : User) (body : GrantBody) : DataRoute :=
  match gb_resourceType body, orNull (gb_resourceId body), orNull (gb_email body),
        gb_role body with
  | Some resourceType, Some resourceId, Some email, Some role =>
      lift (requireOwner env user (tableOf resourceType) resourceId "Resource not found") ;;;
      up <- upsertPermission env resourceType resourceId (toLowerCase email) role ;;
      match up with
      | inl e => fail 500 e
      | inr data => respond (GrantJson data)
      end
  | _, _, _, _ => fail 400 "resourceType, resourceId, email, role required"
  end.

Definition revokeGrant (env : Env) (user : User) (resourceType : ResourceType)
    (resourceId email : string) : Route :=
  requireOwner env user (tableOf resourceType) resourceId "Resource not found" ;;;
  deletePermissions env resourceType resourceId (toLowerCase email) ;;;
  respond (json 200 (Message "Access revoked")).

(** GET /api/shares/:resourceType/:resourceId *)
Definition describeShares (env : Env) (user : User) (resourceType : ResourceType)
    (resourceId : string) : DataRoute :=
  lift (requireOwner env user (tableOf resourceType) resourceId "Resource not found") ;;;
  w <- get ;;
  let share :=
    match flt env (Select "shares") with
    | Some _ => None
    | None => maybeSingle (filter (shareKey resourceType resourceId) (shares (db w)))
    end in
  let grants :=
    match flt env (Select "permissions") with
    | Some _ => []
    | None => filter (fun r => ResourceType_eqb (p_resource_type r) resourceType
                               && (p_resource_id r =? resourceId)) (permissions (db w))
    end in
  let link := option_map (fun s => shareUrl env resourceType resourceId (s_link_token s)) share in
  respond (SharesJson link share grants).

(** **** folders.routes: create, rename, move *)

Definition setFolderName (name : string) (r : FolderRow) : FolderRow :=
  mkFolder (d_id r) name (d_parent_id r) (d_owner_id r) (d_created_at r) (d_deleted_at r).

Definition setFolderParent (parent_id : option string) (r : FolderRow) : FolderRow :=
  mkFolder (d_id r) (d_name r) parent_id (d_owner_id r) (d_created_at r) (d_deleted_at r).

(** [from('folders').update(..).eq('id', id).select('*').single()] *)
Definition updateFolderRow (env : Env) (id : string) (change : FolderRow -> FolderRow)
    : M World Reply (string + FolderRow) :=
  fun w =>
    match flt env (Update "folders") with
    | Some e => (inr (inl e), w)
    | None =>
        let rows := map (fun r => if d_id r =? id then change r else r) (folders (db w)) in
        match single (filter (fun r => d_id r =? id) rows) with
        | Some data => (inr (inr data), setFolders rows w)
        | None => (inr (inl notSingle), w)
        end
    end.

(** [from('folders').insert([..]).select('*').single()]: [id], [created_at]
    and [deleted_at] are the store's. *)
Definition insertFolder (env : Env) (name : string) (parent_id : option string)
    (owner_id : string) : M World Reply (string + FolderRow) :=
  fun w =>
    match flt env (Insert "folders") with
    | Some e => (inr (inl e), w)
    | None =>
        let row := mkFolder (rowId env) name parent_id owner_id (now env) None in
        (inr (inr row), setFolders (folders (db w) ++ [row]) w)
    end.

(** [!name?.trim()]: the trimmed name, when there is one and it is not empty. *)
Definition trimmed (name : option string) : option string :=
  match name with
  | Some n => if truthy (trim n) then Some (trim n) else None
  | None => None
  end.

(** The check of the target folder of a create, move or upload:
    [if (target) { 404 unless it has a row; 403 unless the caller owns it }]. *)
Definition requireTarget (env : Env) (user : User) (target : option string)
    (notFound : string) : M World Response unit :=
  match orNull target with
  | Some id => requireOwner env user "folders" id notFound
  | None => ret tt
  end.

Definition createFolder (env : Env) (user : User) (name parentId : option string)
    : DataRoute :=
  match trimmed name with
  | None => fail 400 "Name required"
  | Some name =>
      lift (requireTarget env user parentId "Parent not found") ;;;
      ins <- insertFolder env name parentId (u_id user) ;;
      match ins with
      | inl e => fail 500 e
      | inr data => respond (FolderJson data)
      end
  end.

Definition renameFolder (env : Env) (user : User) (id : string) (name : option string)
    : DataRoute :=
  match trimmed name with
  | None => fail 400 "Name required"
  | Some name =>
      lift (requireOwner env user "folders" id "Folder not found") ;;;
      upd <- updateFolderRow env id (setFolderName name) ;;
      match upd with
      | inl e => fail 500 e
      | inr data => respond (FolderJson data)
      end
  end.

Definition moveFolder (env : Env) (user : User) (id : string) (newParentId : option string)
    : DataRoute :=
  lift (requireOwner env user "folders" id "Folder not found") ;;;
  lift (requireTarget env user newParentId "Target folder not found") ;;;
  upd <- updateFolderRow env id (setFolderParent newParentId) ;;
  match upd with
  | inl e => fail 500 e
  | inr data => respond (FolderJson data)
  end.

(** **** files.routes: list, signed URL, rename, move, trash, restore, purge *)

Definition setFileName (name : string) (r : FileRow) : FileRow :=
  mkFile (f_id r) name (f_size r) (f_type r) (f_storage_path r) (f_owner_id r)
    (f_folder_id r) (f_created_at r) (f_deleted_at r).

Definition setFileFolder (folder_id : option string) (r : FileRow) : FileRow :=
  mkFile (f_id r) (f_name r) (f_size r) (f_type r) (f_storage_path r) (f_owner_id r)
    folder_id (f_created_at r) (f_deleted_at r).

Definition setFileDeletedAt (deleted_at : option Z) (r : FileRow) : FileRow :=
  mkFile (f_id r) (f_name r) (f_size r) (f_type r) (f_storage_path r) (f_owner_id r)
    (f_folder_id r) (f_created_at r) deleted_at.

Definition isNull {A : Type} (o : option A) : bool :=
  match o with
  | None => true
  | Some _ => false
  end.

(** GET /api/files *)
Definition listFiles (env : Env) (user : User) : DataRoute :=
  w <- get ;;
  match flt env (Select "files") with
  | Some e => fail 500 e
  | None =>
      respond (FilesJson
        (orderFiles "created_at" false
           (filter (fun r => (f_owner_id r =? u_id user) && isNull (f_deleted_at r))
              (files (db w)))))
  end.

(** GET /api/files/trash/list *)
Definition listTrash (env : Env) (user : User) : DataRoute :=
  w <- get ;;
  let trashedFiles :=
    filter (fun r => negb (isNull (f_deleted_at r)) && (f_owner_id r =? u_id user))
      (files (db w)) in
  let trashedFolders :=
    filter (fun r => negb (isNull (d_deleted_at r)) && (d_owner_id r =? u_id user))
      (folders (db w)) in
  match flt env (Select "files"), flt env (Select "folders") with
  | Some e, _ => fail 500 e
  | None, Some e => fail 500 e
  | None, None => respond (TrashJson trashedFiles trashedFolders)
  end.

(** GET /api/files/signed-url?key= *)
Definition signedUrl (env : Env) (user : User) (key : option string) : DataRoute :=
  match orNull key with
  | None => fail 400 "key is required"
  | Some key =>
      w <- get ;;
      let row :=
        match flt env (Select "files") with
        | Some _ => None
        | None => single (filter (fun r => f_storage_path r =? key) (files (db w)))
        end in
      match row with
      | None => fail 404 "File not found"
      | Some data =>
          if f_owner_id data =? u_id user
          then match flt env (StorageSign key) with
               | Some e => fail 500 e
               | None => respond (SignedUrlJson (sign env key))
               end
          else fail 403 "Not allowed"
      end
  end.

(** [from('files').update(..).eq('id', id).select('*').single()] *)
Definition updateFileRow (env : Env) (id : string) (change : FileRow -> FileRow)
    : M World Reply (string + FileRow) :=
  fun w =>
    match flt env (Update "files") with
    | Some e => (inr (inl e), w)
    | None =>
        let rows := map (fun r => if f_id r =? id then change r else r) (files (db w)) in
        match single (filter (fun r => f_id r =? id) rows) with
        | Some data => (inr (inr data), setFiles rows w)
        | None => (inr (inl notSingle), w)
        end
    end.

Definition renameFile (env : Env) (user : User) (id : string) (name : option string)
    : DataRoute :=
  match trimmed name with
  | None => fail 400 "Name required"
  | Some name =>
      lift (requireOwner env user "files" id "File not found") ;;;
      upd <- updateFileRow env id (setFileName name) ;;
      match upd with
      | inl e => fail 500 e
      | inr data => respond (FileJson data)
      end
  end.

Definition moveFile (env : Env) (user : User) (id : string) (newFolderId : option string)
    : DataRoute :=
  lift (requireOwner env user "files" id "File not found") ;;;
  lift (requireTarget env user newFolderId "Target folder not found") ;;;
  upd <- updateFileRow env id (setFileFolder newFolderId) ;;
  match upd with
  | inl e => fail 500 e
  | inr data => respond (FileJson data)
  end.

(** [from('files').update({deleted_at}).eq('id', id)]: its error, if any. *)
Definition updateFileDeletedAt (env : Env) (id : string) (deleted_at : option Z)
    : M World Response (option string) :=
  fun w =>
    match flt env (Update "files") with
    | Some e => (inr (Some e), w)
    | None =>
        (inr None,
         setFiles (map (fun r => if f_id r =? id then setFileDeletedAt deleted_at r else r)
                     (files (db w))) w)
    end.

Definition softDeleteFile (env : Env) (user : User) (id : string) : Route :=
  requireOwner env user "files" id "File not found" ;;;
  error <- updateFileDeletedAt env id (Some (now env)) ;;
  match error with
  | Some e => respond (json 500 (Error e))
  | None => respond (json 200 (Message "Moved to Trash"))
  end.

Definition restoreFile (env : Env) (user : User) (id : string) : Route :=
  requireOwner env user "files" id "File not found" ;;;
  error <- updateFileDeletedAt env id None ;;
  match error with
  | Some e => respond (json 500 (Error e))
  | None => respond (json 200 (Message "Restored"))
  end.

(** [from('files').select('owner_id, storage_path').eq('id', id).single()] *)
Definition selectFile (env : Env) (id : string) : M World Response (option FileRow) :=
  fun w =>
    match flt env (Select "files") with
    | Some _ => (inr None, w)
    | None => (inr (single (filter (fun r => f_id r =? id) (files (db w)))), w)
    end.

(** [from('files').delete().eq('id', id)]: its error, if any. *)
Definition deleteFile (env : Env) (id : string) : M World Response (option string) :=
  fun w =>
    match flt env (Delete "files") with
    | Some e => (inr (Some e), w)
    | None => (inr None, setFiles (filter (fun r => negb (f_id r =? id)) (files (db w))) w)
    end.

(** DELETE /api/files/:id/hard *)
Definition hardDeleteFile (env : Env) (user : User) (id : string) : Route :=
  row <- selectFile env id ;;
  match row with
  | None => respond (json 404 (Error "File not found"))
  | Some data =>
      if f_owner_id data =? u_id user
      then
        storageRemove env (f_storage_path data) ;;;
        delDb <- deleteFile env id ;;
        match delDb with
        | Some e => respond (json 500 (Error e))
        | None => respond (json 200 (Message "Permanently deleted"))
        end
      else respond (json 403 (Error "Not allowed"))
  end.

End MoreRoutes.

(** **** The gate of the resolver *)

(** [ensureAllowed(role, action)] for a policy table [roleAllows] (the
    table of [utils/permissions] is taken as given): the error thrown, with
    its status, or nothing. *)
Definition ensureAllowed {Action : Type} (roleAllows : Role -> Action -> bool)
    (role : option Role) (action : Action) : option (nat * string) :=
  match role with
  | Some r => if roleAllows r action then None else Some (403%nat, "Not allowed")
  | None => Some (403%nat, "Not allowed")
  end.

(** **** Outcomes of a request that is turned away *)

(** The request changed nothing and was answered 400, 403 or 404. *)
Definition refused (w : World) (out : Response * World) : Prop :=
  snd out = w /\ In (status (fst out)) [400; 403; 404]%nat.

Definition refusedData (w : World) (out : Reply * World) : Prop :=
  snd out = w /\ In (statusOf (fst out)) [400; 403; 404]%nat.

(** The expiry a link gets from [expiresInDays]. *)
Definition expiryOf {P : Platform FileRow FolderRow} (env : Env) (days : option Z) : option Z :=
  match days with
  | Some d => if (0 <? d)%Z then Some (addDays (now env) d) else None
  | None => None
  end.

(** The files and folders an answer carries. *)
Definition listedFiles (r : Reply) : list FileRow :=
  match r with
  | FilesJson rows => rows
  | TrashJson rows _ => rows
  | _ => []
  end.

Definition listedFolders (r : Reply) : list FolderRow :=
  match r with
  | TrashJson _ rows => rows
  | _ => []
  end.

End Api.

(** ** The Express server of server/index.js *)
Module Legacy.

Import JS Query Store Handler.
Local Open Scope handler_scope.

(** Rows of [files] and [folders]; the columns a handler does not write
    ([is_deleted], [deleted_at], [created_at], [updated_at] on insert) are
    the store's. *)
Record FileRow := mkFile {
  f_id : string;
  f_name : string;
  f_owner : string;
  f_folder_id : option string;
  f_bucket_path : string;
  f_size : Z;
  f_mime : string;
  f_is_deleted : bool;
  f_deleted_at : option Z;
  f_created_at : Z;
  f_updated_at : option Z
}.

Record FolderRow := mkFolder {
  d_id : string;
  d_name : string;
  d_parent_id : option string;
  d_owner : string;
  d_is_deleted : bool;
  d_deleted_at : option Z;
  d_created_at : Z;
  d_updated_at : option Z
}.

(** The two tables and the objects of bucket ["drive-files"]. *)
Record World := mkWorld {
  files : list FileRow;
  folders : list FolderRow;
  storage : list string
}.

(** What one request draws from outside the handler: the failures of its
    store calls, the successive values of [new Date()] (the k-th call reads
    [clock k]) and [uuidv4()]. *)
Record Env := mkEnv {
  flt : Faults;
  clock : nat -> Z;
  uuidv4 : string
}.

Inductive Body :=
| Error (error : string)
| FolderBody (folder : FolderRow)
| FileBody (file : FileRow)
| Ok.

Record Response := json {
  status : nat;
  body : Body
}.

Definition Route := M World Response Response.

Definition setFiles (rows : list FileRow) (w : World) : World :=
  mkWorld rows (folders w) (storage w).

Definition setFolders (rows : list FolderRow) (w : World) : World :=
  mkWorld (files w) rows (storage w).

Definition setStorage (objects : list string) (w : World) : World :=
  mkWorld (files w) (folders w) objects.

Definition eqOpt (o : option string) (id : string) : bool :=
  match o with
  | Some x => x =? id
  | None => false
  end.

(** *** Store calls *)

(** [from("folders").select("*").eq("id", id).single()]: [folder], null on
    error. *)
Definition selectFolder (env : Env) (id : string) : M World Response (option FolderRow) :=
  fun w =>
    match flt env (Select "folders") with
    | Some _ => (inr None, w)
    | None => (inr (single (filter (fun r => d_id r =? id) (folders w))), w)
    end.

(** [from("folders").update(..).eq("id", id).select().single()] *)
Definition updateFolder (env : Env) (id : string) (change : FolderRow -> FolderRow)
    : M World Response (string + FolderRow) :=
  fun w =>
    match flt env (Update "folders") with
    | Some e => (inr (inl e), w)
    | None =>
        let rows := map (fun r => if d_id r =? id then change r else r) (folders w) in
        match single (filter (fun r => d_id r =? id) rows) with
        | Some data => (inr (inr data), setFolders rows w)
        | None => (inr (inl notSingle), w)
        end
    end.

(** [from("files").update(..).eq("id", id).select().single()] *)
Definition updateFile (env : Env) (id : string) (change : FileRow -> FileRow)
    : M World Response (string + FileRow) :=
  fun w =>
    match flt env (Update "files") with
    | Some e => (inr (inl e), w)
    | None =>
        let rows := map (fun r => if f_id r =? id then change r else r) (files w) in
        match single (filter (fun r => f_id r =? id) rows) with
        | Some data => (inr (inr data), setFiles rows w)
        | None => (inr (inl notSingle), w)
        end
    end.

(** [await from("files").update(..).eq("folder_id", id)], result unread. *)
Definition updateFilesOf (env : Env) (id : string) (change : FileRow -> FileRow)
    : M World Response unit :=
  fun w =>
    match flt env (Update "files") with
    | Some _ => (inr tt, w)
    | None =>
        (inr tt,
         setFiles (map (fun r => if eqOpt (f_folder_id r) id then change r else r) (files w)) w)
    end.

(** [from("files").select("*").eq("folder_id", id)] *)
Definition selectFilesOf (env : Env) (id : string) : M World Response (string + list FileRow) :=
  fun w =>
    match flt env (Select "files") with
    | Some e => (inr (inl e), w)
    | None => (inr (inr (filter (fun r => eqOpt (f_folder_id r) id) (files w))), w)
    end.

(** [await from("files").delete().eq("folder_id", id)], result unread. *)
Definition deleteFilesOf (env : Env) (id : string) : M World Response unit :=
  fun w =>
    match flt env (Delete "files") with
    | Some _ => (inr tt, w)
    | None => (inr tt, setFiles (filter (fun r => negb (eqOpt (f_folder_id r) id)) (files w)) w)
    end.

(** [from("folders").delete().eq("id", id)]: its error, if any. *)
Definition deleteFolder (env : Env) (id : string) : M World Response (option string) :=
  fun w =>
    match flt env (Delete "folders") with
    | Some e => (inr (Some e), w)
    | None => (inr None, setFolders (filter (fun r => negb (d_id r =? id)) (folders w)) w)
    end.

(** [bucket.remove([path])], result unread. *)
Definition storageRemove (env : Env) (path : string) : M World Response unit :=
  fun w => (inr tt, setStorage (removeObject (flt env) path (storage w)) w).

(** [storage.from("drive-files").upload(path, .., {upsert: false})] *)
Definition storageUpload (env : Env) (path : string) : M World Response (option string) :=
  fun w =>
    match flt env (StorageUpload path) with
    | Some e => (inr (Some e), w)
    | None =>
        if existsb (String.eqb path) (storage w)
        then (inr (Some "The resource already exists"), w)
        else (inr None, setStorage (path :: storage w) w)
    end.

(** [from("files").insert(payload).select().single()] *)
Definition insertFile (env : Env) (id name owner : string) (folder_id : option string)
    (bucket_path : string) (size : Z) (mime : string) : M World Response (string + FileRow) :=
  fun w =>
    match flt env (Insert "files") with
    | Some e => (inr (inl e), w)
    | None =>
        let row := mkFile id name owner folder_id bucket_path size mime false None
                     (clock env 0) None in
        (inr (inr row), setFiles (files w ++ [row]) w)
    end.

(** The folder the store holds under [id], and the files directly in it. *)
Definition folderOf (w : World) (id : string) : option FolderRow :=
  single (filter (fun r => d_id r =? id) (folders w)).

Definition filesIn (w : World) (id : string) : list FileRow :=
  filter (fun r => eqOpt (f_folder_id r) id) (files w).

(** *** Routes *)

(** The check the guarded folder routes start with:
    [if (fErr || !folder) return 404; if (folder.owner !== req.user.id) return 403]. *)
Definition requireFolderOwner (env : Env) (user id : string) : M World Response unit :=
  folder <- selectFolder env id ;;
  match folder with
  | None => respond (json 404 (Error "Folder not found"))
  | Some folder =>
      if d_owner folder =? user then ret tt
      else respond (json 403 (Error "Forbidden"))
  end.

(** PATCH /folders/:id *)
Definition renameFolder (env : Env) (user id : string) (name : option string) : Route :=
  match orNull name with
  | None => respond (json 400 (Error "Missing name"))
  | Some name =>
      requireFolderOwner env user id ;;;
      upd <- updateFolder env id (fun r =>
               mkFolder (d_id r) name (d_parent_id r) (d_owner r) (d_is_deleted r)
                 (d_deleted_at r) (d_created_at r) (Some (clock env 0))) ;;
      match upd with
      | inl e => respond (json 500 (Error e))
      | inr data => respond (json 200 (FolderBody data))
      end
  end.

(** PATCH /folders/:id/move *)
Definition moveFolder (env : Env) (user id : string) (parent_id : option string) : Route :=
  upd <- updateFolder env id (fun r =>
           mkFolder (d_id r) (d_name r) (orNull parent_id) (d_owner r) (d_is_deleted r)
             (d_deleted_at r) (d_created_at r) (Some (clock env 0))) ;;
  match upd with
  | inl e => respond (json 500 (Error e))
  | inr data => respond (json 200 (FolderBody data))
  end.

(** PATCH /files/:id/move *)
Definition moveFile (env : Env) (user id : string) (folder_id : option string) : Route :=
  upd <- updateFile env id (fun r =>
           mkFile (f_id r) (f_name r) (f_owner r) (orNull folder_id) (f_bucket_path r)
             (f_size r) (f_mime r) (f_is_deleted r) (f_deleted_at r) (f_created_at r)
             (Some (clock env 0))) ;;
  match upd with
  | inl e => respond (json 500 (Error e))
  | inr data => respond (json 200 (FileBody data))
  end.

(** The marks of the trash on a file row. *)
Definition markFile (is_deleted : bool) (deleted_at : option Z) (r : FileRow) : FileRow :=
  mkFile (f_id r) (f_name r) (f_owner r) (f_folder_id r) (f_bucket_path r) (f_size r)
    (f_mime r) is_deleted deleted_at (f_created_at r) (f_updated_at r).

(** DELETE /folders/:id *)
Definition softDeleteFolder (env : Env) (user id : string) : Route :=
  requireFolderOwner env user id ;;;
  upd <- updateFolder env id (fun r =>
           mkFolder (d_id r) (d_name r) (d_parent_id r) (d_owner r) true
             (Some (clock env 0)) (d_created_at r) (Some (clock env 1))) ;;
  match upd with
  | inl e => respond (json 500 (Error e))
  | inr data =>
      updateFilesOf env id (markFile true (Some (clock env 2))) ;;;
      respond (json 200 (FolderBody data))
  end.

(** POST /restore/folder/:id *)
Definition restoreFolder (env : Env) (user id : string) : Route :=
  requireFolderOwner env user id ;;;
  upd <- updateFolder env id (fun r =>
           mkFolder (d_id r) (d_name r) (d_parent_id r) (d_owner r) false
             None (d_created_at r) (Some (clock env 0))) ;;
  match upd with
  | inl e => respond (json 500 (Error e))
  | inr data =>
      updateFilesOf env id (markFile false None) ;;;
      respond (json 200 (FolderBody data))
  end.

(** [for (const f of files) { try { await bucket.remove([f.bucket_path]) } catch .. }] *)
Fixpoint removeEach (env : Env) (rows : list FileRow) : M World Response unit :=
  match rows with
  | [] => ret tt
  | f :: rest => storageRemove env (f_bucket_path f) ;;; removeEach env rest
  end.

(** DELETE /folders/:id/hard *)
Definition hardDeleteFolder (env : Env) (user id : string) : Route :=
  requireFolderOwner env user id ;;;
  sel <- selectFilesOf env id ;;
  match sel with
  | inl e => respond (json 500 (Error e))
  | inr rows =>
      removeEach env rows ;;;
      deleteFilesOf env id ;;;
      error <- deleteFolder env id ;;
      match error with
      | Some e => respond (json 500 (Error e))
      | None => respond (json 200 Ok)
      end
  end.

(** [req.file] as the handler reads it. *)
Record Upload := mkUpload {
  originalname : string;
  mimetype : string;
  size : Z
}.

(** POST /files/upload *)
Definition uploadFile (env : Env) (user : string) (reqFile : option Upload)
    (folder_id : option string) : Route :=
  match reqFile with
  | None => respond (json 400 (Error "Missing file"))
  | Some upload =>
      let newId := uuidv4 env in
      let safeName := replaceSpaces false (originalname upload) in
      let path := ("user-" ++ user ++ "/" ++ newId ++ "_" ++ safeName)%string in
      upErr <- storageUpload env path ;;
      match upErr with
      | Some e => respond (json 500 (Error e))
      | None =>
          ins <- insertFile env newId (originalname upload) user (orNull folder_id) path
                   (size upload) (mimetype upload) ;;
          match ins with
          | inl e =>
              storageRemove env path ;;;
              respond (json 500 (Error e))
          | inr data => respond (json 200 (FileBody data))
          end
      end
  end.

(** *** The other routes of the server *)

(** The answers of the routes that send lists or a URL. *)
Inductive Reply :=
| Sent (r : Response)
| TrashJson (trashedFiles : list FileRow) (trashedFolders : list FolderRow)
| UrlJson (url : string)
| FilesJson (rows : list FileRow)
| FoldersJson (rows : list FolderRow).

Definition statusOf (r : Reply) : nat :=
  match r with
  | Sent r => status r
  | _ => 200
  end.

Definition DataRoute := M World Reply Reply.

(** [from("files").select("*").eq("id", id).single()]: [file], null on error. *)
Definition selectFile (env : Env) (id : string) : M World Response (option FileRow) :=
  fun w =>
    match flt env (Select "files") with
    | Some _ => (inr None, w)
    | None => (inr (single (filter (fun r => f_id r =? id) (files w))), w)
    end.

(** The file the store holds under [id]. *)
Definition fileOf (w : World) (id : string) : option FileRow :=
  single (filter (fun r => f_id r =? id) (files w)).

(** The check the guarded file routes start with; the route goes on with
    the row. *)
Definition requireFileOwner (env : Env) (user id : string) : M World Response FileRow :=
  file <- selectFile env id ;;
  match file with
  | None => respond (json 404 (Error "File not found"))
  | Some file =>
      if f_owner file =? user then ret file
      else respond (json 403 (Error "Forbidden"))
  end.

(** [from("files").delete().eq("id", id)]: its error, if any. *)
Definition deleteFile (env : Env) (id : string) : M World Response (option string) :=
  fun w =>
    match flt env (Delete "files") with
    | Some e => (inr (Some e), w)
    | None => (inr None, setFiles (filter (fun r => negb (f_id r =? id)) (files w)) w)
    end.

(** PATCH /files/:id *)
Definition renameFile (env : Env) (user id : string) (name : option string) : Route :=
  match orNull name with
  | None => respond (json 400 (Error "Missing name"))
  | Some name =>
      requireFileOwner env user id ;;;
      upd <- updateFile env id (fun r =>
               mkFile (f_id r) name (f_owner r) (f_folder_id r) (f_bucket_path r) (f_size r)
                 (f_mime r) (f_is_deleted r) (f_deleted_at r) (f_created_at r)
                 (Some (clock env 0))) ;;
      match upd with
      | inl e => respond (json 500 (Error e))
      | inr data => respond (json 200 (FileBody data))
      end
  end.

(** The marks of the trash and [updated_at] on a file row. *)
Definition stampFile (is_deleted : bool) (deleted_at : option Z) (updated_at : Z)
    (r : FileRow) : FileRow :=
  mkFile (f_id r) (f_name r) (f_owner r) (f_folder_id r) (f_bucket_path r) (f_size r)
    (f_mime r) is_deleted deleted_at (f_created_at r) (Some updated_at).

(** DELETE /files/:id *)
Definition softDeleteFile (env : Env) (user id : string) : Route :=
  requireFileOwner env user id ;;;
  upd <- updateFile env id (stampFile true (Some (clock env 0)) (clock env 1)) ;;
  match upd with
  | inl e => respond (json 500 (Error e))
  | inr data => respond (json 200 (FileBody data))
  end.

(** POST /restore/file/:id *)
Definition restoreFile (env : Env) (user id : string) : Route :=
  requireFileOwner env user id ;;;
  upd <- updateFile env id (stampFile false None (clock env 0)) ;;
  match upd with
  | inl e => respond (json 500 (Error e))
  | inr data => respond (json 200 (FileBody data))
  end.

(** DELETE /files/:id/hard *)
Definition hardDeleteFile (env : Env) (user id : string) : Route :=
  file <- requireFileOwner env user id ;;
  storageRemove env (f_bucket_path file) ;;;
  error <- deleteFile env id ;;
  match error with
  | Some e => respond (json 500 (Error e))
  | None => respond (json 200 Ok)
  end.

(** GET /trash *)
Definition listTrash (env : Env) (user : string) : DataRoute :=
  w <- get ;;
  match flt env (Select "files"), flt env (Select "folders") with
  | None, None =>
      respond (TrashJson
        (filter (fun r => (f_owner r =? user) && f_is_deleted r) (files w))
        (filter (fun r => (d_owner r =? user) && d_is_deleted r) (folders w)))
  | _, _ => respond (Sent (json 500 (Error "Error fetching trash")))
  end.

(** GET /files/:id/download; [sign] is the signing of the storage service. *)
Definition download (env : Env) (sign : string -> string) (user id : string) : DataRoute :=
  w <- get ;;
  match (match flt env (Select "files") with
         | Some _ => None
         | None => fileOf w id
         end) with
  | None => respond (Sent (json 404 (Error "File not found")))
  | Some file =>
      match flt env (StorageSign (f_bucket_path file)) with
      | Some e => respond (Sent (json 500 (Error e)))
      | None => respond (UrlJson (sign (f_bucket_path file)))
      end
  end.

Section Listings.

Context {P : Platform FileRow FolderRow}.

(** GET /folders/:id/files; [id] is the route parameter, ["root"] for the
    root, [includeDeleted] the query parameter.  The store orders the rows
    that pass the filters. *)
Definition listFiles (env : Env) (user id : string) (includeDeleted : option string)
    : DataRoute :=
  w <- get ;;
  let id := if id =? "root" then None else Some id in
  let includeDeleted := match includeDeleted with Some s => s =? "true" | None => false end in
  let q := filter (fun r => f_owner r =? user) (files w) in
  let q := match orNull id with
           | Some i => filter (fun r => eqOpt (f_folder_id r) i) q
           | None => filter (fun r => match f_folder_id r with None => true | Some _ => false end) q
           end in
  let q := if includeDeleted then q else filter (fun r => negb (f_is_deleted r)) q in
  match flt env (Select "files") with
  | Some e => respond (Sent (json 500 (Error e)))
  | None => respond (FilesJson (orderFiles "created_at" false q))
  end.

(** GET /folders; [parent_id] and [includeDeleted] are query parameters. *)
Definition listFolders (env : Env) (user : string) (parent_id includeDeleted : option string)
    : DataRoute :=
  w <- get ;;
  let includeDeleted := match includeDeleted with Some s => s =? "true" | None => false end in
  let q := filter (fun r => d_owner r =? user) (folders w) in
  let q := match orNull parent_id with
           | Some i => filter (fun r => eqOpt (d_parent_id r) i) q
           | None => filter (fun r => match d_parent_id r with None => true | Some _ => false end) q
           end in
  let q := if includeDeleted then q else filter (fun r => negb (d_is_deleted r)) q in
  match flt env (Select "folders") with
  | Some e => respond (Sent (json 500 (Error e)))
  | None => respond (FoldersJson (orderFolders "created_at" false q))
  end.

End Listings.

(** **** Outcomes and frames *)

(** The request changed nothing and was answered 400, 403 or 404. *)
Definition refused (w : World) (out : Response * World) : Prop :=
  snd out = w /\ In (status (fst out)) [400; 403; 404]%nat.

(** From [w] to [w'], the folders other than [id] and the files that are
    not directly in folder [id] are kept as they are. *)
Definition keeps (id : string) (w w' : World) : Prop :=
  (forall d, In d (folders w) -> d_id d <> id -> In d (folders w'))
  /\ (forall f, In f (files w) -> f_folder_id f <> Some id -> In f (files w')).

(** The files and folders an answer carries. *)
Definition listedFiles (r : Reply) : list FileRow :=
  match r with
  | FilesJson rows => rows
  | TrashJson rows _ => rows
  | _ => []
  end.

Definition listedFolders (r : Reply) : list FolderRow :=
  match r with
  | FoldersJson rows => rows
  | TrashJson _ rows => rows
  | _ => []
  end.

(** The folder a listing is asked for: the route parameter, ["root"] for
    the files without folder. *)
Definition folderParam (id : string) : option string :=
  orNull (if id =? "root" then None else Some id).

End Legacy.

(** ** Authentication: the middlewares, the auth controller and auth.routes *)
Module Auth.

Import JS Query Store.

(** [s.startsWith(p)] *)
Fixpoint startsWith (p s : string) : bool :=
  match p, s with
  | EmptyString, _ => true
  | String a p', String b s' => Ascii.eqb a b && startsWith p' s'
  | String _ _, EmptyString => false
  end.

(** [s.slice(n)] for [n >= 0] *)
Fixpoint slice (n : nat) (s : string) : string :=
  match n, s with
  | O, _ => s
  | S n', String _ s' => slice n' s'
  | S _, EmptyString => EmptyString
  end.

(** [s.split(" ")]: the pieces between the spaces; [cur] is the piece
    being read. *)
Fixpoint splitSpaces (cur : string) (s : string) : list string :=
  match s with
  | EmptyString => [cur]
  | String c rest =>
      if Ascii.eqb c " " then cur :: splitSpaces EmptyString rest
      else splitSpaces (cur ++ String c EmptyString) rest
  end.

Definition split (s : string) : list string := splitSpaces EmptyString s.

(** What a middleware does with the request: it answers, or it calls
    [next()] with [req.user] set. *)
Inductive Outcome (U : Type) :=
| Rejected (status : nat) (error : string)
| Next (user : U).

Arguments Rejected {U} status error.
Arguments Next {U} user.

(** [authenticate] of the API; [verify] is [jwt.verify] with the secret,
    [None] when it throws. *)
Definition authenticate {U : Type} (verify : string -> option U)
    (authorization : option string) : Outcome U :=
  match authorization with
  | Some hdr =>
      if startsWith "Bearer " hdr then
        let token := slice 7 hdr in
        match verify token with
        | Some payload => Next payload
        | None => Rejected 401 "Invalid or expired token"
        end
      else Rejected 401 "Missing auth token"
  | None => Rejected 401 "Missing auth token"
  end.

(** [requireAuth] of server/index.js; [getUser] is
    [supabaseAdmin.auth.getUser], [None] on error or without user. *)
Definition requireAuth {U : Type} (getUser : string -> option U)
    (authorization : option string) : Outcome U :=
  match orNull authorization with
  | None => Rejected 401 "Missing authorization header"
  | Some auth =>
      match orNull (nth_error (split auth) 1) with
      | None => Rejected 401 "Malformed authorization header"
      | Some token =>
          match getUser token with
          | Some user => Next user
          | None => Rejected 401 "Invalid token"
          end
      end
  end.

(** *** Accounts *)

Record UserRow := mkUserRow {
  usr_id : string;
  usr_email : string;
  usr_password : string;
  usr_created_at : Z
}.

(** [bcrypt] and [jsonwebtoken]: a hash made from a password matches it. *)
Class Crypto := {
  hash : string -> string -> string;
  compare : string -> string -> bool;
  sign : Z -> string -> string -> string;
  compare_hash : forall salt password, compare password (hash salt password) = true
}.

(** What one request draws from outside the handler. *)
Record Env := mkEnv {
  flt : Faults;
  now : Z;
  rowId : string;
  salt : string
}.

Inductive Body :=
| Error (error : string)
| UserToken (id email token : string)
| Token (token : string).

Record Response := json {
  status : nat;
  body : Body
}.

(** [from('users').select(..).eq('email', email)] *)
Definition byEmail (email : string) (users : list UserRow) : list UserRow :=
  filter (fun r => usr_email r =? email) users.

Section Accounts.

Context {C : Crypto}.

(** [from('users').insert([{ email, password }]).select(..).single()] *)
Definition insertUser (env : Env) (email password : string) (users : list UserRow)
    : string + UserRow :=
  match flt env (Insert "users") with
  | Some e => inl e
  | None => inr (mkUserRow (rowId env) email password (now env))
  end.

(** [signup] of the auth controller *)
Definition signup (env : Env) (email password : option string) (users : list UserRow)
    : Response * list UserRow :=
  match orNull email, orNull password with
  | Some email, Some password =>
      let existing :=
        match flt env (Select "users") with
        | Some _ => None
        | None => single (byEmail email users)
        end in
      match existing with
      | Some _ => (json 400 (Error "User already exists"), users)
      | None =>
          match insertUser env email (hash (salt env) password) users with
          | inl e => (json 500 (Error e), users)
          | inr user =>
              (json 200 (UserToken (usr_id user) (usr_email user)
                           (sign (now env) (usr_id user) (usr_email user))),
               users ++ [user])
          end
      end
  | _, _ => (json 400 (Error "Email and password required"), users)
  end.

(** [login] of the auth controller *)
Definition login (env : Env) (email password : string) (users : list UserRow) : Response :=
  match (match flt env (Select "users") with
         | Some _ => None
         | None => single (byEmail email users)
         end) with
  | None => json 401 (Error "Not found")
  | Some user =>
      if compare password (usr_password user)
      then json 200 (UserToken (usr_id user) (usr_email user)
                       (sign (now env) (usr_id user) (usr_email user)))
      else json 401 (Error "Invalid credentials")
  end.

(** POST /signup of auth.routes *)
Definition routeSignup (env : Env) (email password : option string) (users : list UserRow)
    : Response * list UserRow :=
  match orNull email, orNull password with
  | Some email, Some password =>
      match insertUser env email (hash (salt env) password) users with
      | inl e => (json 500 (Error e), users)
      | inr data =>
          (json 200 (UserToken (usr_id data) (usr_email data)
                       (sign (now env) (usr_id data) (usr_email data))),
           users ++ [data])
      end
  | _, _ => (json 400 (Error "email & password required"), users)
  end.

(** POST /login of auth.routes: the error of the query is tested before
    the row. *)
Definition routeLogin (env : Env) (email password : option string) (users : list UserRow)
    : Response :=
  match orNull email, orNull password with
  | Some email, Some password =>
      match flt env (Select "users") with
      | Some e => json 500 (Error e)
      | None =>
          match single (byEmail email users) with
          | None => json 500 (Error notSingle)
          | Some user =>
              if compare password (usr_password user)
              then json 200 (Token (sign (now env) (usr_id user) (usr_email user)))
              else json 401 (Error "Invalid credentials")
          end
      end
  | _, _ => json 400 (Error "email & password required")
  end.

End Accounts.

(** No space in the string. *)
Fixpoint noSpace (s : string) : bool :=
  match s with
  | EmptyString => true
  | String c rest => negb (Ascii.eqb c " ") && noSpace rest
  end.

End Auth.

(** ** The upload route on the Firebase bucket (routes/upload.routes) *)
Module Firebase.

Import JS Store.

(** The [files] table and the objects of the bucket. *)
Record World := mkWorld {
  files : list Api.FileRow;
  bucket : list string
}.

(** What one request draws from outside the handler: the failures, whether
    the write stream ends in ['error'], [uuidv4()], the id and the time the
    store gives the row, the name of the bucket. *)
Record Env := mkEnv {
  flt : Faults;
  streamFails : bool;
  uuidv4 : string;
  rowId : string;
  now : Z;
  bucketName : string
}.

Inductive Body :=
| Error (error : string)
| Uploaded (url : string).

Record Response := json {
  status : nat;
  body : Body
}.

(** POST /upload; [userId] is the header [x-user-id]. *)
Definition upload (env : Env) (userId : string) (reqFile : option Api.Upload) (w : World)
    : Response * World :=
  match reqFile with
  | None => (json 400 (Error "No file uploaded"), w)
  | Some file =>
      let blobName := (uuidv4 env ++ "_" ++ Api.originalname file)%string in
      if streamFails env then (json 500 (Error "Upload failed"), w)
      else
        let stored := mkWorld (files w)
                        (blobName :: filter (fun k => negb (k =? blobName)) (bucket w)) in
        let publicUrl :=
          ("https://storage.googleapis.com/" ++ bucketName env ++ "/" ++ blobName)%string in
        match flt env (Insert "files") with
        | Some e => (json 500 (Error e), stored)
        | None =>
            (json 200 (Uploaded publicUrl),
             mkWorld (files stored ++
                        [Api.mkFile (rowId env) (Api.originalname file) (Api.size file)
                           (Api.mimetype file) publicUrl userId None (now env) None])
               (bucket stored))
        end
  end.

End Firebase.

(** ** Sample states and requests *)
Module Scenario.

Import Store.

(** A platform whose store keeps the table order and matches every name. *)
Definition platform : JS.Platform Api.FileRow Api.FolderRow :=
  {| JS.trim := fun s => s;
     JS.toLowerCase := fun s => s;
     JS.encodeURIComponent := fun s => s;
     JS.ilike := fun _ _ => true;
     JS.addDays := fun t days => (t + days * 86400000)%Z;
     JS.orderFiles := fun _ _ rows => rows;
     JS.orderFolders := fun _ _ rows => rows;
     JS.orderFiles_perm := fun _ _ rows => Permutation_refl rows;
     JS.orderFolders_perm := fun _ _ rows => Permutation_refl rows |}.

Definition alice : Api.User := Api.mkUser "alice" "alice@example.com".
Definition bob : Api.User := Api.mkUser "bob" "bob@example.com".

Definition report : Api.FileRow :=
  Api.mkFile "f1" "report.txt" 12 "text/plain" "alice/1_report.txt" "alice" (Some "d1") 100 None.

Definition docs : Api.FolderRow :=
  Api.mkFolder "d1" "Docs" None "alice" 90 None.

(** Alice's file, granted to Bob as viewer and shared by link as editor. *)
Definition shared : Api.Db :=
  Api.mkDb [report] [docs]
    [Api.mkShare Api.file "f1" "alice" Api.editor None "tok"]
    [Api.mkPermission Api.file "f1" "bob@example.com" Api.viewer].

(** The same file with a link that expired at time 500. *)
Definition expired : Api.Db :=
  Api.mkDb [report] [docs]
    [Api.mkShare Api.file "f1" "alice" Api.editor (Some 500%Z) "tok"] [].

(** No resource, and a link left behind for a file that is gone. *)
Definition stale : Api.Db :=
  Api.mkDb [] [] [Api.mkShare Api.file "ghost" "alice" Api.viewer None "tok"] [].

(** Alice's file, not shared yet, and nothing in storage. *)
Definition unshared : Api.World :=
  Api.mkWorld (Api.mkDb [report] [docs] [] []) [].

(** A request at time [t] in which every store call succeeds and the store
    would generate [token] for a new link. *)
Definition calm (t : Z) (token : string) : Api.Env :=
  Api.mkEnv noFaults t "u-1" "f2" token (fun key => ("signed:" ++ key)%string) None.

(** Alice's files and folders among others: one trashed, one of Bob's. *)
Definition library : Api.Db :=
  Api.mkDb
    [report;
     Api.mkFile "f3" "old.txt" 5 "text/plain" "alice/3_old.txt" "alice" None 50 (Some 70%Z);
     Api.mkFile "f4" "notes.txt" 7 "text/plain" "bob/4_notes.txt" "bob" None 60 None;
     Api.mkFile "f5" "todo.txt" 9 "text/plain" "alice/5_todo.txt" "alice" None 80 None]
    [docs; Api.mkFolder "d2" "Bob" None "bob" 95 None] [] [].

Definition firstOne : Api.SearchQuery :=
  Api.mkSearchQuery None None (Some "1") (Some "-3") None None.

Definition viewerLink : Api.LinkBody :=
  Api.mkLinkBody (Some Api.file) (Some "f1") (Some Api.viewer) None.

(** Alice's folder with its file, nothing trashed. *)
Definition shelf : Api.World :=
  Api.mkWorld (Api.mkDb [report] [docs] [] []) ["alice/1_report.txt"].

Definition notes : Api.Upload := Api.mkUpload "notes.txt" "text/plain" 7.

(** A request whose insert into [files] fails, every other call succeeding. *)
Definition insertFails (e : string) : Faults :=
  fun c => match c with Insert _ => Some e | _ => None end.

(** A request whose insert into [files] fails and whose storage then
    refuses to remove an object. *)
Definition insertAndRemoveFail (e : string) : Faults :=
  fun c =>
    match c with
    | Insert _ => Some e
    | StorageRemove _ => Some "remove failed"
    | _ => None
    end.

(** *** The server of server/index.js *)

Definition oldDocs : Legacy.FolderRow :=
  Legacy.mkFolder "d1" "Docs" None "alice" false None 90 None.

Definition fileA : Legacy.FileRow :=
  Legacy.mkFile "a" "a.txt" "alice" (Some "d1") "user-alice/a_a.txt" 3 "text/plain"
    false None 91 None.

Definition fileB : Legacy.FileRow :=
  Legacy.mkFile "b" "b.txt" "alice" (Some "d1") "user-alice/b_b.txt" 4 "text/plain"
    false None 92 None.

Definition fileC : Legacy.FileRow :=
  Legacy.mkFile "c" "c.txt" "alice" None "user-alice/c_c.txt" 5 "text/plain"
    false None 93 None.

(** Folder F = Docs of Alice with files a and b, and file c at the root. *)
Definition drive : Legacy.World :=
  Legacy.mkWorld [fileA; fileB; fileC] [oldDocs]
    ["user-alice/a_a.txt"; "user-alice/b_b.txt"; "user-alice/c_c.txt"].

(** A clock that advances by one millisecond at each reading. *)
Definition ticking (k : nat) : Z := (1000 + Z.of_nat k)%Z.

Definition quiet : Legacy.Env := Legacy.mkEnv noFaults ticking "n".

(** The removal of the blob of file b fails, every other call succeeds. *)
Definition blobOfBStuck : Legacy.Env :=
  Legacy.mkEnv
    (fun c => match c with
              | StorageRemove path =>
                  if (path =? "user-alice/b_b.txt")%string then Some "storage unavailable"
                  else None
              | _ => None
              end)
    ticking "n".

Definition oldNotes : Legacy.Upload := Legacy.mkUpload "my notes.txt" "text/plain" 7.

(** *** More sample states *)

(** The shared file, with nothing in storage. *)
Definition sharedWorld : Api.World := Api.mkWorld shared [].

(** Alice's library, with the blob of the report. *)
Definition libraryWorld : Api.World := Api.mkWorld library ["alice/1_report.txt"].

(** A request whose deletes fail, every other call succeeding. *)
Definition deleteFails (e : string) : Faults :=
  fun c => match c with Delete _ => Some e | _ => None end.

(** A request whose update of [files] fails, every other call succeeding. *)
Definition filesUpdateFails (e : string) : Faults :=
  fun c => match c with
           | Update table => if (table =? "files")%string then Some e else None
           | _ => None
           end.

(** A store of the server that keeps the table order. *)
Definition legacyPlatform : JS.Platform Legacy.FileRow Legacy.FolderRow :=
  {| JS.trim := fun s => s;
     JS.toLowerCase := fun s => s;
     JS.encodeURIComponent := fun s => s;
     JS.ilike := fun _ _ => true;
     JS.addDays := fun t days => (t + days * 86400000)%Z;
     JS.orderFiles := fun _ _ rows => rows;
     JS.orderFolders := fun _ _ rows => rows;
     JS.orderFiles_perm := fun _ _ rows => Permutation_refl rows;
     JS.orderFolders_perm := fun _ _ rows => Permutation_refl rows |}.

(** A hash that is the password itself, compared by equality. *)
Definition crypto : Auth.Crypto :=
  {| Auth.hash := fun _ password => password;
     Auth.compare := fun password h => (password =? h)%string;
     Auth.sign := fun _ id email => ("jwt:" ++ id ++ ":" ++ email)%string;
     Auth.compare_hash := fun _ password => String.eqb_refl password |}.

Definition authEnv : Auth.Env := Auth.mkEnv noFaults 1000 "u1" "salt".

Definition firebaseEnv : Firebase.Env :=
  Firebase.mkEnv (insertFails "insert failed") false "u-9" "f9" 1000 "bucket".

Definition firebaseWorld : Firebase.World := Firebase.mkWorld [] [].

End Scenario.

(** ** Facts on query results *)
Module QueryFacts.

Import Query.

Lemma truthy_true (s : string) : s <> "" -> JS.truthy s = true.
Proof.
  intro H. unfold JS.truthy.
  destruct (String.eqb_spec s ""); [contradiction | reflexivity].
Qed.

Lemma single_Some {A : Type} (rows : list A) (r : A) :
  single rows = Some r -> rows = [r].
Proof.
  destruct rows as [|x [|y rows]]; simpl; intro H; try discriminate.
  now inversion H.
Qed.

(** A row that passes the filter is the row [.single()] returns, if any. *)
Lemma single_filter_In {A : Type} (p : A -> bool) (rows : list A) (r x : A) :
  single (filter p rows) = Some r -> In x rows -> p x = true -> x = r.
Proof.
  intros Hs Hin Hp. apply single_Some in Hs.
  assert (Hx : In x (filter p rows)) by (apply filter_In; now split).
  rewrite Hs in Hx. destruct Hx as [Hx | []]. now symmetry.
Qed.

Lemma single_filter_sat {A : Type} (p : A -> bool) (rows : list A) (r : A) :
  single (filter p rows) = Some r -> In r rows /\ p r = true.
Proof.
  intro Hs. apply single_Some in Hs. apply filter_In. rewrite Hs. now left.
Qed.

Lemma single_filter_none {A : Type} (p : A -> bool) (rows : list A) :
  (forall x, In x rows -> p x = false) -> single (filter p rows) = None.
Proof.
  intro H. destruct (single (filter p rows)) as [r|] eqn:E; [|reflexivity].
  apply single_filter_sat in E. destruct E as [Hin Hp].
  rewrite (H r Hin) in Hp. discriminate.
Qed.

End QueryFacts.

(** ** The role resolver *)
Module ResolverSpec.

Import Query Store QueryFacts.

Lemma ResourceType_eqb_eq (a b : Api.ResourceType) :
  Api.ResourceType_eqb a b = true <-> a = b.
Proof. destruct a, b; simpl; split; congruence. Qed.

Lemma shareMatches_true (rt : Api.ResourceType) (rid token : string) (r : Api.ShareRow) :
  Api.shareMatches rt rid token r = true <->
  Api.s_resource_type r = rt /\ Api.s_resource_id r = rid /\ Api.s_link_token r = token.
Proof.
  unfold Api.shareMatches. rewrite !andb_true_iff, ResourceType_eqb_eq, !String.eqb_eq.
  tauto.
Qed.

(** The ownership step does not fire without a principal. *)
Lemma isOwner_anonymous (flt : Faults) (db : Api.Db) (rt : Api.ResourceType) (rid : string) :
  Api.isOwner flt db None rt rid = false.
Proof.
  unfold Api.isOwner. destruct (Api.selectOwner flt db (Api.tableOf rt) rid); [|reflexivity].
  simpl. now rewrite andb_false_r.
Qed.

(** The ownership step does not fire on a resource the store does not have. *)
Lemma isOwner_missing (flt : Faults) (db : Api.Db) (userId : option string)
    (rt : Api.ResourceType) (rid : string) :
  Api.resourceOwner db rt rid = None -> Api.isOwner flt db userId rt rid = false.
Proof.
  unfold Api.isOwner, Api.selectOwner, Api.resourceOwner. intro H.
  destruct (flt (Select (Api.tableOf rt))); [reflexivity|]. now rewrite H.
Qed.

(** A role out of the link step comes from a matching share row that has
    not expired. *)
Lemma linkRole_Some (flt : Faults) (now : Z) (db : Api.Db) (rt : Api.ResourceType)
    (rid : string) (shareToken : option string) (r : Api.Role) :
  Api.linkRole flt now db rt rid shareToken = Some r ->
  exists token sh,
    shareToken = Some token /\ token <> "" /\ In sh (Api.shares db) /\
    Api.s_resource_type sh = rt /\ Api.s_resource_id sh = rid /\
    Api.s_link_token sh = token /\ Api.s_role sh = r /\
    match Api.s_expires_at sh with Some e => (now <= e)%Z | None => True end.
Proof.
  unfold Api.linkRole, Api.selectShare.
  destruct shareToken as [token|]; [|discriminate].
  destruct (JS.truthy token) eqn:Ht; [|discriminate].
  destruct (flt (Select "shares")); [discriminate|].
  destruct (single _) as [sh|] eqn:Hs; [|discriminate].
  apply single_filter_sat in Hs. destruct Hs as [Hin Hm].
  apply shareMatches_true in Hm. destruct Hm as (H1 & H2 & H3).
  intro H. exists token, sh.
  assert (Hne : token <> "").
  { intro E. rewrite E in Ht. discriminate Ht. }
  destruct (Api.s_expires_at sh) as [e|].
  - destruct (Z.ltb_spec e now); [discriminate|]. inversion H. repeat split; auto.
  - inversion H. repeat split; auto.
Qed.

(** C7: for a resource with owner O, resolution by principal O answers
    [owner], whatever token is supplied and whatever links and grants the
    store holds for the resource.  (A principal id is a non-empty string; the
    owner query is answered by the store.) *)
Theorem resolveUserRole_owner_first
    (flt : Faults) (now : Z) (db : Api.Db) (O : string) (rt : Api.ResourceType)
    (rid : string) (anyToken : option string) :
  O <> "" ->
  flt (Select (Api.tableOf rt)) = None ->
  Api.resourceOwner db rt rid = Some O ->
  Api.resolveUserRole flt now db (Some O) rt rid anyToken = Some Api.owner.
Proof.
  intros HO Hflt Hown.
  unfold Api.resolveUserRole, Api.isOwner, Api.selectOwner.
  unfold Api.resourceOwner in Hown. rewrite Hflt, Hown. simpl.
  now rewrite (truthy_true O HO), String.eqb_refl.
Qed.

Lemma resolveUserRole_owner_first_witness :
  Api.resolveUserRole noFaults 1000 Scenario.shared (Some "alice") Api.file "f1" (Some "tok")
  = Some Api.owner.
Proof.
  apply (resolveUserRole_owner_first noFaults 1000 Scenario.shared "alice" Api.file "f1").
  - discriminate.
  - reflexivity.
  - reflexivity.
Defined.

(** C6: without a principal, the token of a link whose [expires_at] lies in
    the past resolves to no role, and so does a token that matches no link
    of the resource. *)
Theorem resolveUserRole_dead_link
    (flt : Faults) (now : Z) (db : Api.Db) (rt : Api.ResourceType) (rid : string) :
  (forall (l : Api.ShareRow) (e : Z),
      In l (Api.shares db) ->
      Api.s_resource_type l = rt -> Api.s_resource_id l = rid ->
      Api.s_expires_at l = Some e -> (e < now)%Z ->
      Api.resolveUserRole flt now db None rt rid (Some (Api.s_link_token l)) = None)
  /\
  (forall token : string,
      (forall l, In l (Api.shares db) ->
                 Api.s_resource_type l = rt -> Api.s_resource_id l = rid ->
                 Api.s_link_token l <> token) ->
      Api.resolveUserRole flt now db None rt rid (Some token) = None).
Proof.
  split.
  - intros l e Hin Hrt Hrid Hexp Hlt.
    unfold Api.resolveUserRole. rewrite isOwner_anonymous.
    unfold Api.linkRole, Api.selectShare.
    destruct (JS.truthy _); [|reflexivity].
    destruct (flt (Select "shares")); [reflexivity|].
    destruct (single _) as [sh|] eqn:Hs; [|reflexivity].
    assert (l = sh) as <-.
    { eapply single_filter_In; eauto. now apply shareMatches_true. }
    rewrite Hexp. destruct (Z.ltb_spec e now); [reflexivity | lia].
  - intros token Hno.
    unfold Api.resolveUserRole. rewrite isOwner_anonymous.
    destruct (Api.linkRole flt now db rt rid (Some token)) as [r|] eqn:E; [|reflexivity].
    apply linkRole_Some in E.
    destruct E as (t & sh & Ht & _ & Hin & H1 & H2 & H3 & _).
    inversion Ht; subst t. now destruct (Hno sh Hin H1 H2).
Qed.

Lemma resolveUserRole_dead_link_witness :
  Api.resolveUserRole noFaults 1000 Scenario.expired None Api.file "f1" (Some "tok") = None
  /\ Api.resolveUserRole noFaults 1000 Scenario.shared None Api.file "f1" (Some "other") = None.
Proof.
  split.
  - apply (proj1 (resolveUserRole_dead_link noFaults 1000 Scenario.expired Api.file "f1")
             (Api.mkShare Api.file "f1" "alice" Api.editor (Some 500%Z) "tok") 500%Z).
    + simpl. now left.
    + reflexivity.
    + reflexivity.
    + reflexivity.
    + lia.
  - apply (proj2 (resolveUserRole_dead_link noFaults 1000 Scenario.shared Api.file "f1")).
    intros l [<- | []] _ _. discriminate.
Defined.

(** The ownership step does not fire for a principal other than the owner. *)
Lemma isOwner_other (flt : Faults) (db : Api.Db) (userId : option string)
    (rt : Api.ResourceType) (rid : string) :
  (forall u, userId = Some u -> Api.resourceOwner db rt rid <> Some u) ->
  Api.isOwner flt db userId rt rid = false.
Proof.
  unfold Api.isOwner, Api.selectOwner, Api.resourceOwner. intro H.
  destruct (flt (Select (Api.tableOf rt))); [reflexivity|].
  destruct (single _) as [o|] eqn:E; [|reflexivity].
  destruct userId as [u|]; [|now rewrite andb_false_r].
  destruct (String.eqb_spec o u) as [->|]; [|now rewrite andb_false_r].
  now destruct (H u eq_refl).
Qed.

(** C1 fails on the code: Bob holds a viewer grant on Alice's file, the
    file has an editor link, and Bob resolving with the link's token gets
    [editor]; the resolver has no email argument to be given Bob's email. *)
Lemma grant_does_not_outrank_link :
  Api.u_email Scenario.bob = "bob@example.com"
  /\ In (Api.mkPermission Api.file "f1" "bob@example.com" Api.viewer)
        (Api.permissions Scenario.shared)
  /\ In (Api.mkShare Api.file "f1" "alice" Api.editor None "tok") (Api.shares Scenario.shared)
  /\ Api.resolveUserRole noFaults 1000 Scenario.shared (Some (Api.u_id Scenario.bob))
       Api.file "f1" (Some "tok") = Some Api.editor
  /\ Api.resolveUserRole noFaults 1000 Scenario.shared (Some (Api.u_id Scenario.bob))
       Api.file "f1" (Some "tok") <> Some Api.viewer.
Proof.
  repeat split; try reflexivity; try (simpl; now left). discriminate.
Qed.

(** C1, amended: the resolver never reads the grants.  For a principal who
    is not the owner and a token that selects a link of the resource that
    has not expired, the answer is the role of the link, whatever rows the
    [permissions] table holds. *)
Theorem resolveUserRole_link_despite_grants
    (flt : Faults) (now : Z) (db : Api.Db) (grants : list Api.PermissionRow)
    (userId : option string) (rt : Api.ResourceType) (rid token : string)
    (sh : Api.ShareRow) :
  (forall u, userId = Some u -> Api.resourceOwner db rt rid <> Some u) ->
  token <> "" ->
  Api.selectShare flt db rt rid token = Some sh ->
  match Api.s_expires_at sh with Some e => (now <= e)%Z | None => True end ->
  Api.resolveUserRole flt now
    (Api.mkDb (Api.files db) (Api.folders db) (Api.shares db) grants)
    userId rt rid (Some token) = Some (Api.s_role sh).
Proof.
  intros Hown Htok Hsel Hlive.
  unfold Api.resolveUserRole.
  rewrite isOwner_other by exact Hown.
  unfold Api.linkRole. rewrite (truthy_true token Htok).
  change (Api.selectShare flt (Api.mkDb (Api.files db) (Api.folders db) (Api.shares db) grants)
            rt rid token) with (Api.selectShare flt db rt rid token).
  rewrite Hsel. destruct (Api.s_expires_at sh) as [e|]; [|reflexivity].
  destruct (Z.ltb_spec e now); [lia | reflexivity].
Qed.

Lemma resolveUserRole_link_despite_grants_witness :
  Api.resolveUserRole noFaults 1000 Scenario.shared (Some "bob") Api.file "f1" (Some "tok")
  = Some Api.editor.
Proof.
  apply (resolveUserRole_link_despite_grants noFaults 1000 Scenario.shared
           (Api.permissions Scenario.shared) (Some "bob") Api.file "f1" "tok"
           (Api.mkShare Api.file "f1" "alice" Api.editor None "tok")).
  - intros u Hu. inversion Hu. discriminate.
  - discriminate.
  - reflexivity.
  - exact I.
Defined.

(** C5 fails on the code: for a resource the store does not have, the
    resolver answers without any error: no role for a principal without
    token, and the role of a link left behind when its token is supplied. *)
Lemma resolveUserRole_missing_resource_silent :
  Api.resourceOwner Scenario.stale Api.file "ghost" = None
  /\ Api.resolveUserRole noFaults 1000 Scenario.stale (Some "bob") Api.file "ghost" None = None
  /\ Api.resolveUserRole noFaults 1000 Scenario.stale None Api.file "ghost" (Some "tok")
     = Some Api.viewer.
Proof. repeat split. Qed.

(** C5, amended: for a resource the store does not have, the ownership
    step does not fire and the answer is that of the link step: no role when
    no token is supplied, and a role only from a share row of that resource
    and token that has not expired. *)
Theorem resolveUserRole_missing_resource
    (flt : Faults) (now : Z) (db : Api.Db) (userId : option string)
    (rt : Api.ResourceType) (rid : string) (shareToken : option string) :
  Api.resourceOwner db rt rid = None ->
  (JS.truthyOpt shareToken = false ->
   Api.resolveUserRole flt now db userId rt rid shareToken = None)
  /\
  (forall r, Api.resolveUserRole flt now db userId rt rid shareToken = Some r ->
     exists sh, In sh (Api.shares db) /\
       Api.s_resource_type sh = rt /\ Api.s_resource_id sh = rid /\
       shareToken = Some (Api.s_link_token sh) /\ Api.s_role sh = r /\
       match Api.s_expires_at sh with Some e => (now <= e)%Z | None => True end).
Proof.
  intro Hmiss. unfold Api.resolveUserRole.
  rewrite (isOwner_missing flt db userId rt rid Hmiss). split.
  - intro Hf. unfold Api.linkRole. destruct shareToken as [t|]; [|reflexivity].
    simpl in Hf. now rewrite Hf.
  - intros r Hr. apply linkRole_Some in Hr.
    destruct Hr as (t & sh & Ht & _ & Hin & H1 & H2 & H3 & H4 & H5).
    exists sh. subst shareToken. rewrite H3. repeat split; auto.
Qed.

Lemma resolveUserRole_missing_resource_witness :
  Api.resolveUserRole noFaults 1000 Scenario.stale (Some "bob") Api.file "ghost" None = None.
Proof.
  apply (proj1 (resolveUserRole_missing_resource noFaults 1000 Scenario.stale (Some "bob")
                  Api.file "ghost" None eq_refl)).
  reflexivity.
Defined.

End ResolverSpec.

(** ** Link shares *)
Module SharesSpec.

Import Query Store QueryFacts.

Lemma shareKey_true (rt : Api.ResourceType) (rid : string) (r : Api.ShareRow) :
  Api.shareKey rt rid r = true <-> Api.keyOf r = (rt, rid).
Proof.
  unfold Api.shareKey, Api.keyOf.
  rewrite andb_true_iff, ResolverSpec.ResourceType_eqb_eq, String.eqb_eq.
  split; [intros [-> ->]; reflexivity | intro H; inversion H; auto].
Qed.

(** The upsert on a resource that has a link leaves every stored token as
    it is: [link_token] is not among the columns of the payload. *)
Lemma upsertRows_keeps_tokens (generated : string) (rt : Api.ResourceType)
    (rid owner_id : string) (role : Api.Role) (expires_at : option Z)
    (rows : list Api.ShareRow) :
  existsb (Api.shareKey rt rid) rows = true ->
  map Api.s_link_token (Api.upsertRows generated rt rid owner_id role expires_at rows)
  = map Api.s_link_token rows.
Proof.
  intro Hex. unfold Api.upsertRows. rewrite Hex, map_map.
  apply map_ext. intro r. now destruct (Api.shareKey rt rid r).
Qed.

(** The upsert keeps one link per resource: keys stay without duplicates. *)
Lemma upsertRows_one_link (generated : string) (rt : Api.ResourceType)
    (rid owner_id : string) (role : Api.Role) (expires_at : option Z)
    (rows : list Api.ShareRow) :
  NoDup (map Api.keyOf rows) ->
  NoDup (map Api.keyOf (Api.upsertRows generated rt rid owner_id role expires_at rows)).
Proof.
  intro Hnd. unfold Api.upsertRows.
  destruct (existsb (Api.shareKey rt rid) rows) eqn:Hex.
  - rewrite map_map.
    rewrite (map_ext _ Api.keyOf); [exact Hnd|].
    intro r. destruct (Api.shareKey rt rid r) eqn:Hk; [|reflexivity].
    apply shareKey_true in Hk. now rewrite Hk.
  - rewrite map_app. simpl.
    apply NoDup_app; auto.
    + constructor; [intros [] | constructor].
    + intros k Hin [<- | []].
      apply in_map_iff in Hin. destruct Hin as (r & Hr & Hin).
      assert (Ht : existsb (Api.shareKey rt rid) rows = true).
      { apply existsb_exists. exists r. split; [exact Hin | now apply shareKey_true]. }
      congruence.
Qed.

(** C4, on the code: Alice creates a link on her file and the store
    generates token T1; she posts the link again, in a request for which the
    store would generate T2.  The second response carries T1 again, the one
    stored link still has token T1, an anonymous caller presenting T1 still
    resolves to the role of the link, and T2 resolves to nothing. *)
Theorem createLink_rotation_keeps_token :
  let P := Scenario.platform in
  let first := Handler.run (Api.createLink (Scenario.calm 1000 "T1") Scenario.alice
                              Scenario.viewerLink) Scenario.unshared in
  let second := Handler.run (Api.createLink (Scenario.calm 2000 "T2") Scenario.alice
                               Scenario.viewerLink) (snd first) in
  fst first
    = Api.json 200 (Api.Link "http://localhost:3000/share/file/f1?t=T1" Api.viewer None)
  /\ fst second
    = Api.json 200 (Api.Link "http://localhost:3000/share/file/f1?t=T1" Api.viewer None)
  /\ Api.shares (Api.db (snd second))
    = [Api.mkShare Api.file "f1" "alice" Api.viewer None "T1"]
  /\ Api.resolveUserRole noFaults 3000 (Api.db (snd second)) None Api.file "f1" (Some "T1")
    = Some Api.viewer
  /\ Api.resolveUserRole noFaults 3000 (Api.db (snd second)) None Api.file "f1" (Some "T2")
    = None.
Proof. repeat split. Qed.

End SharesSpec.

(** ** Search *)
Module SearchSpec.

Import Query Store QueryFacts.

Lemma firstn_incl {A : Type} (n : nat) (l : list A) : incl (firstn n l) l.
Proof.
  revert l. induction n as [|n IH]; intros [|x l]; simpl;
    try (intros z Hz; now destruct Hz).
  intros z [<- | Hz]; [now left | right; now apply IH].
Qed.

Lemma skipn_incl {A : Type} (n : nat) (l : list A) : incl (skipn n l) l.
Proof.
  revert l. induction n as [|n IH]; intros [|x l]; simpl; try (intros z Hz; exact Hz).
  intros z Hz. right. now apply IH.
Qed.

Lemma range_incl {A : Type} (from to : JS.Number) (rows rs : list A) :
  range from to rows = Some rs -> incl rs rows.
Proof.
  unfold range. destruct from as [|offset|]; try discriminate.
  destruct (JS.add _ _) as [|limit|]; try discriminate.
  destruct (_ || _)%bool; [discriminate|].
  intro H. injection H as <-. intros x Hx.
  apply firstn_incl in Hx. now apply skipn_incl in Hx.
Qed.

(** *** Doubles *)

(** The integers up to 2^53 are doubles. *)
Lemma toNumber_exact (z : Z) :
  (Z.abs z <= JS.maxExact)%Z -> JS.toNumber z = JS.Finite z.
Proof.
  intro H. unfold JS.toNumber. apply Z.leb_le in H. now rewrite H.
Qed.

Lemma nearest_pos (a : Z) : (JS.maxExact < a)%Z -> (0 < JS.nearest a)%Z.
Proof.
  intro Ha. unfold JS.nearest.
  assert (Hlog : (53 <= Z.log2 a)%Z).
  { change 53%Z with (Z.log2 JS.maxExact). apply Z.log2_le_mono. lia. }
  assert (Hpos : (0 < a)%Z) by (unfold JS.maxExact in Ha; lia).
  set (e := (Z.log2 a - 52)%Z).
  assert (He : (0 <= e)%Z) by (subst e; lia).
  assert (Hpow : (0 < 2 ^ e)%Z) by (apply Z.pow_pos_nonneg; lia).
  assert (Hq : (1 <= Z.shiftr a e)%Z).
  { rewrite Z.shiftr_div_pow2 by exact He.
    apply Z.div_le_lower_bound; [exact Hpow|].
    rewrite Z.mul_1_r. destruct (Z.log2_spec a Hpos) as [Hlow _].
    apply Z.le_trans with (2 ^ Z.log2 a)%Z; [|exact Hlow].
    apply Z.pow_le_mono_r; subst e; lia. }
  cbv zeta. rewrite Z.shiftl_mul_pow2 by exact He.
  apply Z.mul_pos_pos; [|exact Hpow].
  destruct (_ || _)%bool; lia.
Qed.

(** Rounding keeps the sign. *)
Lemma toNumber_sign (z : Z) :
  match JS.toNumber z with
  | JS.NaN => False
  | JS.Finite r => Z.sgn r = Z.sgn z
  | JS.Infinity s => s = (z <? 0)%Z /\ z <> 0%Z
  end.
Proof.
  unfold JS.toNumber. destruct (Z.abs z <=? JS.maxExact)%Z eqn:E; [reflexivity|].
  apply Z.leb_gt in E.
  assert (Hv := nearest_pos (Z.abs z) E).
  destruct (JS.overflow <=? _)%Z.
  - split; [reflexivity|]. unfold JS.maxExact in E. lia.
  - unfold JS.maxExact in E. rewrite Z.sgn_mul, (Z.sgn_pos _ Hv), Z.mul_1_r.
    now rewrite Z.sgn_sgn.
Qed.

Lemma toNumber_below (f z : Z) :
  (z <= f)%Z -> (-1 <= f <= JS.maxExact)%Z -> JS.below f (JS.toNumber z).
Proof.
  intros Hz Hf. destruct (Z.leb_spec (Z.abs z) JS.maxExact) as [E|E].
  - now rewrite toNumber_exact.
  - assert (Hneg : (z < 0)%Z) by lia.
    assert (H := toNumber_sign z). destruct (JS.toNumber z) as [|r|s]; [contradiction| |].
    + cbn. rewrite (Z.sgn_neg z Hneg) in H. apply Z.sgn_neg_iff in H. lia.
    + cbn. destruct H as [-> _]. now apply Z.ltb_lt.
Qed.

Lemma add_below (f g c : Z) (x : JS.Number) :
  JS.below f x -> (f + c <= g)%Z -> (-1 <= g <= JS.maxExact)%Z ->
  JS.below g (JS.add x (JS.Finite c)).
Proof.
  intros Hx Hc Hg. destruct x as [|a|s]; [contradiction| |exact Hx].
  cbn in Hx. cbn [JS.add]. apply toNumber_below; lia.
Qed.

(** The window of the handler on a table of fewer than 2^53 rows: the store
    answers at most [limit] rows, and none when [limit] is not positive. *)
Lemma range_bound {A : Type} (offset : JS.Number) (limit : Z) (rows rs : list A) :
  (Z.of_nat (List.length rows) < JS.maxExact)%Z ->
  (limit <= 100)%Z ->
  range offset (JS.sub (JS.add offset (JS.Finite limit)) (JS.Finite 1)) rows = Some rs ->
  (List.length rs <= Z.to_nat limit)%nat.
Proof.
  intros Hrows Hlimit. unfold range.
  destruct offset as [|f|]; try discriminate.
  set (window := JS.add (JS.sub _ _) (JS.Finite 1)).
  assert (Hlow : (0 <= f <= Z.of_nat (List.length rows))%Z ->
                 (limit <= 0)%Z -> JS.below 0 window).
  { intros Hf Hl. subst window. unfold JS.sub. cbn [JS.negate Z.opp].
    apply (add_below (-1)); [|lia|unfold JS.maxExact; lia].
    apply (add_below (f - 1)); [|lia|unfold JS.maxExact; lia].
    apply (add_below f); [|lia|unfold JS.maxExact in *; lia].
    apply (add_below f); [cbn; lia|lia|unfold JS.maxExact in *; lia]. }
  assert (Hexact : (0 <= f)%Z -> (1 <= limit)%Z -> (f + limit <= JS.maxExact)%Z ->
                   window = JS.Finite limit).
  { intros Hf Hl Hsum. subst window. unfold JS.sub. cbn [JS.negate JS.add Z.opp].
    rewrite (toNumber_exact (f + limit)) by (unfold JS.maxExact in *; lia).
    cbn [JS.add]. rewrite (toNumber_exact (f + limit + -1)) by (unfold JS.maxExact in *; lia).
    cbn [JS.add]. rewrite (toNumber_exact (f + limit + -1 + - f)) by (unfold JS.maxExact in *; lia).
    cbn [JS.add]. rewrite toNumber_exact by (unfold JS.maxExact in *; lia).
    f_equal. lia. }
  destruct window as [|l|] eqn:Hw; try discriminate.
  destruct (_ || _)%bool eqn:Hcond; [discriminate|].
  repeat (apply orb_false_iff in Hcond; destruct Hcond as [Hcond ?]).
  assert (Hf : (0 <= f)%Z) by (apply Z.ltb_ge; assumption).
  assert (Hl : (0 <= l)%Z) by (apply Z.ltb_ge; assumption).
  assert (Hin : (f <= Z.of_nat (List.length rows))%Z) by (apply Z.ltb_ge; assumption).
  intro Hrs. injection Hrs as <-.
  destruct (Z.le_gt_cases limit 0) as [Hnon|Hposl].
  - specialize (Hlow (conj Hf Hin) Hnon). cbn in Hlow.
    replace l with 0%Z by lia. cbn. lia.
  - destruct (Z.le_gt_cases (f + limit) JS.maxExact) as [Hsum|Hsum].
    + assert (El : JS.Finite l = JS.Finite limit) by (apply Hexact; lia).
      injection El as ->. rewrite length_firstn. lia.
    + rewrite length_firstn, length_skipn. lia.
Qed.

Example parseInt_samples :
  JS.parseInt "20" = JS.Finite 20 /\ JS.parseInt "  -3px" = JS.Finite (-3)
  /\ JS.parseInt "+7" = JS.Finite 7 /\ JS.parseInt "1e3" = JS.Finite 1
  /\ JS.parseInt "abc" = JS.NaN /\ JS.parseInt "-" = JS.NaN /\ JS.parseInt "" = JS.NaN.
Proof. repeat split. Qed.

(** White space of more than one byte is skipped too, and integers above
    2^53 are read as the nearest double. *)
Example parseInt_doubles :
  JS.parseInt (String (ascii_of_nat 194) (String (ascii_of_nat 160) "1")) = JS.Finite 1
  /\ JS.parseInt "9007199254740993" = JS.Finite 9007199254740992
  /\ JS.parseInt "9007199254740995" = JS.Finite 9007199254740996
  /\ JS.parseInt "-9007199254740993" = JS.Finite (-9007199254740992)
  /\ JS.sub (JS.add (JS.Finite 9007199254740992) (JS.Finite 20)) (JS.Finite 1)
     = JS.Finite 9007199254741012.
Proof. repeat split. Qed.

Example toNumber_overflow :
  JS.toNumber (10 ^ 308) <> JS.Infinity false
  /\ JS.toNumber (10 ^ 309) = JS.Infinity false
  /\ JS.toNumber (- 10 ^ 309) = JS.Infinity true
  /\ JS.mathMin (JS.toNumber (10 ^ 309)) 100 = JS.Finite 100
  /\ JS.mathMax (JS.toNumber (- 10 ^ 309)) 0 = JS.Finite 0.
Proof. vm_compute. repeat split. discriminate. Qed.

Example replaceSpaces_sample : JS.replaceSpaces false "my  old notes.txt" = "my_old_notes.txt".
Proof. reflexivity. Qed.

Section WithPlatform.

Context {P : JS.Platform Api.FileRow Api.FolderRow}.

Lemma searchFiles_rows (flt : Faults) (db : Api.Db) (user : Api.User) (q sort order : string)
    (offset limit : JS.Number) (rows : list Api.FileRow) :
  Api.searchFiles flt db user q sort order offset limit = inr rows ->
  (forall l, limit = JS.Finite l -> (l <= 100)%Z ->
             (Z.of_nat (List.length (Api.files db)) < JS.maxExact)%Z ->
             (List.length rows <= Z.to_nat l)%nat) /\
  forall f, In f rows -> Api.f_owner_id f = Api.u_id user /\ Api.f_deleted_at f = None.
Proof.
  unfold Api.searchFiles.
  destruct (flt (Select "files")); [discriminate|].
  set (base := filter (fun r => (Api.f_owner_id r =? Api.u_id user) &&
                 match Api.f_deleted_at r with None => true | Some _ => false end)
                 (Api.files db)).
  set (named := if JS.truthy q then filter _ base else base).
  set (ordered := if sort =? "name" then _ else _).
  assert (Hperm : Permutation ordered named).
  { subst ordered. destruct (sort =? "name"); apply JS.orderFiles_perm. }
  assert (Hincl : incl named base).
  { subst named. destruct (JS.truthy q); [|apply incl_refl].
    intros x Hx. now apply filter_In in Hx. }
  assert (Hlen : (List.length ordered <= List.length (Api.files db))%nat).
  { rewrite (Permutation_length Hperm). subst named base.
    destruct (JS.truthy q);
      repeat (etransitivity; [apply filter_length_le|]); reflexivity. }
  destruct (range offset _ ordered) as [rs|] eqn:Hrange; [|discriminate].
  intro H. injection H as <-. split.
  - intros l -> Hl Hrows.
    assert (Hsmall : (Z.of_nat (List.length ordered) < JS.maxExact)%Z) by lia.
    exact (range_bound _ _ _ _ Hsmall Hl Hrange).
  - intros f Hf. apply (range_incl _ _ _ _ Hrange) in Hf.
    apply (Permutation_in _ Hperm) in Hf. apply Hincl in Hf.
    subst base. apply filter_In in Hf. destruct Hf as [_ Hp].
    apply andb_true_iff in Hp. destruct Hp as [Ho Hd].
    apply String.eqb_eq in Ho. split; [exact Ho|].
    now destruct (Api.f_deleted_at f).
Qed.

Lemma searchFolders_rows (flt : Faults) (db : Api.Db) (user : Api.User) (q sort order : string)
    (offset limit : JS.Number) (rows : list Api.FolderRow) :
  Api.searchFolders flt db user q sort order offset limit = inr rows ->
  (forall l, limit = JS.Finite l -> (l <= 100)%Z ->
             (Z.of_nat (List.length (Api.folders db)) < JS.maxExact)%Z ->
             (List.length rows <= Z.to_nat l)%nat) /\
  forall d, In d rows -> Api.d_owner_id d = Api.u_id user /\ Api.d_deleted_at d = None.
Proof.
  unfold Api.searchFolders.
  destruct (flt (Select "folders")); [discriminate|].
  set (base := filter (fun r => (Api.d_owner_id r =? Api.u_id user) &&
                 match Api.d_deleted_at r with None => true | Some _ => false end)
                 (Api.folders db)).
  set (named := if JS.truthy q then filter _ base else base).
  set (ordered := if sort =? "name" then _ else _).
  assert (Hperm : Permutation ordered named).
  { subst ordered. destruct (sort =? "name"); apply JS.orderFolders_perm. }
  assert (Hincl : incl named base).
  { subst named. destruct (JS.truthy q); [|apply incl_refl].
    intros x Hx. now apply filter_In in Hx. }
  assert (Hlen : (List.length ordered <= List.length (Api.folders db))%nat).
  { rewrite (Permutation_length Hperm). subst named base.
    destruct (JS.truthy q);
      repeat (etransitivity; [apply filter_length_le|]); reflexivity. }
  destruct (range offset _ ordered) as [rs|] eqn:Hrange; [|discriminate].
  intro H. injection H as <-. split.
  - intros l -> Hl Hrows.
    assert (Hsmall : (Z.of_nat (List.length ordered) < JS.maxExact)%Z) by lia.
    exact (range_bound _ _ _ _ Hsmall Hl Hrange).
  - intros d Hd. apply (range_incl _ _ _ _ Hrange) in Hd.
    apply (Permutation_in _ Hperm) in Hd. apply Hincl in Hd.
    subst base. apply filter_In in Hd. destruct Hd as [_ Hp].
    apply andb_true_iff in Hp. destruct Hp as [Ho Hdel].
    apply String.eqb_eq in Ho. split; [exact Ho|].
    now destruct (Api.d_deleted_at d).
Qed.

(** C10: when the limit parameter (["20"] when absent) parses to the
    integer [n], the tables holding fewer than 2^53 rows, the response
    carries at most min(n, 100) files and at most min(n, 100) folders (none
    when that bound is not positive); an offset that parses to a negative
    number is answered as offset 0; and every file and folder carried is
    owned by the caller and has [deleted_at] null.  The numbers are the
    doubles of the handler; the store refuses a negative offset and, the
    count being asked, an offset past the last row. *)
Theorem search_bounded_owned_active
    (flt : Faults) (db : Api.Db) (user : Api.User) (query : Api.SearchQuery) (n : Z) :
  JS.parseInt (JS.orElse (Api.sq_limit query) "20") = JS.Finite n ->
  (Z.of_nat (List.length (Api.files db)) < 2 ^ 53)%Z ->
  (Z.of_nat (List.length (Api.folders db)) < 2 ^ 53)%Z ->
  (List.length (Api.filesOf (Api.search flt db user query)) <= Z.to_nat (Z.min n 100))%nat
  /\ (List.length (Api.foldersOf (Api.search flt db user query)) <= Z.to_nat (Z.min n 100))%nat
  /\ (JS.negative (JS.parseInt (JS.orElse (Api.sq_offset query) "0")) = true ->
        Api.search flt db user query
        = Api.search flt db user (Api.withOffset (Some "0") query))
  /\ (forall f, In f (Api.filesOf (Api.search flt db user query)) ->
        Api.f_owner_id f = Api.u_id user /\ Api.f_deleted_at f = None)
  /\ (forall d, In d (Api.foldersOf (Api.search flt db user query)) ->
        Api.d_owner_id d = Api.u_id user /\ Api.d_deleted_at d = None).
Proof.
  intros Hlimit Hfiles Hfolders.
  change (2 ^ 53)%Z with JS.maxExact in Hfiles, Hfolders.
  assert (Hshape :
    let r := Api.search flt db user query in
    ((List.length (Api.filesOf r) <= Z.to_nat (Z.min n 100))%nat /\
     forall f, In f (Api.filesOf r) ->
       Api.f_owner_id f = Api.u_id user /\ Api.f_deleted_at f = None) /\
    ((List.length (Api.foldersOf r) <= Z.to_nat (Z.min n 100))%nat /\
     forall d, In d (Api.foldersOf r) ->
       Api.d_owner_id d = Api.u_id user /\ Api.d_deleted_at d = None)).
  { unfold Api.search. rewrite Hlimit. cbn [JS.mathMin].
    assert (Hnil : forall A (Q : A -> Prop),
               (List.length (@nil A) <= Z.to_nat (Z.min n 100))%nat /\
               forall x, In x (@nil A) -> Q x).
    { intros A Q. split; [simpl; lia | intros x []]. }
    set (wantFiles := (_ =? "files") || _).
    set (wantFolders := (_ =? "folders") || _).
    destruct wantFiles.
    - destruct (Api.searchFiles _ _ _ _ _ _ _ _) as [e|fs] eqn:Hfs;
        [cbn; split; apply Hnil|].
      apply searchFiles_rows in Hfs. destruct Hfs as [Hfn Hfo].
      specialize (Hfn _ eq_refl ltac:(lia) Hfiles).
      destruct wantFolders.
      + destruct (Api.searchFolders _ _ _ _ _ _ _ _) as [e|ds] eqn:Hds;
          [cbn; split; apply Hnil|].
        apply searchFolders_rows in Hds. destruct Hds as [Hdn Hdo].
        specialize (Hdn _ eq_refl ltac:(lia) Hfolders). cbn. now split.
      + cbn. split; [now split | apply Hnil].
    - destruct wantFolders.
      + destruct (Api.searchFolders _ _ _ _ _ _ _ _) as [e|ds] eqn:Hds;
          [cbn; split; apply Hnil|].
        apply searchFolders_rows in Hds. destruct Hds as [Hdn Hdo].
        specialize (Hdn _ eq_refl ltac:(lia) Hfolders). cbn.
        split; [apply Hnil | now split].
      + cbn. split; apply Hnil. }
  cbv zeta in Hshape. destruct Hshape as [[Hf1 Hf2] [Hd1 Hd2]].
  repeat split; try assumption; try (now apply Hf2); try (now apply Hd2).
  intro Hneg. unfold Api.search, Api.withOffset. cbn [Api.sq_q Api.sq_scope
    Api.sq_limit Api.sq_offset Api.sq_sort Api.sq_order].
  cbn [JS.orElse JS.truthy String.eqb negb].
  replace (JS.mathMax (JS.parseInt (JS.orElse (Api.sq_offset query) "0")) 0)
    with (JS.mathMax (JS.parseInt "0") 0); [reflexivity|].
  destruct (JS.parseInt (JS.orElse (Api.sq_offset query) "0")) as [|o|[|]];
    try discriminate Hneg; [|reflexivity].
  cbn in Hneg. apply Z.ltb_lt in Hneg. cbn [JS.mathMax].
  rewrite Z.max_r by lia. reflexivity.
Qed.

End WithPlatform.

Lemma search_bounded_owned_active_witness :
  let P := Scenario.platform in
  Api.search noFaults Scenario.library Scenario.alice Scenario.firstOne
  = Api.json 200 (Api.Found [Scenario.report] [Scenario.docs])
  /\ (List.length (Api.filesOf (Api.search noFaults Scenario.library Scenario.alice
                             Scenario.firstOne)) <= 1)%nat.
Proof.
  split; [reflexivity|].
  refine (proj1 (@search_bounded_owned_active Scenario.platform noFaults Scenario.library
                   Scenario.alice Scenario.firstOne 1%Z eq_refl _ _));
    reflexivity.
Defined.

End SearchSpec.

(** ** The server of server/index.js *)
Module LegacySpec.

Import Query Store QueryFacts.

(** The move routes never read the caller. *)
Lemma moveFolder_any_caller (env : Legacy.Env) (u1 u2 id : string) (parent_id : option string) :
  Legacy.moveFolder env u1 id parent_id = Legacy.moveFolder env u2 id parent_id.
Proof. reflexivity. Qed.

Lemma moveFile_any_caller (env : Legacy.Env) (u1 u2 id : string) (folder_id : option string) :
  Legacy.moveFile env u1 id folder_id = Legacy.moveFile env u2 id folder_id.
Proof. reflexivity. Qed.

(** C2, on the code: Mallory, who owns nothing, moves Alice's folder and
    Alice's file; both requests are answered 200 and the rows are
    rewritten.  The rename route next to them answers the same caller 403
    and leaves the state as it is. *)
Theorem legacy_move_unguarded :
  let moved := Legacy.mkFolder "d1" "Docs" (Some "x") "alice" false None 90 (Some 1000%Z) in
  let movedA := Legacy.mkFile "a" "a.txt" "alice" (Some "x") "user-alice/a_a.txt" 3
                  "text/plain" false None 91 (Some 1000%Z) in
  Handler.run (Legacy.moveFolder Scenario.quiet "mallory" "d1" (Some "x")) Scenario.drive
  = (Legacy.json 200 (Legacy.FolderBody moved),
     Legacy.setFolders [moved] Scenario.drive)
  /\ Handler.run (Legacy.moveFile Scenario.quiet "mallory" "a" (Some "x")) Scenario.drive
  = (Legacy.json 200 (Legacy.FileBody movedA),
     Legacy.setFiles [movedA; Scenario.fileB; Scenario.fileC] Scenario.drive)
  /\ Handler.run (Legacy.renameFolder Scenario.quiet "mallory" "d1" (Some "Mine"))
       Scenario.drive
  = (Legacy.json 403 (Legacy.Error "Forbidden"), Scenario.drive).
Proof. repeat split. Qed.

(** C3 fails on the code: Alice purges folder F holding files a and b
    while the removal of the blob of b fails.  The answer is 200 [ok], the
    row of F is deleted, the rows of a and b are deleted, and the blob of b
    stays in storage. *)
Lemma hardDeleteFolder_ignores_blob_failure :
  Handler.run (Legacy.hardDeleteFolder Scenario.blobOfBStuck "alice" "d1") Scenario.drive
  = (Legacy.json 200 Legacy.Ok,
     Legacy.mkWorld [Scenario.fileC] [] ["user-alice/b_b.txt"; "user-alice/c_c.txt"]).
Proof. reflexivity. Qed.

Lemma requireFolderOwner_ok (env : Legacy.Env) (user id : string) (w : Legacy.World)
    (folder : Legacy.FolderRow) :
  Legacy.flt env (Select "folders") = None ->
  Legacy.folderOf w id = Some folder ->
  Legacy.d_owner folder = user ->
  Legacy.requireFolderOwner env user id w = (inr tt, w).
Proof.
  intros Hflt Hsel Hown.
  unfold Legacy.requireFolderOwner, Handler.bind, Legacy.selectFolder.
  unfold Legacy.folderOf in Hsel. rewrite Hflt, Hsel, Hown, String.eqb_refl.
  reflexivity.
Qed.

(** The loop over the files removes their blobs one after the other. *)
Lemma removeEach_run (env : Legacy.Env) (rows : list Legacy.FileRow) (w : Legacy.World) :
  Legacy.removeEach env rows w
  = (inr tt,
     Legacy.setStorage
       (fold_left (fun st f => removeObject (Legacy.flt env) (Legacy.f_bucket_path f) st)
          rows (Legacy.storage w)) w).
Proof.
  revert w. induction rows as [|f rest IH]; intro w.
  - now destruct w.
  - cbn [Legacy.removeEach fold_left]. unfold Handler.bind, Legacy.storageRemove.
    rewrite IH. reflexivity.
Qed.

Lemma removeObject_incl (flt : Faults) (path : string) (objects : list string) :
  incl (removeObject flt path objects) objects.
Proof.
  unfold removeObject. intros k Hk. destruct (flt (StorageRemove path)); [exact Hk|].
  now apply filter_In in Hk.
Qed.

Lemma removeObject_gone (flt : Faults) (path : string) (objects : list string) :
  flt (StorageRemove path) = None -> ~ In path (removeObject flt path objects).
Proof.
  unfold removeObject. intros -> Hin. apply filter_In in Hin.
  destruct Hin as [_ Hne]. now rewrite String.eqb_refl in Hne.
Qed.

Lemma removeAll_incl (flt : Faults) (rows : list Legacy.FileRow) (objects : list string) :
  incl (fold_left (fun st f => removeObject flt (Legacy.f_bucket_path f) st) rows objects)
    objects.
Proof.
  revert objects. induction rows as [|f rest IH]; intros objects k Hk; [exact Hk|].
  simpl in Hk. apply IH in Hk. now apply removeObject_incl in Hk.
Qed.

Lemma removeAll_gone (flt : Faults) (rows : list Legacy.FileRow) (objects : list string)
    (f : Legacy.FileRow) :
  In f rows -> flt (StorageRemove (Legacy.f_bucket_path f)) = None ->
  ~ In (Legacy.f_bucket_path f)
      (fold_left (fun st g => removeObject flt (Legacy.f_bucket_path g) st) rows objects).
Proof.
  revert objects. induction rows as [|g rest IH]; intros objects Hin Hflt; [destruct Hin|].
  simpl. destruct Hin as [-> | Hin].
  - intro Hk. apply removeAll_incl in Hk. now apply removeObject_gone in Hk.
  - now apply IH.
Qed.

(** C3, amended: the purge of a folder by its owner is best effort on
    blobs.  When the statements on the two tables succeed, the answer is
    200 [ok], the row of the folder and the rows of the files in it are
    deleted, and the blob of each of these files whose removal did not fail
    is gone, whichever removals of blobs failed. *)
Theorem hardDeleteFolder_best_effort
    (env : Legacy.Env) (user id : string) (w : Legacy.World) (folder : Legacy.FolderRow) :
  Legacy.folderOf w id = Some folder ->
  Legacy.d_owner folder = user ->
  Legacy.flt env (Select "folders") = None ->
  Legacy.flt env (Select "files") = None ->
  Legacy.flt env (Delete "files") = None ->
  Legacy.flt env (Delete "folders") = None ->
  let out := Handler.run (Legacy.hardDeleteFolder env user id) w in
  fst out = Legacy.json 200 Legacy.Ok
  /\ Legacy.folderOf (snd out) id = None
  /\ Legacy.filesIn (snd out) id = []
  /\ (forall f, In f (Legacy.filesIn w id) ->
        Legacy.flt env (StorageRemove (Legacy.f_bucket_path f)) = None ->
        ~ In (Legacy.f_bucket_path f) (Legacy.storage (snd out))).
Proof.
  intros Hsel Hown Hf1 Hf2 Hf3 Hf4.
  unfold Legacy.hardDeleteFolder, Handler.run, Handler.bind.
  rewrite (requireFolderOwner_ok env user id w folder Hf1 Hsel Hown).
  unfold Legacy.selectFilesOf. rewrite Hf2, removeEach_run.
  unfold Legacy.deleteFilesOf, Legacy.deleteFolder. rewrite Hf3, Hf4.
  cbn [fst snd Handler.respond]. repeat split.
  - unfold Legacy.folderOf. cbn. apply single_filter_none.
    intros d Hd. apply filter_In in Hd. destruct Hd as [_ Hd].
    now apply negb_true_iff in Hd.
  - unfold Legacy.filesIn. cbn.
    destruct (filter _ (filter _ (Legacy.files w))) as [|f l] eqn:E; [reflexivity|].
    assert (Hin : In f (f :: l)) by now left.
    rewrite <- E in Hin. apply filter_In in Hin. destruct Hin as [Hin Hp].
    apply filter_In in Hin. destruct Hin as [_ Hn]. rewrite Hp in Hn. discriminate.
  - intros f Hin Hflt. cbn. now apply removeAll_gone.
Qed.

Lemma hardDeleteFolder_best_effort_witness :
  fst (Handler.run (Legacy.hardDeleteFolder Scenario.blobOfBStuck "alice" "d1")
         Scenario.drive) = Legacy.json 200 Legacy.Ok.
Proof.
  exact (proj1 (hardDeleteFolder_best_effort Scenario.blobOfBStuck "alice" "d1" Scenario.drive
                  Scenario.oldDocs eq_refl eq_refl eq_refl eq_refl eq_refl eq_refl)).
Defined.

(** An update by [id] that keeps the [id] rewrites the row [.single()] finds. *)
Lemma single_changed (id : string) (change : Legacy.FolderRow -> Legacy.FolderRow)
    (rows : list Legacy.FolderRow) (folder : Legacy.FolderRow) :
  (forall r, Legacy.d_id (change r) = Legacy.d_id r) ->
  single (filter (fun r => Legacy.d_id r =? id) rows) = Some folder ->
  single (filter (fun r => Legacy.d_id r =? id)
            (map (fun r => if Legacy.d_id r =? id then change r else r) rows))
  = Some (change folder).
Proof.
  intros Hid Hs. apply single_Some in Hs.
  assert (E : filter (fun r => Legacy.d_id r =? id)
                (map (fun r => if Legacy.d_id r =? id then change r else r) rows)
              = map change (filter (fun r => Legacy.d_id r =? id) rows)).
  { clear Hs. induction rows as [|r rows IH]; [reflexivity|].
    cbn [map filter]. destruct (Legacy.d_id r =? id) eqn:Hr.
    - rewrite Hid, Hr. cbn [map]. now rewrite IH.
    - rewrite Hr. exact IH. }
  rewrite E, Hs. reflexivity.
Qed.

Lemma updateFolder_ok (env : Legacy.Env) (id : string)
    (change : Legacy.FolderRow -> Legacy.FolderRow) (w : Legacy.World)
    (folder : Legacy.FolderRow) :
  (forall r, Legacy.d_id (change r) = Legacy.d_id r) ->
  Legacy.flt env (Update "folders") = None ->
  Legacy.folderOf w id = Some folder ->
  Legacy.updateFolder env id change w
  = (inr (inr (change folder)),
     Legacy.setFolders
       (map (fun r => if Legacy.d_id r =? id then change r else r) (Legacy.folders w)) w).
Proof.
  intros Hid Hflt Hsel. unfold Legacy.updateFolder. rewrite Hflt.
  unfold Legacy.folderOf in Hsel.
  now rewrite (single_changed id change (Legacy.folders w) folder Hid Hsel).
Qed.

End LegacySpec.

(** ** Uploads *)
Module UploadSpec.

Import Query Store QueryFacts.

(** Removing an object that was just stored under a fresh key gives back
    the objects there were. *)
Lemma remove_fresh (flt : Faults) (key : string) (objects : list string) :
  flt (StorageRemove key) = None ->
  existsb (String.eqb key) objects = false ->
  removeObject flt key (key :: objects) = objects.
Proof.
  intros Hflt Hnew. unfold removeObject. rewrite Hflt.
  cbn [filter]. rewrite String.eqb_refl. cbn [negb].
  induction objects as [|k rest IH]; [reflexivity|].
  cbn [existsb] in Hnew. apply orb_false_iff in Hnew. destruct Hnew as [Hk Hrest].
  cbn [filter]. rewrite String.eqb_sym, Hk. cbn [negb]. now rewrite IH.
Qed.

Lemma requireOwner_ok (env : Api.Env) (user : Api.User) (table id notFound : string)
    (w : Api.World) :
  Api.selectOwner (Api.flt env) (Api.db w) table id = Some (Api.u_id user) ->
  Api.requireOwner env user table id notFound w = (inr tt, w).
Proof.
  intro H. unfold Api.requireOwner, Handler.bind, Handler.get.
  now rewrite H, String.eqb_refl.
Qed.

(** C9 fails on the code: when the insert of the metadata fails and the
    storage then refuses the removal, both upload routes answer the 500 of
    the insert and the blob they wrote stays in storage, with no row of
    [files] for it. *)
Lemma upload_orphan_when_removal_fails :
  let api :=
    Handler.run (@Api.uploadFile Scenario.platform
                   (Api.mkEnv (Scenario.insertAndRemoveFail "insert failed") 1000 "u-1" "f2" "T"
                      (fun key => key) None)
                   Scenario.alice (Some Scenario.notes) (Some "d1")) Scenario.shelf in
  let old :=
    Handler.run (Legacy.uploadFile
                   (Legacy.mkEnv (Scenario.insertAndRemoveFail "insert failed")
                      Scenario.ticking "n")
                   "alice" (Some Scenario.oldNotes) None) Scenario.drive in
  fst api = Api.json 500 (Api.Error "insert failed")
  /\ Api.storage Scenario.shelf = ["alice/1_report.txt"]
  /\ Api.storage (snd api) = ["alice/u-1_notes.txt"; "alice/1_report.txt"]
  /\ Api.files (Api.db (snd api)) = Api.files (Api.db Scenario.shelf)
  /\ fst old = Legacy.json 500 (Legacy.Error "insert failed")
  /\ Legacy.storage (snd old) = "user-alice/n_my_notes.txt" :: Legacy.storage Scenario.drive
  /\ existsb (String.eqb "user-alice/n_my_notes.txt") (Legacy.storage Scenario.drive) = false
  /\ Legacy.files (snd old) = Legacy.files Scenario.drive.
Proof. repeat split. Qed.

(** C9, amended.  In both upload routes, when the blob has been written
    under its new key and the insert of the metadata then fails with [e],
    the route asks the storage to remove the blob and answers 500 with [e],
    whatever the removal answers.  When the removal succeeds, the store and
    the storage are as they were before the request: no blob is left.  When
    the removal fails, the failure is swallowed and the blob stays in
    storage, the store being as it was. *)
Theorem upload_rollback_attempted :
  (forall (P : JS.Platform Api.FileRow Api.FolderRow) (env : Api.Env) (user : Api.User)
          (upload : Api.Upload) (folderId : option string) (w : Api.World) (e : string),
     let key := (Api.u_id user ++ "/" ++ Api.uuid env ++ "_"
                 ++ JS.encodeURIComponent (Api.originalname upload))%string in
     (forall fid, JS.orNull folderId = Some fid ->
        Api.selectOwner (Api.flt env) (Api.db w) "folders" fid = Some (Api.u_id user)) ->
     Api.flt env (StorageUpload key) = None ->
     existsb (String.eqb key) (Api.storage w) = false ->
     Api.flt env (Insert "files") = Some e ->
     Handler.run (Api.uploadFile env user (Some upload) folderId) w
     = (Api.json 500 (Api.Error e),
        match Api.flt env (StorageRemove key) with
        | None => w
        | Some _ => Api.setStorage (key :: Api.storage w) w
        end))
  /\
  (forall (env : Legacy.Env) (user : string) (upload : Legacy.Upload)
          (folder_id : option string) (w : Legacy.World) (e : string),
     let path := ("user-" ++ user ++ "/" ++ Legacy.uuidv4 env ++ "_"
                  ++ JS.replaceSpaces false (Legacy.originalname upload))%string in
     Legacy.flt env (StorageUpload path) = None ->
     existsb (String.eqb path) (Legacy.storage w) = false ->
     Legacy.flt env (Insert "files") = Some e ->
     Handler.run (Legacy.uploadFile env user (Some upload) folder_id) w
     = (Legacy.json 500 (Legacy.Error e),
        match Legacy.flt env (StorageRemove path) with
        | None => w
        | Some _ => Legacy.setStorage (path :: Legacy.storage w) w
        end)).
Proof.
  split.
  - intros P env user upload folderId w e key Hfolder Hup Hnew Hins.
    unfold Api.uploadFile, Handler.run, Handler.bind. fold key.
    assert (Hcheck :
      (if JS.truthyOpt folderId
       then Api.requireOwner env user "folders"
              match folderId with Some i => i | None => "" end "Target folder not found"
       else Handler.ret tt) w = (inr tt, w)).
    { destruct folderId as [fid|]; [|reflexivity]. cbn [JS.truthyOpt].
      destruct (JS.truthy fid) eqn:Ht; [|reflexivity].
      apply requireOwner_ok. apply Hfolder. cbn [JS.orNull]. now rewrite Ht. }
    rewrite Hcheck. unfold Api.storageUpload. rewrite Hup, Hnew.
    unfold Api.insertFile. cbn [Api.storage Api.setStorage Api.db]. rewrite Hins.
    unfold Api.storageRemove, Handler.respond. cbn [Api.storage Api.setStorage Api.db].
    destruct (Api.flt env (StorageRemove key)) as [r|] eqn:Hrm.
    + unfold removeObject. now rewrite Hrm.
    + rewrite (remove_fresh _ _ _ Hrm Hnew). now destruct w.
  - intros env user upload folder_id w e path Hup Hnew Hins.
    unfold Legacy.uploadFile, Handler.run, Handler.bind. fold path.
    unfold Legacy.storageUpload. rewrite Hup, Hnew.
    unfold Legacy.insertFile. rewrite Hins.
    unfold Legacy.storageRemove, Handler.respond.
    cbn [Legacy.storage Legacy.setStorage Legacy.files Legacy.folders].
    destruct (Legacy.flt env (StorageRemove path)) as [r|] eqn:Hrm.
    + unfold removeObject. now rewrite Hrm.
    + rewrite (remove_fresh _ _ _ Hrm Hnew). now destruct w.
Qed.

Lemma upload_rollback_attempted_witness :
  Handler.run (@Api.uploadFile Scenario.platform
                 (Api.mkEnv (Scenario.insertFails "insert failed") 1000 "u-1" "f2" "T"
                    (fun key => key) None)
                 Scenario.alice (Some Scenario.notes) (Some "d1")) Scenario.shelf
  = (Api.json 500 (Api.Error "insert failed"), Scenario.shelf)
  /\ Handler.run (Legacy.uploadFile
                    (Legacy.mkEnv (Scenario.insertAndRemoveFail "insert failed")
                       Scenario.ticking "n")
                    "alice" (Some Scenario.oldNotes) None) Scenario.drive
  = (Legacy.json 500 (Legacy.Error "insert failed"),
     Legacy.setStorage ("user-alice/n_my_notes.txt" :: Legacy.storage Scenario.drive)
       Scenario.drive).
Proof.
  split.
  - refine (proj1 upload_rollback_attempted Scenario.platform _ Scenario.alice
              Scenario.notes (Some "d1") Scenario.shelf "insert failed" _ _ _ _);
      try reflexivity.
    intros fid Hfid. inversion Hfid. reflexivity.
  - refine (proj2 upload_rollback_attempted _ "alice" Scenario.oldNotes None
              Scenario.drive "insert failed" _ _ _);
      reflexivity.
Defined.

End UploadSpec.

(** ** Trash and restore of folders *)
Module TrashSpec.

Import Query Store QueryFacts.

(** C8 fails on the code.  In the folders routes of the API, trashing
    Alice's folder leaves the file in it active; in the server of
    server/index.js the files are stamped by a later reading of the clock
    than the folder. *)
Lemma folder_trash_cascade_gaps :
  let api := snd (Handler.run (Api.softDeleteFolder (Scenario.calm 1000 "T") Scenario.alice "d1")
                    Scenario.shelf) in
  let old := snd (Handler.run (Legacy.softDeleteFolder Scenario.quiet "alice" "d1")
                    Scenario.drive) in
  map Api.d_deleted_at (Api.folders (Api.db api)) = [Some 1000%Z]
  /\ map Api.f_folder_id (Api.files (Api.db api)) = [Some "d1"]
  /\ map Api.f_deleted_at (Api.files (Api.db api)) = [None]
  /\ map Legacy.d_deleted_at (Legacy.folders old) = [Some 1000%Z]
  /\ map Legacy.f_folder_id (Legacy.files old) = [Some "d1"; Some "d1"; None]
  /\ map Legacy.f_deleted_at (Legacy.files old) = [Some 1002%Z; Some 1002%Z; None].
Proof. repeat split. Qed.

(** The folders routes of the API write no row of [files]. *)
Lemma api_folder_routes_keep_files (env : Api.Env) (user : Api.User) (id : string)
    (w : Api.World) :
  Api.files (Api.db (snd (Handler.run (Api.softDeleteFolder env user id) w)))
  = Api.files (Api.db w)
  /\ Api.files (Api.db (snd (Handler.run (Api.restoreFolder env user id) w)))
  = Api.files (Api.db w).
Proof.
  unfold Api.softDeleteFolder, Api.restoreFolder, Api.requireOwner,
    Api.updateFolderDeletedAt, Handler.run, Handler.bind, Handler.get.
  cbv beta iota.
  destruct (Api.selectOwner (Api.flt env) (Api.db w) "folders" id) as [o|]; [|now split].
  destruct (o =? Api.u_id user); [|now split].
  cbn. destruct (Api.flt env (Update "folders")); now split.
Qed.

(** C8, amended.  In the server of server/index.js, when the lookup of
    the folder and the updates of [folders] and of [files] succeed in both
    requests: trashing a folder by its owner marks the folder with the first
    reading of the clock and, in a second statement, marks every file whose
    [folder_id] is the folder with the third reading; no other file changes.
    Restoring the folder then clears the marks on the folder and on the same
    files, and no other file changes. *)
Theorem folder_trash_cascade
    (env env' : Legacy.Env) (user id : string) (w : Legacy.World)
    (folder : Legacy.FolderRow) :
  Legacy.folderOf w id = Some folder ->
  Legacy.d_owner folder = user ->
  (forall c, In c [Select "folders"; Update "folders"; Update "files"] ->
             Legacy.flt env c = None /\ Legacy.flt env' c = None) ->
  let trashed := Handler.run (Legacy.softDeleteFolder env user id) w in
  let restored := Handler.run (Legacy.restoreFolder env' user id) (snd trashed) in
  Legacy.status (fst trashed) = 200%nat
  /\ (exists d, Legacy.folderOf (snd trashed) id = Some d /\
                Legacy.d_is_deleted d = true /\
                Legacy.d_deleted_at d = Some (Legacy.clock env 0))
  /\ Legacy.files (snd trashed)
     = map (fun f => if Legacy.eqOpt (Legacy.f_folder_id f) id
                     then Legacy.markFile true (Some (Legacy.clock env 2)) f else f)
         (Legacy.files w)
  /\ Legacy.status (fst restored) = 200%nat
  /\ (exists d, Legacy.folderOf (snd restored) id = Some d /\
                Legacy.d_is_deleted d = false /\ Legacy.d_deleted_at d = None)
  /\ Legacy.files (snd restored)
     = map (fun f => if Legacy.eqOpt (Legacy.f_folder_id f) id
                     then Legacy.markFile false None f else f)
         (Legacy.files w).
Proof.
  intros Hsel Hown Hflt.
  destruct (Hflt (Select "folders")) as [Hs Hs']; [simpl; tauto|].
  destruct (Hflt (Update "folders")) as [Hu Hu']; [simpl; tauto|].
  destruct (Hflt (Update "files")) as [Hf Hf']; [simpl; tauto|].
  set (trash := fun r => Legacy.mkFolder (Legacy.d_id r) (Legacy.d_name r)
                  (Legacy.d_parent_id r) (Legacy.d_owner r) true
                  (Some (Legacy.clock env 0)) (Legacy.d_created_at r)
                  (Some (Legacy.clock env 1))).
  set (untrash := fun r => Legacy.mkFolder (Legacy.d_id r) (Legacy.d_name r)
                  (Legacy.d_parent_id r) (Legacy.d_owner r) false
                  None (Legacy.d_created_at r) (Some (Legacy.clock env' 0))).
  assert (Ht : Handler.run (Legacy.softDeleteFolder env user id) w
    = (Legacy.json 200 (Legacy.FolderBody (trash folder)),
       Legacy.mkWorld
         (map (fun f => if Legacy.eqOpt (Legacy.f_folder_id f) id
                        then Legacy.markFile true (Some (Legacy.clock env 2)) f else f)
            (Legacy.files w))
         (map (fun r => if Legacy.d_id r =? id then trash r else r) (Legacy.folders w))
         (Legacy.storage w))).
  { unfold Legacy.softDeleteFolder, Handler.run, Handler.bind.
    rewrite (LegacySpec.requireFolderOwner_ok env user id w folder Hs Hsel Hown).
    fold trash. rewrite (LegacySpec.updateFolder_ok env id trash w folder); auto.
    unfold Legacy.updateFilesOf. cbn. now rewrite Hf. }
  assert (Hsel1 : forall fs st,
    Legacy.folderOf
      (Legacy.mkWorld fs
         (map (fun r => if Legacy.d_id r =? id then trash r else r) (Legacy.folders w)) st) id
    = Some (trash folder)).
  { intros fs st. unfold Legacy.folderOf. cbn [Legacy.folders].
    now apply LegacySpec.single_changed. }
  cbv zeta. rewrite Ht. cbn [fst snd].
  match goal with |- context [Handler.run _ ?x] => set (w1 := x) end.
  assert (Hr : Handler.run (Legacy.restoreFolder env' user id) w1
    = (Legacy.json 200 (Legacy.FolderBody (untrash (trash folder))),
       Legacy.mkWorld
         (map (fun f => if Legacy.eqOpt (Legacy.f_folder_id f) id
                        then Legacy.markFile false None f else f)
            (Legacy.files w1))
         (map (fun r => if Legacy.d_id r =? id then untrash r else r) (Legacy.folders w1))
         (Legacy.storage w1))).
  { unfold Legacy.restoreFolder, Handler.run, Handler.bind.
    rewrite (LegacySpec.requireFolderOwner_ok env' user id w1 (trash folder) Hs' (Hsel1 _ _) Hown).
    fold untrash. rewrite (LegacySpec.updateFolder_ok env' id untrash w1 (trash folder)); auto.
    - unfold Legacy.updateFilesOf. cbn. now rewrite Hf'.
    - apply Hsel1. }
  rewrite Hr. cbn [fst snd Legacy.status Legacy.files].
  repeat split.
  - exists (trash folder). repeat split. apply Hsel1.
  - exists (untrash (trash folder)). repeat split.
    unfold Legacy.folderOf. cbn [Legacy.folders].
    apply LegacySpec.single_changed; [reflexivity|]. apply (Hsel1 [] []).
  - subst w1. cbn [Legacy.files]. rewrite map_map. apply map_ext. intro f.
    destruct (Legacy.eqOpt (Legacy.f_folder_id f) id) eqn:E; cbn; now rewrite E.
Qed.

Lemma folder_trash_cascade_witness :
  Legacy.files (snd (Handler.run (Legacy.softDeleteFolder Scenario.quiet "alice" "d1")
                       Scenario.drive))
  = [Legacy.markFile true (Some 1002%Z) Scenario.fileA;
     Legacy.markFile true (Some 1002%Z) Scenario.fileB; Scenario.fileC].
Proof.
  refine (proj1 (proj2 (proj2
    (folder_trash_cascade Scenario.quiet Scenario.quiet "alice" "d1" Scenario.drive
       Scenario.oldDocs eq_refl eq_refl _)))).
  intros c Hc. split; reflexivity.
Defined.

End TrashSpec.

(** ** More on the shares routes *)
Module SharesMore.

Import Query Store QueryFacts.

Lemma requireOwner_eq (env : Api.Env) (user : Api.User) (table id notFound : string)
    (w : Api.World) :
  Api.requireOwner env user table id notFound w
  = match Api.selectOwner (Api.flt env) (Api.db w) table id with
    | None => (inl (Api.json 404 (Api.Error notFound)), w)
    | Some o =>
        if o =? Api.u_id user then (inr tt, w)
        else (inl (Api.json 403 (Api.Error "Not allowed")), w)
    end.
Proof.
  unfold Api.requireOwner, Handler.bind, Handler.get.
  destruct (Api.selectOwner _ _ _ _) as [o|]; [|reflexivity].
  now destruct (o =? Api.u_id user).
Qed.

(** Anyone but the owner is answered 403 or 404 by the owner check. *)
Lemma requireOwner_denied (env : Api.Env) (user : Api.User) (table id notFound : string)
    (w : Api.World) :
  Api.selectOwner (Api.flt env) (Api.db w) table id <> Some (Api.u_id user) ->
  exists r, Api.requireOwner env user table id notFound w = (inl r, w)
            /\ (Api.status r = 403 \/ Api.status r = 404)%nat.
Proof.
  intro H. rewrite requireOwner_eq.
  destruct (Api.selectOwner _ _ _ _) as [o|].
  - destruct (String.eqb_spec o (Api.u_id user)) as [->|]; [now destruct H|].
    eexists. split; [reflexivity | now left].
  - eexists. split; [reflexivity | now right].
Qed.

Lemma requireOwner_passes (env : Api.Env) (user : Api.User) (table id notFound : string)
    (w : Api.World) :
  Api.selectOwner (Api.flt env) (Api.db w) table id = Some (Api.u_id user) ->
  Api.requireOwner env user table id notFound w = (inr tt, w).
Proof. intro H. now rewrite requireOwner_eq, H, String.eqb_refl. Qed.

Lemma filter_andb {A : Type} (p q : A -> bool) (l : list A) :
  filter (fun x => p x && q x) l = filter q (filter p l).
Proof.
  induction l as [|x l IH]; [reflexivity|]. simpl.
  destruct (p x); simpl; [destruct (q x); now rewrite IH | exact IH].
Qed.

Lemma filter_idem {A : Type} (p : A -> bool) (l : list A) :
  filter p (filter p l) = filter p l.
Proof.
  induction l as [|x l IH]; [reflexivity|]. simpl.
  destruct (p x) eqn:E; simpl; [now rewrite E, IH | exact IH].
Qed.

Lemma filter_none {A : Type} (p : A -> bool) (l : list A) :
  filter p (filter (fun x => negb (p x)) l) = [].
Proof.
  induction l as [|x l IH]; [reflexivity|]. simpl.
  destruct (p x) eqn:E; simpl; [exact IH | now rewrite E].
Qed.

(** A row of the upserted table under the key of the upsert carries the
    payload. *)
Lemma upsertRows_payload (generated : string) (rt : Api.ResourceType)
    (rid owner_id : string) (role : Api.Role) (expires_at : option Z)
    (rows : list Api.ShareRow) (r : Api.ShareRow) :
  In r (Api.upsertRows generated rt rid owner_id role expires_at rows) ->
  Api.shareKey rt rid r = true ->
  Api.s_role r = role /\ Api.s_expires_at r = expires_at /\ Api.s_owner_id r = owner_id.
Proof.
  unfold Api.upsertRows. destruct (existsb (Api.shareKey rt rid) rows) eqn:Hex; intros Hin Hk.
  - apply in_map_iff in Hin. destruct Hin as (r0 & Hr & _).
    destruct (Api.shareKey rt rid r0) eqn:H0; subst r; [now repeat split | congruence].
  - apply in_app_or in Hin. destruct Hin as [Hin | [<- | []]]; [|now repeat split].
    assert (Ht : existsb (Api.shareKey rt rid) rows = true)
      by (apply existsb_exists; now exists r).
    congruence.
Qed.

(** The request is turned away by the owner check [Hreq]. *)
Ltac turned_away Hreq Hin :=
  unfold Api.refused, Api.refusedData, Handler.run, Handler.bind, Api.lift;
  rewrite Hreq; cbn; split; [reflexivity | exact Hin].

(** The request is turned away by the validation of its body. *)
Ltac invalid :=
  unfold Api.refused, Api.refusedData; cbn; split; [reflexivity | now left].

Section WithPlatform.

Context {P : JS.Platform Api.FileRow Api.FolderRow}.

(** X1: every shares route turns away a caller who is not the owner of the
    resource (or when the resource has no row): nothing is written and the
    answer is 400, 403 or 404. *)
Theorem shares_routes_owner_only
    (env : Api.Env) (user : Api.User) (rt : Api.ResourceType) (rid : string) (w : Api.World) :
  Api.selectOwner (Api.flt env) (Api.db w) (Api.tableOf rt) rid <> Some (Api.u_id user) ->
  (forall role days,
      Api.refused w (Handler.run
        (Api.createLink env user (Api.mkLinkBody (Some rt) (Some rid) role days)) w))
  /\ Api.refused w (Handler.run (Api.revokeLink env user rt rid) w)
  /\ (forall email role,
        Api.refusedData w (Handler.run
          (Api.grant env user (Api.mkGrantBody (Some rt) (Some rid) email role)) w))
  /\ (forall email, Api.refused w (Handler.run (Api.revokeGrant env user rt rid email) w))
  /\ Api.refusedData w (Handler.run (Api.describeShares env user rt rid) w).
Proof.
  intro Hown.
  destruct (requireOwner_denied env user (Api.tableOf rt) rid "Resource not found" w Hown)
    as (r & Hreq & Hst).
  assert (Hin : In (Api.status r) [400; 403; 404]%nat)
    by (destruct Hst as [-> | ->]; simpl; tauto).
  split; [|split; [|split; [|split]]].
  - intros role days. unfold Api.createLink.
    cbn [Api.lb_resourceType Api.lb_resourceId Api.lb_role JS.orNull].
    destruct (JS.truthy rid); [|invalid].
    destruct role as [role|]; [|invalid].
    turned_away Hreq Hin.
  - unfold Api.revokeLink. turned_away Hreq Hin.
  - intros email role. unfold Api.grant.
    cbn [Api.gb_resourceType Api.gb_resourceId Api.gb_email Api.gb_role].
    unfold JS.orNull at 1.
    destruct (JS.truthy rid); [|invalid].
    destruct (JS.orNull email); [|invalid].
    destruct role as [role|]; [|invalid].
    turned_away Hreq Hin.
  - intro email. unfold Api.revokeGrant. turned_away Hreq Hin.
  - unfold Api.describeShares. turned_away Hreq Hin.
Qed.

(** X2: when POST /link answers 200, the table holds exactly one link for
    the resource, with the role, the expiry and the owner of the request
    (any role is taken as sent, [owner] included), and the token of that
    link resolves, for a caller without principal, to that role until the
    expiry and to nothing after it. *)
Theorem createLink_token_resolves
    (env : Api.Env) (user : Api.User) (rt : Api.ResourceType) (rid : string)
    (role : Api.Role) (days : option Z) (w : Api.World) :
  let out := Handler.run
    (Api.createLink env user (Api.mkLinkBody (Some rt) (Some rid) (Some role) days)) w in
  Api.status (fst out) = 200%nat ->
  exists data,
    Api.body (fst out)
      = Api.Link (Api.shareUrl env rt rid (Api.s_link_token data)) role (Api.expiryOf env days)
    /\ filter (Api.shareKey rt rid) (Api.shares (Api.db (snd out))) = [data]
    /\ Api.s_role data = role
    /\ Api.s_expires_at data = Api.expiryOf env days
    /\ Api.s_owner_id data = Api.u_id user
    /\ forall flt' now',
         flt' (Select "shares") = None -> Api.s_link_token data <> "" ->
         Api.resolveUserRole flt' now' (Api.db (snd out)) None rt rid
           (Some (Api.s_link_token data))
         = match Api.expiryOf env days with
           | Some e => if (e <? now')%Z then None else Some role
           | None => Some role
           end.
Proof.
  cbv zeta. unfold Api.createLink.
  cbn [Api.lb_resourceType Api.lb_resourceId Api.lb_role Api.lb_expiresInDays JS.orNull].
  destruct (JS.truthy rid); [|cbn; discriminate].
  unfold Handler.run, Handler.bind. rewrite requireOwner_eq.
  destruct (Api.selectOwner _ _ _ _) as [o|]; [|cbn; discriminate].
  destruct (o =? Api.u_id user); [|cbn; discriminate].
  fold (Api.expiryOf env days).
  unfold Api.upsertShare.
  destruct (Api.flt env (Upsert "shares")); [cbn; discriminate|].
  destruct (single _) as [data|] eqn:Hs; [|cbn; discriminate].
  cbn [fst snd Handler.respond Api.status Api.body]. intros _.
  pose proof (single_Some _ _ Hs) as Hrows.
  destruct (single_filter_sat _ _ _ Hs) as [Hin Hk].
  destruct (upsertRows_payload _ _ _ _ _ _ _ _ Hin Hk) as (Hr & He & Ho).
  exists data. rewrite Hr, He. repeat split; auto.
  intros flt' now' Hflt Htok.
  unfold Api.resolveUserRole. rewrite ResolverSpec.isOwner_anonymous.
  unfold Api.linkRole, Api.selectShare. rewrite (truthy_true _ Htok), Hflt.
  cbn [Api.db Api.setShares Api.shares].
  change (Api.shareMatches rt rid (Api.s_link_token data))
    with (fun r => Api.shareKey rt rid r && (Api.s_link_token r =? Api.s_link_token data)).
  rewrite filter_andb, Hrows. cbn [filter]. rewrite String.eqb_refl. cbn [single].
  now rewrite He, Hr.
Qed.

(** X3: after the owner revokes the link of a resource (the delete
    succeeding), no link of the resource is left, the links of other
    resources are as before, no token resolves to a role for a caller
    without principal, and revoking again changes nothing. *)
Theorem revokeLink_kills_tokens
    (env : Api.Env) (user : Api.User) (rt : Api.ResourceType) (rid : string) (w : Api.World) :
  Api.selectOwner (Api.flt env) (Api.db w) (Api.tableOf rt) rid = Some (Api.u_id user) ->
  Api.flt env (Delete "shares") = None ->
  let out := Handler.run (Api.revokeLink env user rt rid) w in
  fst out = Api.json 200 (Api.Message "Link revoked")
  /\ filter (Api.shareKey rt rid) (Api.shares (Api.db (snd out))) = []
  /\ (forall sh, Api.shareKey rt rid sh = false ->
        (In sh (Api.shares (Api.db (snd out))) <-> In sh (Api.shares (Api.db w))))
  /\ (forall flt' now' token,
        Api.resolveUserRole flt' now' (Api.db (snd out)) None rt rid token = None)
  /\ Handler.run (Api.revokeLink env user rt rid) (snd out) = out.
Proof.
  intros Hown Hdel. cbv zeta.
  assert (Hrun : forall w', Api.selectOwner (Api.flt env) (Api.db w') (Api.tableOf rt) rid
                            = Some (Api.u_id user) ->
    Handler.run (Api.revokeLink env user rt rid) w'
    = (Api.json 200 (Api.Message "Link revoked"),
       Api.setShares (filter (fun r => negb (Api.shareKey rt rid r))
                        (Api.shares (Api.db w'))) w')).
  { intros w' Hw'. unfold Api.revokeLink, Handler.run, Handler.bind.
    rewrite (requireOwner_passes _ _ _ _ _ _ Hw').
    unfold Api.deleteShares. now rewrite Hdel. }
  rewrite (Hrun w Hown). cbn [fst snd Api.db Api.setShares Api.shares].
  repeat split.
  - apply filter_none.
  - intro Hin. now apply filter_In in Hin.
  - intro Hin. apply filter_In. split; [exact Hin | now rewrite H].
  - intros flt' now' token.
    unfold Api.resolveUserRole. rewrite ResolverSpec.isOwner_anonymous.
    destruct (Api.linkRole _ _ _ _ _ _) as [r|] eqn:E; [|reflexivity].
    apply ResolverSpec.linkRole_Some in E.
    destruct E as (t & sh & _ & _ & Hin & H1 & H2 & _).
    cbn [Api.shares] in Hin. apply filter_In in Hin. destruct Hin as [_ Hk].
    unfold Api.shareKey in Hk. rewrite H1, H2, String.eqb_refl in Hk.
    rewrite (proj2 (ResolverSpec.ResourceType_eqb_eq rt rt) eq_refl) in Hk. discriminate.
  - rewrite Hrun by exact Hown.
    cbn [Api.db Api.setShares Api.shares Api.files Api.folders Api.permissions Api.storage].
    unfold Api.setShares. cbn. f_equal. f_equal. f_equal.
    apply (filter_idem (fun r => negb (Api.shareKey rt rid r))).
Qed.

(** X4: the two revoke routes do not read the result of their delete: when
    the store fails to delete, the owner is still answered 200 with the
    message of success, and the link or grant is still there. *)
Theorem revoke_success_unchecked
    (env : Api.Env) (user : Api.User) (rt : Api.ResourceType) (rid email e : string)
    (w : Api.World) :
  Api.selectOwner (Api.flt env) (Api.db w) (Api.tableOf rt) rid = Some (Api.u_id user) ->
  (Api.flt env (Delete "shares") = Some e ->
     Handler.run (Api.revokeLink env user rt rid) w
     = (Api.json 200 (Api.Message "Link revoked"), w))
  /\ (Api.flt env (Delete "permissions") = Some e ->
     Handler.run (Api.revokeGrant env user rt rid email) w
     = (Api.json 200 (Api.Message "Access revoked"), w)).
Proof.
  intro Hown. split; intro Hdel.
  - unfold Api.revokeLink, Handler.run, Handler.bind.
    rewrite (requireOwner_passes _ _ _ _ _ _ Hown).
    unfold Api.deleteShares. now rewrite Hdel.
  - unfold Api.revokeGrant, Handler.run, Handler.bind.
    rewrite (requireOwner_passes _ _ _ _ _ _ Hown).
    unfold Api.deletePermissions. now rewrite Hdel.
Qed.

End WithPlatform.

End SharesMore.

(** ** Grants by email *)
Module GrantsMore.

Import Query Store QueryFacts.

Lemma grantKey_true (rt : Api.ResourceType) (rid email : string) (r : Api.PermissionRow) :
  Api.grantKey rt rid email r = true <-> Api.grantKeyOf r = (rt, rid, email).
Proof.
  unfold Api.grantKey, Api.grantKeyOf.
  rewrite !andb_true_iff, ResolverSpec.ResourceType_eqb_eq, !String.eqb_eq.
  split; [intros [[-> ->] ->]; reflexivity | intro H; inversion H; auto].
Qed.

(** A row of the upserted table under the key of the grant is the grant. *)
Lemma upsertGrantRows_payload (rt : Api.ResourceType) (rid email : string) (role : Api.Role)
    (rows : list Api.PermissionRow) (r : Api.PermissionRow) :
  In r (Api.upsertGrantRows rt rid email role rows) ->
  Api.grantKey rt rid email r = true ->
  r = Api.mkPermission rt rid email role.
Proof.
  unfold Api.upsertGrantRows.
  destruct (existsb (Api.grantKey rt rid email) rows) eqn:Hex; intros Hin Hk.
  - apply in_map_iff in Hin. destruct Hin as (r0 & Hr & _).
    destruct (Api.grantKey rt rid email r0) eqn:H0; subst r; [reflexivity | congruence].
  - apply in_app_or in Hin. destruct Hin as [Hin | [<- | []]]; [|reflexivity].
    assert (Ht : existsb (Api.grantKey rt rid email) rows = true)
      by (apply existsb_exists; now exists r).
    congruence.
Qed.

(** The upsert leaves the grants under other keys as they are. *)
Lemma upsertGrantRows_others (rt : Api.ResourceType) (rid email : string) (role : Api.Role)
    (rows : list Api.PermissionRow) (r : Api.PermissionRow) :
  Api.grantKey rt rid email r = false ->
  (In r (Api.upsertGrantRows rt rid email role rows) <-> In r rows).
Proof.
  intro Hk. unfold Api.upsertGrantRows.
  assert (Hnew : Api.grantKey rt rid email (Api.mkPermission rt rid email role) = true).
  { apply grantKey_true. reflexivity. }
  destruct (existsb (Api.grantKey rt rid email) rows); split; intro Hin.
  - apply in_map_iff in Hin. destruct Hin as (r0 & Hr & Hin).
    destruct (Api.grantKey rt rid email r0); subst r; [congruence | exact Hin].
  - apply in_map_iff. exists r. now rewrite Hk.
  - apply in_app_or in Hin. destruct Hin as [Hin | [<- | []]]; [exact Hin | congruence].
  - apply in_or_app. now left.
Qed.

(** The upsert keeps one grant per resource and email. *)
Lemma upsertGrantRows_one_grant (rt : Api.ResourceType) (rid email : string) (role : Api.Role)
    (rows : list Api.PermissionRow) :
  NoDup (map Api.grantKeyOf rows) ->
  NoDup (map Api.grantKeyOf (Api.upsertGrantRows rt rid email role rows)).
Proof.
  intro Hnd. unfold Api.upsertGrantRows.
  destruct (existsb (Api.grantKey rt rid email) rows) eqn:Hex.
  - rewrite map_map. rewrite (map_ext _ Api.grantKeyOf); [exact Hnd|].
    intro r. destruct (Api.grantKey rt rid email r) eqn:Hk; [|reflexivity].
    apply grantKey_true in Hk. now rewrite Hk.
  - rewrite map_app. simpl. apply NoDup_app; auto.
    + constructor; [intros [] | constructor].
    + intros k Hin [<- | []].
      apply in_map_iff in Hin. destruct Hin as (r & Hr & Hin).
      assert (Ht : existsb (Api.grantKey rt rid email) rows = true).
      { apply existsb_exists. exists r. split; [exact Hin | now apply grantKey_true]. }
      congruence.
Qed.

Section WithPlatform.

Context {P : JS.Platform Api.FileRow Api.FolderRow}.

(** X5: when POST /grant answers 200, the answer is the grant for the
    lower-cased email with the role of the request, it is the only row of
    [permissions] for that resource and email, the grants under other keys
    are as before, and a table with one row per key still has one row per
    key; files, folders and links are not written. *)
Theorem grant_replaces_role
    (env : Api.Env) (user : Api.User) (rt : Api.ResourceType) (rid email : string)
    (role : Api.Role) (w : Api.World) :
  let out := Handler.run
    (Api.grant env user (Api.mkGrantBody (Some rt) (Some rid) (Some email) (Some role))) w in
  let granted := Api.mkPermission rt rid (JS.toLowerCase email) role in
  Api.statusOf (fst out) = 200%nat ->
  fst out = Api.GrantJson granted
  /\ filter (Api.grantKey rt rid (JS.toLowerCase email)) (Api.permissions (Api.db (snd out)))
     = [granted]
  /\ (forall p, Api.grantKey rt rid (JS.toLowerCase email) p = false ->
        (In p (Api.permissions (Api.db (snd out))) <-> In p (Api.permissions (Api.db w))))
  /\ (NoDup (map Api.grantKeyOf (Api.permissions (Api.db w))) ->
      NoDup (map Api.grantKeyOf (Api.permissions (Api.db (snd out)))))
  /\ Api.files (Api.db (snd out)) = Api.files (Api.db w)
  /\ Api.folders (Api.db (snd out)) = Api.folders (Api.db w)
  /\ Api.shares (Api.db (snd out)) = Api.shares (Api.db w).
Proof.
  cbv zeta. unfold Api.grant.
  cbn [Api.gb_resourceType Api.gb_resourceId Api.gb_email Api.gb_role JS.orNull].
  destruct (JS.truthy rid); [|cbn; discriminate].
  destruct (JS.truthy email); [|cbn; discriminate].
  unfold Handler.run, Handler.bind, Api.lift. rewrite SharesMore.requireOwner_eq.
  destruct (Api.selectOwner _ _ _ _) as [o|]; [|cbn; discriminate].
  destruct (o =? Api.u_id user); [|cbn; discriminate].
  unfold Api.upsertPermission.
  destruct (Api.flt env (Upsert "permissions")); [cbn; discriminate|].
  destruct (single _) as [data|] eqn:Hs; [|cbn; discriminate].
  cbn [fst snd Handler.respond Api.db Api.setPermissions Api.permissions Api.files
       Api.folders Api.shares]. intros _.
  pose proof (single_Some _ _ Hs) as Hrows.
  destruct (single_filter_sat _ _ _ Hs) as [Hin Hk].
  pose proof (upsertGrantRows_payload _ _ _ _ _ _ Hin Hk) as ->.
  repeat split; auto.
  - now apply upsertGrantRows_others.
  - now apply upsertGrantRows_others.
  - apply upsertGrantRows_one_grant.
Qed.

(** X6: after the owner revokes the grant of an email (the delete
    succeeding), no grant of the resource for the lower-cased email is left,
    every other grant is as before, and revoking again changes nothing. *)
Theorem revokeGrant_removes_grant
    (env : Api.Env) (user : Api.User) (rt : Api.ResourceType) (rid email : string)
    (w : Api.World) :
  Api.selectOwner (Api.flt env) (Api.db w) (Api.tableOf rt) rid = Some (Api.u_id user) ->
  Api.flt env (Delete "permissions") = None ->
  let out := Handler.run (Api.revokeGrant env user rt rid email) w in
  fst out = Api.json 200 (Api.Message "Access revoked")
  /\ filter (Api.grantKey rt rid (JS.toLowerCase email)) (Api.permissions (Api.db (snd out)))
     = []
  /\ (forall p, Api.grantKey rt rid (JS.toLowerCase email) p = false ->
        (In p (Api.permissions (Api.db (snd out))) <-> In p (Api.permissions (Api.db w))))
  /\ Handler.run (Api.revokeGrant env user rt rid email) (snd out) = out.
Proof.
  intros Hown Hdel. cbv zeta.
  assert (Hrun : forall w', Api.selectOwner (Api.flt env) (Api.db w') (Api.tableOf rt) rid
                            = Some (Api.u_id user) ->
    Handler.run (Api.revokeGrant env user rt rid email) w'
    = (Api.json 200 (Api.Message "Access revoked"),
       Api.setPermissions
         (filter (fun r => negb (Api.grantKey rt rid (JS.toLowerCase email) r))
            (Api.permissions (Api.db w'))) w')).
  { intros w' Hw'. unfold Api.revokeGrant, Handler.run, Handler.bind.
    rewrite (SharesMore.requireOwner_passes _ _ _ _ _ _ Hw').
    unfold Api.deletePermissions. now rewrite Hdel. }
  rewrite (Hrun w Hown). cbn [fst snd Api.db Api.setPermissions Api.permissions].
  repeat split.
  - apply SharesMore.filter_none.
  - intro Hin. now apply filter_In in Hin.
  - intro Hin. apply filter_In. split; [exact Hin | now rewrite H].
  - rewrite Hrun by exact Hown.
    unfold Api.setPermissions. cbn. f_equal. f_equal. f_equal.
    apply (SharesMore.filter_idem
             (fun r => negb (Api.grantKey rt rid (JS.toLowerCase email) r))).
Qed.

End WithPlatform.

End GrantsMore.

(** ** Folders and files of the API *)
Module DriveMore.

Import Query Store QueryFacts.

Lemma single_map {A B : Type} (f : A -> B) (rows : list A) :
  single (map f rows) = option_map f (single rows).
Proof. now destruct rows as [|x [|y rows]]. Qed.

(** An update by a key that keeps the key rewrites the row [.single()] finds. *)
Lemma single_rewritten {A : Type} (p : A -> bool) (change : A -> A) (rows : list A) (r : A) :
  (forall x, p (change x) = p x) ->
  single (filter p rows) = Some r ->
  single (filter p (map (fun x => if p x then change x else x) rows)) = Some (change r).
Proof.
  intros Hp Hs. apply single_Some in Hs.
  assert (E : filter p (map (fun x => if p x then change x else x) rows)
              = map change (filter p rows)).
  { clear Hs. induction rows as [|x rows IH]; [reflexivity|].
    cbn [map filter]. destruct (p x) eqn:Hx.
    - rewrite Hp, Hx. cbn [map]. now rewrite IH.
    - rewrite Hx. exact IH. }
  now rewrite E, Hs.
Qed.

(** The owner query on [folders] and on [files], from the rows. *)
Lemma selectOwner_folder (flt : Faults) (db : Api.Db) (id o : string) :
  Api.selectOwner flt db "folders" id = Some o ->
  flt (Select "folders") = None /\
  exists r, single (filter (fun r => Api.d_id r =? id) (Api.folders db)) = Some r
            /\ Api.d_owner_id r = o.
Proof.
  unfold Api.selectOwner, Api.ownerIds. cbn [String.eqb Ascii.eqb Bool.eqb].
  destruct (flt (Select "folders")); [discriminate|]. rewrite single_map.
  destruct (single _) as [r|]; [|discriminate]. intro H. inversion H. eauto.
Qed.

Lemma selectOwner_file (flt : Faults) (db : Api.Db) (id : string) :
  Api.selectOwner flt db "files" id
  = match flt (Select "files") with
    | Some _ => None
    | None => option_map Api.f_owner_id
                (single (filter (fun r => Api.f_id r =? id) (Api.files db)))
    end.
Proof.
  unfold Api.selectOwner, Api.ownerIds. cbn [String.eqb Ascii.eqb Bool.eqb].
  now rewrite single_map.
Qed.

(** The check of a target folder turns away a caller who does not own it. *)
Lemma requireTarget_denied (env : Api.Env) (user : Api.User) (target notFound : string)
    (w : Api.World) :
  target <> "" ->
  Api.selectOwner (Api.flt env) (Api.db w) "folders" target <> Some (Api.u_id user) ->
  exists r, Api.requireTarget env user (Some target) notFound w = (inl r, w)
            /\ (Api.status r = 403 \/ Api.status r = 404)%nat.
Proof.
  intros Ht Hown. unfold Api.requireTarget. cbn [JS.orNull]. rewrite (truthy_true _ Ht).
  now apply SharesMore.requireOwner_denied.
Qed.

Lemma requireTarget_passes (env : Api.Env) (user : Api.User) (target : option string)
    (notFound : string) (w : Api.World) :
  (forall t, JS.orNull target = Some t ->
     Api.selectOwner (Api.flt env) (Api.db w) "folders" t = Some (Api.u_id user)) ->
  Api.requireTarget env user target notFound w = (inr tt, w).
Proof.
  intro H. unfold Api.requireTarget. destruct (JS.orNull target) as [t|]; [|reflexivity].
  now apply SharesMore.requireOwner_passes, H.
Qed.

Section WithPlatform.

Context {P : JS.Platform Api.FileRow Api.FolderRow}.

(** X7: the routes of the API that rename, move, trash, restore or purge a
    folder or a file turn away a caller who is not the owner of the row (or
    when there is no such row): nothing is written, in the store or in
    storage, and the answer is 400, 403 or 404. *)
Theorem drive_mutations_owner_only
    (env : Api.Env) (user : Api.User) (id : string) (w : Api.World) :
  (Api.selectOwner (Api.flt env) (Api.db w) "folders" id <> Some (Api.u_id user) ->
     (forall name, Api.refusedData w (Handler.run (Api.renameFolder env user id name) w))
     /\ (forall target, Api.refusedData w (Handler.run (Api.moveFolder env user id target) w))
     /\ Api.refused w (Handler.run (Api.softDeleteFolder env user id) w)
     /\ Api.refused w (Handler.run (Api.restoreFolder env user id) w))
  /\
  (Api.selectOwner (Api.flt env) (Api.db w) "files" id <> Some (Api.u_id user) ->
     (forall name, Api.refusedData w (Handler.run (Api.renameFile env user id name) w))
     /\ (forall target, Api.refusedData w (Handler.run (Api.moveFile env user id target) w))
     /\ Api.refused w (Handler.run (Api.softDeleteFile env user id) w)
     /\ Api.refused w (Handler.run (Api.restoreFile env user id) w)
     /\ Api.refused w (Handler.run (Api.hardDeleteFile env user id) w)).
Proof.
  split; intro Hown.
  - destruct (SharesMore.requireOwner_denied env user "folders" id "Folder not found" w Hown)
      as (r & Hreq & Hst).
    assert (Hin : In (Api.status r) [400; 403; 404]%nat)
      by (destruct Hst as [-> | ->]; simpl; tauto).
    split; [|split; [|split]].
    + intro name. unfold Api.renameFolder.
      destruct (Api.trimmed name); [|SharesMore.invalid]. SharesMore.turned_away Hreq Hin.
    + intro target. unfold Api.moveFolder. SharesMore.turned_away Hreq Hin.
    + unfold Api.softDeleteFolder. SharesMore.turned_away Hreq Hin.
    + unfold Api.restoreFolder. SharesMore.turned_away Hreq Hin.
  - destruct (SharesMore.requireOwner_denied env user "files" id "File not found" w Hown)
      as (r & Hreq & Hst).
    assert (Hin : In (Api.status r) [400; 403; 404]%nat)
      by (destruct Hst as [-> | ->]; simpl; tauto).
    split; [|split; [|split; [|split]]].
    + intro name. unfold Api.renameFile.
      destruct (Api.trimmed name); [|SharesMore.invalid]. SharesMore.turned_away Hreq Hin.
    + intro target. unfold Api.moveFile. SharesMore.turned_away Hreq Hin.
    + unfold Api.softDeleteFile. SharesMore.turned_away Hreq Hin.
    + unfold Api.restoreFile. SharesMore.turned_away Hreq Hin.
    + rewrite selectOwner_file in Hown.
      unfold Api.refused, Api.hardDeleteFile, Handler.run, Handler.bind, Api.selectFile.
      destruct (Api.flt env (Select "files")); [cbn; tauto|].
      destruct (single _) as [data|]; [|cbn; tauto].
      cbn [option_map] in Hown.
      destruct (String.eqb_spec (Api.f_owner_id data) (Api.u_id user)) as [E|];
        [rewrite E in Hown; now destruct Hown | cbn; tauto].
Qed.

(** X8: a caller who owns the folder or file is still turned away when the
    target folder of a create, a move or an upload is not a folder of the
    caller: nothing is written and the answer is 400, 403 or 404. *)
Theorem drive_targets_owner_only
    (env : Api.Env) (user : Api.User) (target : string) (w : Api.World) :
  target <> "" ->
  Api.selectOwner (Api.flt env) (Api.db w) "folders" target <> Some (Api.u_id user) ->
  (forall name,
      Api.refusedData w (Handler.run (Api.createFolder env user name (Some target)) w))
  /\ (forall id,
      Api.refusedData w (Handler.run (Api.moveFolder env user id (Some target)) w))
  /\ (forall id,
      Api.refusedData w (Handler.run (Api.moveFile env user id (Some target)) w))
  /\ (forall reqFile,
      Api.refused w (Handler.run (Api.uploadFile env user reqFile (Some target)) w)).
Proof.
  intros Ht Hown.
  assert (Hany : forall notFound, exists r,
            Api.requireTarget env user (Some target) notFound w = (inl r, w)
            /\ In (Api.status r) [400; 403; 404]%nat).
  { intro notFound.
    destruct (requireTarget_denied env user target notFound w Ht Hown) as (r & Hr & Hst).
    exists r. split; [exact Hr|]. destruct Hst as [-> | ->]; simpl; tauto. }
  split; [|split; [|split]].
  - intro name. destruct (Hany "Parent not found") as (r & Hreq & Hin).
    unfold Api.createFolder.
    destruct (Api.trimmed name); [|SharesMore.invalid]. SharesMore.turned_away Hreq Hin.
  - intro id. destruct (Hany "Target folder not found") as (r & Hreq & Hin).
    unfold Api.refusedData, Api.moveFolder, Handler.run, Handler.bind, Api.lift.
    rewrite SharesMore.requireOwner_eq.
    destruct (Api.selectOwner _ _ "folders" id) as [o|]; [|cbn; tauto].
    destruct (o =? Api.u_id user); [|cbn; tauto].
    rewrite Hreq. cbn. tauto.
  - intro id. destruct (Hany "Target folder not found") as (r & Hreq & Hin).
    unfold Api.refusedData, Api.moveFile, Handler.run, Handler.bind, Api.lift.
    rewrite SharesMore.requireOwner_eq.
    destruct (Api.selectOwner _ _ "files" id) as [o|]; [|cbn; tauto].
    destruct (o =? Api.u_id user); [|cbn; tauto].
    rewrite Hreq. cbn. tauto.
  - intro reqFile. destruct (Hany "Target folder not found") as (r & Hreq & Hin).
    unfold Api.requireTarget in Hreq. cbn [JS.orNull] in Hreq.
    rewrite (truthy_true _ Ht) in Hreq.
    unfold Api.uploadFile. destruct reqFile as [upload|]; [|SharesMore.invalid].
    cbn [JS.truthyOpt]. rewrite (truthy_true _ Ht).
    SharesMore.turned_away Hreq Hin.
Qed.

(** X9: the move of a folder checks the owner of the folder and of the
    target and nothing else: any folder of the caller is taken as the new
    parent, the folder itself included, and the row is rewritten with it. *)
Theorem moveFolder_any_owned_target
    (env : Api.Env) (user : Api.User) (id target : string) (w : Api.World) :
  target <> "" ->
  Api.selectOwner (Api.flt env) (Api.db w) "folders" id = Some (Api.u_id user) ->
  Api.selectOwner (Api.flt env) (Api.db w) "folders" target = Some (Api.u_id user) ->
  Api.flt env (Update "folders") = None ->
  exists row,
    fst (Handler.run (Api.moveFolder env user id (Some target)) w) = Api.FolderJson row
    /\ Api.d_id row = id
    /\ Api.d_parent_id row = Some target
    /\ filter (fun r => Api.d_id r =? id)
         (Api.folders (Api.db (snd (Handler.run (Api.moveFolder env user id (Some target)) w))))
       = [row].
Proof.
  intros Ht Hown Htarget Hupd.
  destruct (selectOwner_folder _ _ _ _ Hown) as (_ & r & Hr & _).
  unfold Api.moveFolder, Handler.run, Handler.bind, Api.lift.
  rewrite (SharesMore.requireOwner_passes _ _ _ _ _ _ Hown).
  rewrite requireTarget_passes.
  2:{ intros t E. cbn [JS.orNull] in E. rewrite (truthy_true _ Ht) in E.
      inversion E; subst t. exact Htarget. }
  unfold Api.updateFolderRow. rewrite Hupd.
  pose proof (single_rewritten (fun r => Api.d_id r =? id)
                (Api.setFolderParent (Some target)) (Api.folders (Api.db w)) r
                (fun x => eq_refl) Hr) as Hs.
  rewrite Hs. cbn [fst snd Handler.respond Api.db Api.setFolders Api.folders].
  exists (Api.setFolderParent (Some target) r).
  destruct (single_filter_sat _ _ _ Hr) as [_ Hid]. apply String.eqb_eq in Hid.
  repeat split; auto. now apply single_Some.
Qed.

(** The owner query does not see an update that keeps ids and owners. *)
Lemma ownerIds_stable_folders (db : Api.Db) (id : string) (g : Api.FolderRow -> Api.FolderRow)
    (fs : list Api.FileRow) (sh : list Api.ShareRow) (ps : list Api.PermissionRow) :
  (forall r, Api.d_id (g r) = Api.d_id r /\ Api.d_owner_id (g r) = Api.d_owner_id r) ->
  Api.ownerIds (Api.mkDb fs (map g (Api.folders db)) sh ps) "folders" id
  = Api.ownerIds db "folders" id.
Proof.
  intro Hg. unfold Api.ownerIds. cbn [String.eqb Ascii.eqb Bool.eqb Api.folders].
  induction (Api.folders db) as [|r rows IH]; [reflexivity|].
  cbn [map filter]. destruct (Hg r) as [-> Ho].
  destruct (Api.d_id r =? id); cbn [map]; now rewrite ?Ho, IH.
Qed.

Lemma ownerIds_stable_files (db : Api.Db) (id : string) (g : Api.FileRow -> Api.FileRow)
    (ds : list Api.FolderRow) (sh : list Api.ShareRow) (ps : list Api.PermissionRow) :
  (forall r, Api.f_id (g r) = Api.f_id r /\ Api.f_owner_id (g r) = Api.f_owner_id r) ->
  Api.ownerIds (Api.mkDb (map g (Api.files db)) ds sh ps) "files" id
  = Api.ownerIds db "files" id.
Proof.
  intro Hg. unfold Api.ownerIds. cbn [String.eqb Ascii.eqb Bool.eqb Api.files].
  induction (Api.files db) as [|r rows IH]; [reflexivity|].
  cbn [map filter]. destruct (Hg r) as [-> Ho].
  destruct (Api.f_id r =? id); cbn [map]; now rewrite ?Ho, IH.
Qed.

(** The marking of a row by the trash routes. *)
Lemma folder_marks_run (env : Api.Env) (user : Api.User) (id : string) (w : Api.World) :
  Api.selectOwner (Api.flt env) (Api.db w) "folders" id = Some (Api.u_id user) ->
  Api.flt env (Update "folders") = None ->
  Handler.run (Api.softDeleteFolder env user id) w
  = (Api.json 200 (Api.Message "Moved to Trash"),
     Api.setFolders
       (map (fun r => if Api.d_id r =? id
                      then Api.mkFolder (Api.d_id r) (Api.d_name r) (Api.d_parent_id r)
                             (Api.d_owner_id r) (Api.d_created_at r) (Some (Api.now env))
                      else r) (Api.folders (Api.db w))) w)
  /\ Handler.run (Api.restoreFolder env user id) w
  = (Api.json 200 (Api.Message "Restored"),
     Api.setFolders
       (map (fun r => if Api.d_id r =? id
                      then Api.mkFolder (Api.d_id r) (Api.d_name r) (Api.d_parent_id r)
                             (Api.d_owner_id r) (Api.d_created_at r) None
                      else r) (Api.folders (Api.db w))) w).
Proof.
  intros Hown Hupd.
  unfold Api.softDeleteFolder, Api.restoreFolder, Handler.run, Handler.bind.
  rewrite (SharesMore.requireOwner_passes _ _ _ _ _ _ Hown).
  unfold Api.updateFolderDeletedAt. now rewrite Hupd.
Qed.

Lemma file_marks_run (env : Api.Env) (user : Api.User) (id : string) (w : Api.World) :
  Api.selectOwner (Api.flt env) (Api.db w) "files" id = Some (Api.u_id user) ->
  Api.flt env (Update "files") = None ->
  Handler.run (Api.softDeleteFile env user id) w
  = (Api.json 200 (Api.Message "Moved to Trash"),
     Api.setFiles
       (map (fun r => if Api.f_id r =? id
                      then Api.setFileDeletedAt (Some (Api.now env)) r else r)
          (Api.files (Api.db w))) w)
  /\ Handler.run (Api.restoreFile env user id) w
  = (Api.json 200 (Api.Message "Restored"),
     Api.setFiles
       (map (fun r => if Api.f_id r =? id then Api.setFileDeletedAt None r else r)
          (Api.files (Api.db w))) w).
Proof.
  intros Hown Hupd.
  unfold Api.softDeleteFile, Api.restoreFile, Handler.run, Handler.bind.
  rewrite (SharesMore.requireOwner_passes _ _ _ _ _ _ Hown).
  unfold Api.updateFileDeletedAt. now rewrite Hupd.
Qed.

(** X10: trash then restore is a round trip on an active row.  When the
    owner trashes a folder (or a file) whose [deleted_at] is null and then
    restores it, both updates succeeding, the state is the state before; and
    restoring a row that is not in the trash changes nothing. *)
Theorem trash_restore_round_trip
    (env env' : Api.Env) (user : Api.User) (id : string) (w : Api.World) :
  (Api.selectOwner (Api.flt env) (Api.db w) "folders" id = Some (Api.u_id user) ->
   Api.flt env' (Select "folders") = None ->
   Api.flt env (Update "folders") = None -> Api.flt env' (Update "folders") = None ->
   (forall r, In r (Api.folders (Api.db w)) -> Api.d_id r = id -> Api.d_deleted_at r = None) ->
   snd (Handler.run (Api.restoreFolder env' user id)
          (snd (Handler.run (Api.softDeleteFolder env user id) w))) = w
   /\ snd (Handler.run (Api.restoreFolder env user id) w) = w)
  /\
  (Api.selectOwner (Api.flt env) (Api.db w) "files" id = Some (Api.u_id user) ->
   Api.flt env' (Select "files") = None ->
   Api.flt env (Update "files") = None -> Api.flt env' (Update "files") = None ->
   (forall r, In r (Api.files (Api.db w)) -> Api.f_id r = id -> Api.f_deleted_at r = None) ->
   snd (Handler.run (Api.restoreFile env' user id)
          (snd (Handler.run (Api.softDeleteFile env user id) w))) = w
   /\ snd (Handler.run (Api.restoreFile env user id) w) = w).
Proof.
  split; intros Hown Hsel' Hupd Hupd' Hactive.
  - assert (Hsel : Api.flt env (Select "folders") = None)
      by (unfold Api.selectOwner in Hown; now destruct (Api.flt env (Select "folders"))).
    destruct (folder_marks_run env user id w Hown Hupd) as [Htrash Hrestore].
    rewrite Htrash, Hrestore. cbn [snd].
    match goal with
    | |- context [Handler.run _ ?x] => set (w1 := x)
    end.
    assert (Hown1 : Api.selectOwner (Api.flt env') (Api.db w1) "folders" id
                    = Some (Api.u_id user)).
    { unfold Api.selectOwner. rewrite Hsel'. subst w1. cbn [Api.db Api.setFolders].
      rewrite ownerIds_stable_folders.
      - unfold Api.selectOwner in Hown. now rewrite Hsel in Hown.
      - intro r. now destruct (Api.d_id r =? id). }
    rewrite (proj2 (folder_marks_run env' user id w1 Hown1 Hupd')). cbn [snd].
    subst w1. unfold Api.setFolders.
    cbn [Api.db Api.folders Api.files Api.shares Api.permissions Api.storage].
    split.
    + rewrite map_map.
      replace (map _ (Api.folders (Api.db w))) with (Api.folders (Api.db w));
        [now destruct w as [[? ? ? ?] ?]|].
      rewrite <- (map_id (Api.folders (Api.db w))) at 1.
      apply map_ext_in. intros r Hr. destruct (Api.d_id r =? id) eqn:E.
      * cbn [Api.d_id]. rewrite E. apply String.eqb_eq in E.
        cbn. rewrite <- (Hactive r Hr E). now destruct r.
      * now rewrite E.
    + replace (map _ (Api.folders (Api.db w))) with (Api.folders (Api.db w));
        [now destruct w as [[? ? ? ?] ?]|].
      rewrite <- (map_id (Api.folders (Api.db w))) at 1.
      apply map_ext_in. intros r Hr. destruct (Api.d_id r =? id) eqn:E; [|reflexivity].
      apply String.eqb_eq in E. rewrite <- (Hactive r Hr E). now destruct r.
  - assert (Hsel : Api.flt env (Select "files") = None)
      by (unfold Api.selectOwner in Hown; now destruct (Api.flt env (Select "files"))).
    destruct (file_marks_run env user id w Hown Hupd) as [Htrash Hrestore].
    rewrite Htrash, Hrestore. cbn [snd].
    match goal with
    | |- context [Handler.run _ ?x] => set (w1 := x)
    end.
    assert (Hown1 : Api.selectOwner (Api.flt env') (Api.db w1) "files" id
                    = Some (Api.u_id user)).
    { unfold Api.selectOwner. rewrite Hsel'. subst w1. cbn [Api.db Api.setFiles].
      rewrite ownerIds_stable_files.
      - unfold Api.selectOwner in Hown. now rewrite Hsel in Hown.
      - intro r. now destruct (Api.f_id r =? id). }
    rewrite (proj2 (file_marks_run env' user id w1 Hown1 Hupd')). cbn [snd].
    subst w1. unfold Api.setFiles.
    cbn [Api.db Api.folders Api.files Api.shares Api.permissions Api.storage].
    split.
    + rewrite map_map.
      replace (map _ (Api.files (Api.db w))) with (Api.files (Api.db w));
        [now destruct w as [[? ? ? ?] ?]|].
      rewrite <- (map_id (Api.files (Api.db w))) at 1.
      apply map_ext_in. intros r Hr. destruct (Api.f_id r =? id) eqn:E.
      * cbn [Api.setFileDeletedAt Api.f_id]. rewrite E. apply String.eqb_eq in E.
        cbn. rewrite <- (Hactive r Hr E). now destruct r.
      * now rewrite E.
    + replace (map _ (Api.files (Api.db w))) with (Api.files (Api.db w));
        [now destruct w as [[? ? ? ?] ?]|].
      rewrite <- (map_id (Api.files (Api.db w))) at 1.
      apply map_ext_in. intros r Hr. destruct (Api.f_id r =? id) eqn:E; [|reflexivity].
      apply String.eqb_eq in E. unfold Api.setFileDeletedAt.
      rewrite <- (Hactive r Hr E). now destruct r.
Qed.

(** X11: the list of files and the list of the trash split the files of
    the caller: a row is listed exactly when it is a row of the caller with
    [deleted_at] null, it is in the trash exactly when it is a row of the
    caller with [deleted_at] set, so no file of another user is in either
    list and each file of the caller is in exactly one. *)
Theorem files_listed_or_trashed
    (env : Api.Env) (user : Api.User) (w : Api.World) (f : Api.FileRow) :
  Api.flt env (Select "files") = None ->
  Api.flt env (Select "folders") = None ->
  let listed := Api.listedFiles (fst (Handler.run (Api.listFiles env user) w)) in
  let trashed := Api.listedFiles (fst (Handler.run (Api.listTrash env user) w)) in
  (In f listed <->
     In f (Api.files (Api.db w)) /\ Api.f_owner_id f = Api.u_id user
     /\ Api.f_deleted_at f = None)
  /\ (In f trashed <->
     In f (Api.files (Api.db w)) /\ Api.f_owner_id f = Api.u_id user
     /\ Api.f_deleted_at f <> None)
  /\ (In f (Api.files (Api.db w)) -> Api.f_owner_id f = Api.u_id user ->
      (In f listed <-> ~ In f trashed)).
Proof.
  intros Hf Hd. cbv zeta.
  unfold Api.listFiles, Api.listTrash, Handler.run, Handler.bind, Handler.get.
  rewrite Hf, Hd. cbn [fst Handler.respond Api.listedFiles].
  assert (Hl : In f (JS.orderFiles "created_at" false
                 (filter (fun r => (Api.f_owner_id r =? Api.u_id user)
                                   && Api.isNull (Api.f_deleted_at r)) (Api.files (Api.db w))))
               <-> In f (Api.files (Api.db w)) /\ Api.f_owner_id f = Api.u_id user
                   /\ Api.f_deleted_at f = None).
  { split.
    - intro Hin. apply (Permutation_in _ (JS.orderFiles_perm _ _ _)) in Hin.
      apply filter_In in Hin. destruct Hin as [Hin Hp].
      apply andb_true_iff in Hp. destruct Hp as [Ho Hn]. apply String.eqb_eq in Ho.
      repeat split; auto. now destruct (Api.f_deleted_at f).
    - intros (Hin & Ho & Hn).
      apply (Permutation_in _ (Permutation_sym (JS.orderFiles_perm _ _ _))).
      apply filter_In. split; [exact Hin|]. rewrite Ho, Hn, String.eqb_refl. reflexivity. }
  assert (Ht : In f (filter (fun r => negb (Api.isNull (Api.f_deleted_at r))
                                      && (Api.f_owner_id r =? Api.u_id user))
                       (Api.files (Api.db w)))
               <-> In f (Api.files (Api.db w)) /\ Api.f_owner_id f = Api.u_id user
                   /\ Api.f_deleted_at f <> None).
  { rewrite filter_In, andb_true_iff, String.eqb_eq.
    destruct (Api.f_deleted_at f); cbn; intuition congruence. }
  split; [exact Hl | split; [exact Ht|]].
  intros Hin Ho. rewrite Hl, Ht.
  destruct (Api.f_deleted_at f); intuition congruence.
Qed.

(** X12: the purge of a file by its owner removes the blob first and
    reads only the result of the delete of the row.  When the delete
    succeeds the answer is 200 and the row is gone, whether or not the blob
    could be removed; when the delete fails the answer is 500 and the row is
    kept, although its blob is gone if the removal went through. *)
Theorem hardDeleteFile_outcomes
    (env : Api.Env) (user : Api.User) (id : string) (w : Api.World) (data : Api.FileRow) :
  Api.flt env (Select "files") = None ->
  single (filter (fun r => Api.f_id r =? id) (Api.files (Api.db w))) = Some data ->
  Api.f_owner_id data = Api.u_id user ->
  let out := Handler.run (Api.hardDeleteFile env user id) w in
  Api.storage (snd out)
    = removeObject (Api.flt env) (Api.f_storage_path data) (Api.storage w)
  /\ (Api.flt env (StorageRemove (Api.f_storage_path data)) = None ->
      ~ In (Api.f_storage_path data) (Api.storage (snd out)))
  /\ (Api.flt env (Delete "files") = None ->
      fst out = Api.json 200 (Api.Message "Permanently deleted")
      /\ filter (fun r => Api.f_id r =? id) (Api.files (Api.db (snd out))) = []
      /\ forall r, Api.f_id r <> id ->
           (In r (Api.files (Api.db (snd out))) <-> In r (Api.files (Api.db w))))
  /\ (forall e, Api.flt env (Delete "files") = Some e ->
      fst out = Api.json 500 (Api.Error e)
      /\ Api.files (Api.db (snd out)) = Api.files (Api.db w)).
Proof.
  intros Hsel Hrow Hown. cbv zeta.
  unfold Api.hardDeleteFile, Handler.run, Handler.bind, Api.selectFile.
  rewrite Hsel, Hrow, Hown, String.eqb_refl.
  unfold Api.storageRemove, Api.deleteFile.
  cbn [Api.db Api.setStorage Api.storage].
  destruct (Api.flt env (Delete "files")) as [e|];
    cbn [fst snd Handler.respond Api.db Api.setFiles Api.setStorage Api.storage Api.files].
  - repeat split; try discriminate.
    + intros Hrm Hin. unfold removeObject in Hin. rewrite Hrm in Hin.
      apply filter_In in Hin. destruct Hin as [_ Hne]. now rewrite String.eqb_refl in Hne.
    + inversion H. reflexivity.
  - repeat split; try discriminate.
    + intros Hrm Hin. unfold removeObject in Hin. rewrite Hrm in Hin.
      apply filter_In in Hin. destruct Hin as [_ Hne]. now rewrite String.eqb_refl in Hne.
    + apply SharesMore.filter_none.
    + intro Hin. now apply filter_In in Hin.
    + intro Hin. apply filter_In. split; [exact Hin|].
      apply negb_true_iff. now apply String.eqb_neq.
Qed.

(** X13: an upload that goes through answers 200 with the new row: it is
    owned by the caller, not in the trash, in the folder of the request and
    stored under the key of the answer; the row is appended to [files], the
    key is added to storage, and the list of the caller's files then shows
    the row. *)
Theorem upload_then_listed
    (env env' : Api.Env) (user : Api.User) (upload : Api.Upload)
    (folderId : option string) (w : Api.World) :
  let key := (Api.u_id user ++ "/" ++ Api.uuid env ++ "_"
              ++ JS.encodeURIComponent (Api.originalname upload))%string in
  let out := Handler.run (Api.uploadFile env user (Some upload) folderId) w in
  (forall fid, JS.orNull folderId = Some fid ->
     Api.selectOwner (Api.flt env) (Api.db w) "folders" fid = Some (Api.u_id user)) ->
  Api.flt env (StorageUpload key) = None ->
  existsb (String.eqb key) (Api.storage w) = false ->
  Api.flt env (Insert "files") = None ->
  exists data signedUrl,
    fst out = Api.json 200 (Api.Uploaded key signedUrl data)
    /\ Api.f_owner_id data = Api.u_id user
    /\ Api.f_storage_path data = key
    /\ Api.f_folder_id data = folderId
    /\ Api.f_deleted_at data = None
    /\ Api.files (Api.db (snd out)) = Api.files (Api.db w) ++ [data]
    /\ Api.storage (snd out) = key :: Api.storage w
    /\ (Api.flt env' (Select "files") = None ->
        In data (Api.listedFiles (fst (Handler.run (Api.listFiles env' user) (snd out))))).
Proof.
  intros key out Hfolder Hup Hnew Hins. subst out.
  unfold Api.uploadFile, Handler.run, Handler.bind. fold key.
  assert (Hcheck :
    (if JS.truthyOpt folderId
     then Api.requireOwner env user "folders"
            match folderId with Some i => i | None => "" end "Target folder not found"
     else Handler.ret tt) w = (inr tt, w)).
  { destruct folderId as [fid|]; [|reflexivity]. cbn [JS.truthyOpt].
    destruct (JS.truthy fid) eqn:Ht; [|reflexivity].
    apply SharesMore.requireOwner_passes. apply Hfolder. cbn [JS.orNull]. now rewrite Ht. }
  rewrite Hcheck. unfold Api.storageUpload. rewrite Hup, Hnew.
  unfold Api.insertFile. cbn [Api.storage Api.setStorage Api.db]. rewrite Hins.
  cbn [fst snd Handler.respond Api.db Api.setFiles Api.files Api.storage].
  eexists. eexists. repeat split.
  intro Hsel. unfold Api.listFiles, Handler.run, Handler.bind, Handler.get.
  rewrite Hsel. cbn [fst Handler.respond Api.listedFiles Api.db Api.files].
  apply (Permutation_in _ (Permutation_sym (JS.orderFiles_perm _ _ _))).
  apply filter_In. split.
  - apply in_or_app. right. now left.
  - cbn. now rewrite String.eqb_refl.
Qed.

End WithPlatform.

End DriveMore.

(** ** More on the search and on the gate of the resolver *)
Module SearchMore.

Import Query Store QueryFacts.

Section WithPlatform.

Context {P : JS.Platform Api.FileRow Api.FolderRow}.

(** X14: a scope other than [files], [folders] and [all] is answered 200
    with no file and no folder, without any query; with scope [files] the
    answer carries no folder and with scope [folders] no file. *)
Theorem search_scope
    (flt : Faults) (db : Api.Db) (user : Api.User) (query : Api.SearchQuery) :
  let scope := JS.orElse (Api.sq_scope query) "all" in
  (scope <> "files" -> scope <> "folders" -> scope <> "all" ->
     Api.search flt db user query = Api.json 200 (Api.Found [] []))
  /\ (scope = "files" -> Api.foldersOf (Api.search flt db user query) = [])
  /\ (scope = "folders" -> Api.filesOf (Api.search flt db user query) = []).
Proof.
  cbv zeta. unfold Api.search. split; [|split].
  - intros H1 H2 H3.
    apply String.eqb_neq in H1, H2, H3. now rewrite H1, H2, H3.
  - intros ->. cbn [String.eqb Ascii.eqb Bool.eqb orb].
    now destruct (Api.searchFiles _ _ _ _ _ _ _ _).
  - intros ->. cbn [String.eqb Ascii.eqb Bool.eqb orb].
    now destruct (Api.searchFolders _ _ _ _ _ _ _ _).
Qed.

End WithPlatform.

(** The ownership step fires for the owner. *)
Lemma isOwner_owner (flt : Faults) (db : Api.Db) (O : string) (rt : Api.ResourceType)
    (rid : string) :
  O <> "" ->
  flt (Select (Api.tableOf rt)) = None ->
  Api.resourceOwner db rt rid = Some O ->
  Api.isOwner flt db (Some O) rt rid = true.
Proof.
  intros HO Hflt Hown. unfold Api.isOwner, Api.selectOwner.
  unfold Api.resourceOwner in Hown. rewrite Hflt, Hown. simpl.
  now rewrite (truthy_true O HO), String.eqb_refl.
Qed.

(** X16: the resolver followed by [ensureAllowed], for any policy table.
    A caller without principal whose token (if any) is the token of no link
    of the resource is rejected with status 403 for every action; for the
    owner the gate answers as the policy does for the role [owner], whatever
    token is supplied and whatever links exist. *)
Theorem gate_after_resolver
    {Action : Type} (roleAllows : Api.Role -> Action -> bool)
    (flt : Faults) (now : Z) (db : Api.Db) (rt : Api.ResourceType) (rid : string)
    (token : option string) (action : Action) :
  ((forall l, In l (Api.shares db) ->
              Api.s_resource_type l = rt -> Api.s_resource_id l = rid ->
              token <> Some (Api.s_link_token l)) ->
   Api.ensureAllowed roleAllows (Api.resolveUserRole flt now db None rt rid token) action
   = Some (403%nat, "Not allowed"))
  /\
  (forall O, O <> "" -> flt (Select (Api.tableOf rt)) = None ->
     Api.resourceOwner db rt rid = Some O ->
     Api.ensureAllowed roleAllows (Api.resolveUserRole flt now db (Some O) rt rid token) action
     = if roleAllows Api.owner action then None else Some (403%nat, "Not allowed")).
Proof.
  split.
  - intro Hno. unfold Api.resolveUserRole. rewrite ResolverSpec.isOwner_anonymous.
    destruct (Api.linkRole flt now db rt rid token) as [r|] eqn:E; [|reflexivity].
    apply ResolverSpec.linkRole_Some in E.
    destruct E as (t & sh & Ht & _ & Hin & H1 & H2 & H3 & _).
    subst token t. now destruct (Hno sh Hin H1 H2).
  - intros O HO Hflt Hown. unfold Api.resolveUserRole.
    now rewrite (isOwner_owner flt db O rt rid HO Hflt Hown).
Qed.

End SearchMore.

(** ** More on the server of server/index.js *)
Module LegacyMore.

Import Query Store QueryFacts.

Lemma requireFolderOwner_denied (env : Legacy.Env) (user id : string) (w : Legacy.World) :
  (forall d, Legacy.folderOf w id = Some d -> Legacy.d_owner d <> user) ->
  exists r, Legacy.requireFolderOwner env user id w = (inl r, w)
            /\ In (Legacy.status r) [400; 403; 404]%nat.
Proof.
  intro H. unfold Legacy.requireFolderOwner, Handler.bind, Legacy.selectFolder.
  destruct (Legacy.flt env (Select "folders")).
  - eexists. split; [reflexivity | cbn; tauto].
  - fold (Legacy.folderOf w id).
    destruct (Legacy.folderOf w id) as [d|] eqn:E; [|eexists; split; [reflexivity|cbn; tauto]].
    destruct (String.eqb_spec (Legacy.d_owner d) user) as [Ho|];
      [now destruct (H d eq_refl) | eexists; split; [reflexivity | cbn; tauto]].
Qed.

Lemma requireFileOwner_denied (env : Legacy.Env) (user id : string) (w : Legacy.World) :
  (forall f, Legacy.fileOf w id = Some f -> Legacy.f_owner f <> user) ->
  exists r, Legacy.requireFileOwner env user id w = (inl r, w)
            /\ In (Legacy.status r) [400; 403; 404]%nat.
Proof.
  intro H. unfold Legacy.requireFileOwner, Handler.bind, Legacy.selectFile.
  destruct (Legacy.flt env (Select "files")).
  - eexists. split; [reflexivity | cbn; tauto].
  - fold (Legacy.fileOf w id).
    destruct (Legacy.fileOf w id) as [f|] eqn:E; [|eexists; split; [reflexivity|cbn; tauto]].
    destruct (String.eqb_spec (Legacy.f_owner f) user) as [Ho|];
      [now destruct (H f eq_refl) | eexists; split; [reflexivity | cbn; tauto]].
Qed.

Lemma requireFileOwner_ok (env : Legacy.Env) (user id : string) (w : Legacy.World)
    (file : Legacy.FileRow) :
  Legacy.flt env (Select "files") = None ->
  Legacy.fileOf w id = Some file ->
  Legacy.f_owner file = user ->
  Legacy.requireFileOwner env user id w = (inr file, w).
Proof.
  intros Hflt Hsel Hown.
  unfold Legacy.requireFileOwner, Handler.bind, Legacy.selectFile.
  unfold Legacy.fileOf in Hsel. now rewrite Hflt, Hsel, Hown, String.eqb_refl.
Qed.

Lemma updateFile_ok (env : Legacy.Env) (id : string)
    (change : Legacy.FileRow -> Legacy.FileRow) (w : Legacy.World) (file : Legacy.FileRow) :
  (forall r, Legacy.f_id (change r) = Legacy.f_id r) ->
  Legacy.flt env (Update "files") = None ->
  Legacy.fileOf w id = Some file ->
  Legacy.updateFile env id change w
  = (inr (inr (change file)),
     Legacy.setFiles
       (map (fun r => if Legacy.f_id r =? id then change r else r) (Legacy.files w)) w).
Proof.
  intros Hid Hflt Hsel. unfold Legacy.updateFile. rewrite Hflt.
  unfold Legacy.fileOf in Hsel.
  rewrite (DriveMore.single_rewritten (fun r => Legacy.f_id r =? id) change
             (Legacy.files w) file); auto.
  intro x. now rewrite Hid.
Qed.

(** The request is turned away by the owner check [Hreq]. *)
Ltac turned_away Hreq Hin :=
  unfold Legacy.refused, Handler.run, Handler.bind;
  rewrite Hreq; cbn; split; [reflexivity | exact Hin].

(** X17: the guarded routes of the server turn away a caller who is not
    the owner of the folder or file (or when it has no row): nothing is
    written, in the tables or in storage, and the answer is 400, 403 or
    404. *)
Theorem legacy_guarded_routes_owner_only
    (env : Legacy.Env) (user id : string) (w : Legacy.World) :
  ((forall d, Legacy.folderOf w id = Some d -> Legacy.d_owner d <> user) ->
     (forall name, Legacy.refused w (Handler.run (Legacy.renameFolder env user id name) w))
     /\ Legacy.refused w (Handler.run (Legacy.softDeleteFolder env user id) w)
     /\ Legacy.refused w (Handler.run (Legacy.restoreFolder env user id) w)
     /\ Legacy.refused w (Handler.run (Legacy.hardDeleteFolder env user id) w))
  /\
  ((forall f, Legacy.fileOf w id = Some f -> Legacy.f_owner f <> user) ->
     (forall name, Legacy.refused w (Handler.run (Legacy.renameFile env user id name) w))
     /\ Legacy.refused w (Handler.run (Legacy.softDeleteFile env user id) w)
     /\ Legacy.refused w (Handler.run (Legacy.restoreFile env user id) w)
     /\ Legacy.refused w (Handler.run (Legacy.hardDeleteFile env user id) w)).
Proof.
  split; intro Hown.
  - destruct (requireFolderOwner_denied env user id w Hown) as (r & Hreq & Hin).
    split; [|split; [|split]].
    + intro name. unfold Legacy.renameFolder.
      destruct (JS.orNull name); [turned_away Hreq Hin | cbn; split; [reflexivity|now left]].
    + unfold Legacy.softDeleteFolder. turned_away Hreq Hin.
    + unfold Legacy.restoreFolder. turned_away Hreq Hin.
    + unfold Legacy.hardDeleteFolder. turned_away Hreq Hin.
  - destruct (requireFileOwner_denied env user id w Hown) as (r & Hreq & Hin).
    split; [|split; [|split]].
    + intro name. unfold Legacy.renameFile.
      destruct (JS.orNull name); [turned_away Hreq Hin | cbn; split; [reflexivity|now left]].
    + unfold Legacy.softDeleteFile. turned_away Hreq Hin.
    + unfold Legacy.restoreFile. turned_away Hreq Hin.
    + unfold Legacy.hardDeleteFile. turned_away Hreq Hin.
Qed.

(** *** The frame of the folder routes *)

Lemma keeps_refl (id : string) (w : Legacy.World) : Legacy.keeps id w w.
Proof. split; auto. Qed.

Lemma keeps_trans (id : string) (w1 w2 w3 : Legacy.World) :
  Legacy.keeps id w1 w2 -> Legacy.keeps id w2 w3 -> Legacy.keeps id w1 w3.
Proof. intros [H1 H2] [H3 H4]. split; auto. Qed.

(** Steps that keep the frame compose. *)
Lemma keeps_bind {A B : Type} (id : string) (m : Handler.M Legacy.World Legacy.Response A)
    (k : A -> Handler.M Legacy.World Legacy.Response B) :
  (forall w, Legacy.keeps id w (snd (m w))) ->
  (forall a w, Legacy.keeps id w (snd (k a w))) ->
  forall w, Legacy.keeps id w (snd (Handler.bind m k w)).
Proof.
  intros Hm Hk w. unfold Handler.bind. specialize (Hm w).
  destruct (m w) as [[r|a] w']; [exact Hm|].
  eapply keeps_trans; [exact Hm | apply Hk].
Qed.

Lemma keeps_run (id : string) (m : Legacy.Route) :
  (forall w, Legacy.keeps id w (snd (m w))) ->
  forall w, Legacy.keeps id w (snd (Handler.run m w)).
Proof.
  intros Hm w. unfold Handler.run. specialize (Hm w). now destruct (m w) as [[r|r] w'].
Qed.

Lemma keeps_respond {A : Type} (id : string) (r : Legacy.Response) (w : Legacy.World) :
  Legacy.keeps id w (snd (@Handler.respond Legacy.World Legacy.Response A r w)).
Proof. apply keeps_refl. Qed.

Lemma keeps_requireFolderOwner (env : Legacy.Env) (user id : string) (w : Legacy.World) :
  Legacy.keeps id w (snd (Legacy.requireFolderOwner env user id w)).
Proof.
  unfold Legacy.requireFolderOwner, Handler.bind, Legacy.selectFolder.
  destruct (Legacy.flt env (Select "folders")); [apply keeps_refl|].
  destruct (single _) as [d|]; [|apply keeps_refl].
  destruct (Legacy.d_owner d =? user); apply keeps_refl.
Qed.

Lemma keeps_updateFolder (env : Legacy.Env) (id : string)
    (change : Legacy.FolderRow -> Legacy.FolderRow) (w : Legacy.World) :
  Legacy.keeps id w (snd (Legacy.updateFolder env id change w)).
Proof.
  unfold Legacy.updateFolder.
  destruct (Legacy.flt env (Update "folders")); [apply keeps_refl|].
  destruct (single _); [|apply keeps_refl].
  split; cbn; [|auto]. intros d Hd Hne. apply in_map_iff. exists d. split; [|exact Hd].
  apply String.eqb_neq in Hne. now rewrite Hne.
Qed.

Lemma keeps_updateFilesOf (env : Legacy.Env) (id : string)
    (change : Legacy.FileRow -> Legacy.FileRow) (w : Legacy.World) :
  Legacy.keeps id w (snd (Legacy.updateFilesOf env id change w)).
Proof.
  unfold Legacy.updateFilesOf.
  destruct (Legacy.flt env (Update "files")); [apply keeps_refl|].
  split; cbn; [auto|]. intros f Hf Hne. apply in_map_iff. exists f. split; [|exact Hf].
  destruct (Legacy.f_folder_id f) as [x|]; [|reflexivity]. cbn.
  destruct (String.eqb_spec x id) as [->|]; [now destruct Hne | reflexivity].
Qed.

Lemma keeps_removeEach (env : Legacy.Env) (id : string) (rows : list Legacy.FileRow)
    (w : Legacy.World) :
  Legacy.keeps id w (snd (Legacy.removeEach env rows w)).
Proof. rewrite LegacySpec.removeEach_run. split; cbn; auto. Qed.

Lemma keeps_deleteFilesOf (env : Legacy.Env) (id : string) (w : Legacy.World) :
  Legacy.keeps id w (snd (Legacy.deleteFilesOf env id w)).
Proof.
  unfold Legacy.deleteFilesOf.
  destruct (Legacy.flt env (Delete "files")); [apply keeps_refl|].
  split; cbn; [auto|]. intros f Hf Hne. apply filter_In. split; [exact Hf|].
  destruct (Legacy.f_folder_id f) as [x|]; [|reflexivity]. cbn.
  destruct (String.eqb_spec x id) as [->|]; [now destruct Hne | reflexivity].
Qed.

Lemma keeps_deleteFolder (env : Legacy.Env) (id : string) (w : Legacy.World) :
  Legacy.keeps id w (snd (Legacy.deleteFolder env id w)).
Proof.
  unfold Legacy.deleteFolder.
  destruct (Legacy.flt env (Delete "folders")); [apply keeps_refl|].
  split; cbn; [|auto]. intros d Hd Hne. apply filter_In. split; [exact Hd|].
  apply String.eqb_neq in Hne. now rewrite Hne.
Qed.

(** X18: the cascade of the folder routes is one level deep and touches
    nothing else.  Whoever calls and whatever fails, trashing, restoring or
    purging folder [id] keeps every other folder row and every file that is
    not directly in [id] as it is; so the folders under [id], and their
    files, are neither trashed, restored nor purged with it. *)
Theorem folder_routes_frame (env : Legacy.Env) (user id : string) (w : Legacy.World) :
  Legacy.keeps id w (snd (Handler.run (Legacy.softDeleteFolder env user id) w))
  /\ Legacy.keeps id w (snd (Handler.run (Legacy.restoreFolder env user id) w))
  /\ Legacy.keeps id w (snd (Handler.run (Legacy.hardDeleteFolder env user id) w)).
Proof.
  split; [|split]; apply keeps_run; clear w.
  - unfold Legacy.softDeleteFolder.
    apply keeps_bind; [apply keeps_requireFolderOwner | intros _].
    apply keeps_bind; [apply keeps_updateFolder | intros [e|data] w];
      [apply keeps_respond|].
    revert w. apply keeps_bind; [apply keeps_updateFilesOf | intros _ w; apply keeps_respond].
  - unfold Legacy.restoreFolder.
    apply keeps_bind; [apply keeps_requireFolderOwner | intros _].
    apply keeps_bind; [apply keeps_updateFolder | intros [e|data] w];
      [apply keeps_respond|].
    revert w. apply keeps_bind; [apply keeps_updateFilesOf | intros _ w; apply keeps_respond].
  - unfold Legacy.hardDeleteFolder.
    apply keeps_bind; [apply keeps_requireFolderOwner | intros _].
    apply keeps_bind.
    { intro w. unfold Legacy.selectFilesOf.
      destruct (Legacy.flt env (Select "files")); apply keeps_refl. }
    intros [e|rows] w; [apply keeps_respond|]. revert w.
    apply keeps_bind; [apply keeps_removeEach | intros _].
    apply keeps_bind; [apply keeps_deleteFilesOf | intros _].
    apply keeps_bind; [apply keeps_deleteFolder | intros [e|] w; apply keeps_respond].
Qed.

(** The two routes of the trash of a file, when they go through. *)
Lemma legacy_file_marks_run (env : Legacy.Env) (user id : string) (w : Legacy.World)
    (file : Legacy.FileRow) :
  Legacy.flt env (Select "files") = None ->
  Legacy.flt env (Update "files") = None ->
  Legacy.fileOf w id = Some file ->
  Legacy.f_owner file = user ->
  Handler.run (Legacy.softDeleteFile env user id) w
  = (Legacy.json 200 (Legacy.FileBody
       (Legacy.stampFile true (Some (Legacy.clock env 0)) (Legacy.clock env 1) file)),
     Legacy.setFiles
       (map (fun r => if Legacy.f_id r =? id
                      then Legacy.stampFile true (Some (Legacy.clock env 0))
                             (Legacy.clock env 1) r
                      else r) (Legacy.files w)) w)
  /\ Handler.run (Legacy.restoreFile env user id) w
  = (Legacy.json 200 (Legacy.FileBody
       (Legacy.stampFile false None (Legacy.clock env 0) file)),
     Legacy.setFiles
       (map (fun r => if Legacy.f_id r =? id
                      then Legacy.stampFile false None (Legacy.clock env 0) r
                      else r) (Legacy.files w)) w).
Proof.
  intros Hs Hu Hsel Hown.
  unfold Legacy.softDeleteFile, Legacy.restoreFile, Handler.run, Handler.bind.
  rewrite (requireFileOwner_ok env user id w file Hs Hsel Hown).
  rewrite (updateFile_ok env id
             (Legacy.stampFile true (Some (Legacy.clock env 0)) (Legacy.clock env 1))
             w file (fun r => eq_refl) Hu Hsel).
  rewrite (updateFile_ok env id (Legacy.stampFile false None (Legacy.clock env 0))
             w file (fun r => eq_refl) Hu Hsel).
  now split.
Qed.

(** X19: the trash cycle of a file on the server.  When its owner trashes
    a file, the answer and the stored row carry [is_deleted] and the first
    reading of the clock, and the trash of the owner lists that row; when
    the owner then restores it, the marks are cleared and the trash lists no
    row of that id. *)
Theorem legacy_file_trash_cycle
    (env env' lenv : Legacy.Env) (user id : string) (w : Legacy.World)
    (file : Legacy.FileRow) :
  Legacy.fileOf w id = Some file ->
  Legacy.f_owner file = user ->
  (forall c, In c [Select "files"; Update "files"; Select "folders"] ->
     Legacy.flt env c = None /\ Legacy.flt env' c = None /\ Legacy.flt lenv c = None) ->
  let trashed := Handler.run (Legacy.softDeleteFile env user id) w in
  let restored := Handler.run (Legacy.restoreFile env' user id) (snd trashed) in
  let stamped :=
    Legacy.stampFile true (Some (Legacy.clock env 0)) (Legacy.clock env 1) file in
  let cleared := Legacy.stampFile false None (Legacy.clock env' 0) file in
  fst trashed = Legacy.json 200 (Legacy.FileBody stamped)
  /\ Legacy.fileOf (snd trashed) id = Some stamped
  /\ In stamped
       (Legacy.listedFiles (fst (Handler.run (Legacy.listTrash lenv user) (snd trashed))))
  /\ fst restored = Legacy.json 200 (Legacy.FileBody cleared)
  /\ Legacy.fileOf (snd restored) id = Some cleared
  /\ (forall r,
        In r (Legacy.listedFiles
                (fst (Handler.run (Legacy.listTrash lenv user) (snd restored)))) ->
        Legacy.f_id r <> id).
Proof.
  intros Hsel Hown Hflt.
  destruct (Hflt (Select "files")) as (Hs & Hs' & Hl); [simpl; tauto|].
  destruct (Hflt (Update "files")) as (Hu & Hu' & _); [simpl; tauto|].
  destruct (Hflt (Select "folders")) as (_ & _ & Hl'); [simpl; tauto|].
  cbv zeta.
  set (stamp := Legacy.stampFile true (Some (Legacy.clock env 0)) (Legacy.clock env 1)).
  set (clear := Legacy.stampFile false None (Legacy.clock env' 0)).
  rewrite (proj1 (legacy_file_marks_run env user id w file Hs Hu Hsel Hown)).
  fold stamp. cbn [fst snd]. set (w1 := Legacy.setFiles _ w).
  assert (Hsel1 : Legacy.fileOf w1 id = Some (stamp file)).
  { unfold Legacy.fileOf, w1. cbn [Legacy.files Legacy.setFiles].
    apply DriveMore.single_rewritten; [reflexivity | exact Hsel]. }
  rewrite (proj2 (legacy_file_marks_run env' user id w1 (stamp file) Hs' Hu' Hsel1 Hown)).
  change (Legacy.stampFile false None (Legacy.clock env' 0) (stamp file)) with (clear file).
  fold clear. cbn [fst snd]. set (w2 := Legacy.setFiles _ w1).
  assert (Hsel2 : Legacy.fileOf w2 id = Some (clear file)).
  { unfold Legacy.fileOf, w2. cbn [Legacy.files Legacy.setFiles].
    apply (DriveMore.single_rewritten (fun r => Legacy.f_id r =? id) clear _ (stamp file));
      [reflexivity | exact Hsel1]. }
  assert (Htrash : forall w0,
    Legacy.listedFiles (fst (Handler.run (Legacy.listTrash lenv user) w0))
    = filter (fun r => (Legacy.f_owner r =? user) && Legacy.f_is_deleted r)
        (Legacy.files w0)).
  { intro w0. unfold Legacy.listTrash, Handler.run, Handler.bind, Handler.get.
    now rewrite Hl, Hl'. }
  split; [reflexivity|]. split; [exact Hsel1|]. split; [|split; [reflexivity|]].
  - rewrite Htrash. apply filter_In. split.
    + now destruct (single_filter_sat _ _ _ Hsel1).
    + cbn. now rewrite Hown, String.eqb_refl.
  - split; [exact Hsel2|].
    rewrite Htrash. intros r Hin Hid. apply filter_In in Hin. destruct Hin as [Hin Hp].
    assert (r = clear file) as ->.
    { apply (single_filter_In _ _ _ _ Hsel2 Hin). now apply String.eqb_eq. }
    cbn in Hp. now rewrite andb_false_r in Hp.
Qed.

(** X20: the purge of a file by its owner on the server removes the blob
    first and reads only the result of the delete of the row: when the
    delete succeeds the answer is 200 and the row is gone, whether or not
    the blob could be removed; when it fails the answer is 500 and the row
    is kept, although the blob is gone if its removal went through. *)
Theorem legacy_hardDeleteFile_outcomes
    (env : Legacy.Env) (user id : string) (w : Legacy.World) (file : Legacy.FileRow) :
  Legacy.flt env (Select "files") = None ->
  Legacy.fileOf w id = Some file ->
  Legacy.f_owner file = user ->
  let out := Handler.run (Legacy.hardDeleteFile env user id) w in
  Legacy.storage (snd out)
    = removeObject (Legacy.flt env) (Legacy.f_bucket_path file) (Legacy.storage w)
  /\ (Legacy.flt env (StorageRemove (Legacy.f_bucket_path file)) = None ->
      ~ In (Legacy.f_bucket_path file) (Legacy.storage (snd out)))
  /\ (Legacy.flt env (Delete "files") = None ->
      fst out = Legacy.json 200 Legacy.Ok
      /\ Legacy.fileOf (snd out) id = None
      /\ forall r, Legacy.f_id r <> id ->
           (In r (Legacy.files (snd out)) <-> In r (Legacy.files w)))
  /\ (forall e, Legacy.flt env (Delete "files") = Some e ->
      fst out = Legacy.json 500 (Legacy.Error e)
      /\ Legacy.files (snd out) = Legacy.files w).
Proof.
  intros Hsel Hrow Hown. cbv zeta.
  unfold Legacy.hardDeleteFile, Handler.run, Handler.bind.
  rewrite (requireFileOwner_ok env user id w file Hsel Hrow Hown).
  unfold Legacy.storageRemove, Legacy.deleteFile.
  cbn [Legacy.setStorage Legacy.storage Legacy.files Legacy.folders].
  destruct (Legacy.flt env (Delete "files")) as [e|];
    cbn [fst snd Handler.respond Legacy.setFiles Legacy.setStorage Legacy.storage
         Legacy.files Legacy.folders].
  - repeat split; try discriminate.
    + intro Hrm. now apply LegacySpec.removeObject_gone.
    + inversion H. reflexivity.
  - repeat split; try discriminate.
    + intro Hrm. now apply LegacySpec.removeObject_gone.
    + unfold Legacy.fileOf. cbn [Legacy.files]. apply single_filter_none.
      intros r Hr. apply filter_In in Hr. destruct Hr as [_ Hr].
      now apply negb_true_iff in Hr.
    + intro Hin. now apply filter_In in Hin.
    + intro Hin. apply filter_In. split; [exact Hin|].
      apply negb_true_iff. now apply String.eqb_neq.
Qed.

(** X21: the download route has no owner check.  For every caller and
    every file row, whoever owns it and whether or not it is in the trash,
    the answer is the signed URL of its blob, and nothing is written; only a
    missing row (404) or a failure of the signing (500) gives another
    answer. *)
Theorem download_any_caller
    (env : Legacy.Env) (sign : string -> string) (user id : string) (w : Legacy.World)
    (file : Legacy.FileRow) :
  Legacy.flt env (Select "files") = None ->
  Legacy.fileOf w id = Some file ->
  Handler.run (Legacy.download env sign user id) w
  = (match Legacy.flt env (StorageSign (Legacy.f_bucket_path file)) with
     | Some e => Legacy.Sent (Legacy.json 500 (Legacy.Error e))
     | None => Legacy.UrlJson (sign (Legacy.f_bucket_path file))
     end, w).
Proof.
  intros Hsel Hrow. unfold Legacy.download, Handler.run, Handler.bind, Handler.get.
  rewrite Hsel, Hrow. now destruct (Legacy.flt env (StorageSign _)).
Qed.

Section WithPlatform.

Context {P : JS.Platform Legacy.FileRow Legacy.FolderRow}.

(** X22: what the listings of the server show.  A file is listed exactly
    when it is a row of the caller directly in the folder asked for (without
    folder for ["root"]) and, unless [includeDeleted] is ["true"], not
    marked deleted; a folder is listed exactly when it is a row of the
    caller under the parent asked for (without parent when none is given)
    and, unless [includeDeleted] is ["true"], not marked deleted. *)
Theorem legacy_listings_show
    (env : Legacy.Env) (user id : string) (parent_id includeDeleted : option string)
    (w : Legacy.World) :
  (Legacy.flt env (Select "files") = None ->
   forall f,
     In f (Legacy.listedFiles
             (fst (Handler.run (Legacy.listFiles env user id includeDeleted) w)))
     <-> In f (Legacy.files w) /\ Legacy.f_owner f = user
         /\ Legacy.f_folder_id f = Legacy.folderParam id
         /\ (includeDeleted = Some "true" \/ Legacy.f_is_deleted f = false))
  /\
  (Legacy.flt env (Select "folders") = None ->
   forall d,
     In d (Legacy.listedFolders
             (fst (Handler.run (Legacy.listFolders env user parent_id includeDeleted) w)))
     <-> In d (Legacy.folders w) /\ Legacy.d_owner d = user
         /\ Legacy.d_parent_id d = JS.orNull parent_id
         /\ (includeDeleted = Some "true" \/ Legacy.d_is_deleted d = false)).
Proof.
  assert (Hinc : forall b : bool,
            (match includeDeleted with Some s => s =? "true" | None => false end) = true
            \/ negb b = true
            <-> includeDeleted = Some "true" \/ b = false).
  { intro b. destruct includeDeleted as [s|].
    - rewrite String.eqb_eq, negb_true_iff. intuition congruence.
    - rewrite negb_true_iff. intuition congruence. }
  assert (HeqOpt : forall (o : option string) (t : option string),
            match t with
            | Some i => Legacy.eqOpt o i = true
            | None => match o with None => true | Some _ => false end = true
            end <-> o = t).
  { intros o [i|]; destruct o as [x|]; cbn; try rewrite String.eqb_eq;
      intuition congruence. }
  split; intros Hsel x.
  - unfold Legacy.listFiles, Handler.run, Handler.bind, Handler.get. rewrite Hsel.
    cbn [fst Handler.respond Legacy.listedFiles]. fold (Legacy.folderParam id).
    split.
    + intro Hin. apply (Permutation_in _ (JS.orderFiles_perm _ _ _)) in Hin.
      rewrite <- Hinc, <- (HeqOpt (Legacy.f_folder_id x) (Legacy.folderParam id)).
      destruct (match includeDeleted with Some s => s =? "true" | None => false end);
        destruct (Legacy.folderParam id);
        repeat (apply filter_In in Hin; destruct Hin as [Hin ?]);
        rewrite ?String.eqb_eq in *; auto.
    + rewrite <- Hinc, <- (HeqOpt (Legacy.f_folder_id x) (Legacy.folderParam id)).
      intros (Hin & Ho & Hf & Hd).
      apply (Permutation_in _ (Permutation_sym (JS.orderFiles_perm _ _ _))).
      apply String.eqb_eq in Ho.
      destruct (match includeDeleted with Some s => s =? "true" | None => false end);
        destruct (Legacy.folderParam id);
        repeat (apply filter_In; split); auto;
        destruct Hd as [Hd | Hd]; auto; discriminate.
  - unfold Legacy.listFolders, Handler.run, Handler.bind, Handler.get. rewrite Hsel.
    cbn [fst Handler.respond Legacy.listedFolders].
    split.
    + intro Hin. apply (Permutation_in _ (JS.orderFolders_perm _ _ _)) in Hin.
      rewrite <- Hinc, <- (HeqOpt (Legacy.d_parent_id x) (JS.orNull parent_id)).
      destruct (match includeDeleted with Some s => s =? "true" | None => false end);
        destruct (JS.orNull parent_id);
        repeat (apply filter_In in Hin; destruct Hin as [Hin ?]);
        rewrite ?String.eqb_eq in *; auto.
    + rewrite <- Hinc, <- (HeqOpt (Legacy.d_parent_id x) (JS.orNull parent_id)).
      intros (Hin & Ho & Hf & Hd).
      apply (Permutation_in _ (Permutation_sym (JS.orderFolders_perm _ _ _))).
      apply String.eqb_eq in Ho.
      destruct (match includeDeleted with Some s => s =? "true" | None => false end);
        destruct (JS.orNull parent_id);
        repeat (apply filter_In; split); auto;
        destruct Hd as [Hd | Hd]; auto; discriminate.
Qed.

End WithPlatform.

End LegacyMore.

(** ** Folder trash on the server, seen from the trash list *)
Module LegacyTrashMore.

Import Query Store QueryFacts.

(** The trash route of a folder after the owner check and the update of the
    folder went through. *)
Lemma softDeleteFolder_run (env : Legacy.Env) (user id : string) (w : Legacy.World)
    (folder : Legacy.FolderRow) :
  Legacy.flt env (Select "folders") = None ->
  Legacy.flt env (Update "folders") = None ->
  Legacy.folderOf w id = Some folder ->
  Legacy.d_owner folder = user ->
  let trash := fun r =>
    Legacy.mkFolder (Legacy.d_id r) (Legacy.d_name r) (Legacy.d_parent_id r)
      (Legacy.d_owner r) true (Some (Legacy.clock env 0)) (Legacy.d_created_at r)
      (Some (Legacy.clock env 1)) in
  Handler.run (Legacy.softDeleteFolder env user id) w
  = (Legacy.json 200 (Legacy.FolderBody (trash folder)),
     Legacy.mkWorld
       (match Legacy.flt env (Update "files") with
        | Some _ => Legacy.files w
        | None =>
            map (fun f => if Legacy.eqOpt (Legacy.f_folder_id f) id
                          then Legacy.markFile true (Some (Legacy.clock env 2)) f else f)
              (Legacy.files w)
        end)
       (map (fun r => if Legacy.d_id r =? id then trash r else r) (Legacy.folders w))
       (Legacy.storage w)).
Proof.
  intros Hs Hu Hsel Hown trash.
  unfold Legacy.softDeleteFolder, Handler.run, Handler.bind.
  rewrite (LegacySpec.requireFolderOwner_ok env user id w folder Hs Hsel Hown).
  fold trash. rewrite (LegacySpec.updateFolder_ok env id trash w folder); auto.
  unfold Legacy.updateFilesOf. cbn. now destruct (Legacy.flt env (Update "files")).
Qed.

(** X23: after the owner trashed a folder, the trash of the owner lists the
    folder, stamped with the first reading of the clock, and every file of
    the owner that was directly in the folder, stamped with the third
    reading; the files of other users in the folder are marked too. *)
Theorem legacy_folder_trash_listed
    (env lenv : Legacy.Env) (user id : string) (w : Legacy.World)
    (folder : Legacy.FolderRow) :
  Legacy.folderOf w id = Some folder ->
  Legacy.d_owner folder = user ->
  (forall c, In c [Select "folders"; Update "folders"; Update "files"] ->
             Legacy.flt env c = None) ->
  Legacy.flt lenv (Select "files") = None ->
  Legacy.flt lenv (Select "folders") = None ->
  let out := Handler.run (Legacy.softDeleteFolder env user id) w in
  let trash := fst (Handler.run (Legacy.listTrash lenv user) (snd out)) in
  (exists d, In d (Legacy.listedFolders trash) /\ Legacy.d_id d = id
             /\ Legacy.d_deleted_at d = Some (Legacy.clock env 0))
  /\ (forall f, In f (Legacy.files w) -> Legacy.f_folder_id f = Some id ->
        In (Legacy.markFile true (Some (Legacy.clock env 2)) f) (Legacy.files (snd out))
        /\ (Legacy.f_owner f = user ->
            In (Legacy.markFile true (Some (Legacy.clock env 2)) f)
               (Legacy.listedFiles trash))).
Proof.
  intros Hsel Hown Hflt Hlf Hld.
  assert (Hs : Legacy.flt env (Select "folders") = None) by (apply Hflt; simpl; tauto).
  assert (Hu : Legacy.flt env (Update "folders") = None) by (apply Hflt; simpl; tauto).
  assert (Hf : Legacy.flt env (Update "files") = None) by (apply Hflt; simpl; tauto).
  cbv zeta. rewrite (softDeleteFolder_run env user id w folder Hs Hu Hsel Hown).
  rewrite Hf. cbn [fst snd].
  unfold Legacy.listTrash, Handler.run, Handler.bind, Handler.get. rewrite Hlf, Hld.
  cbn [fst Handler.respond Legacy.listedFolders Legacy.listedFiles Legacy.files
       Legacy.folders].
  destruct (single_filter_sat _ _ _ Hsel) as [Hin Hid]. split.
  - eexists. split; [|split].
    + apply filter_In. split.
      * apply in_map_iff. exists folder. split; [|exact Hin]. rewrite Hid. reflexivity.
      * cbn. now rewrite Hown, String.eqb_refl.
    + cbn. now apply String.eqb_eq.
    + reflexivity.
  - intros f Hfin Hfold.
    assert (Hmark : In (Legacy.markFile true (Some (Legacy.clock env 2)) f)
              (map (fun f0 => if Legacy.eqOpt (Legacy.f_folder_id f0) id
                              then Legacy.markFile true (Some (Legacy.clock env 2)) f0
                              else f0) (Legacy.files w))).
    { apply in_map_iff. exists f. split; [|exact Hfin].
      rewrite Hfold. cbn. now rewrite String.eqb_refl. }
    split; [exact Hmark|]. intro Ho. apply filter_In. split; [exact Hmark|].
    cbn. now rewrite Ho, String.eqb_refl.
Qed.

(** X24: the cascade to the files is a second statement whose result is
    not read.  When the update of the files fails after the folder was
    marked, the owner is still answered 200 with the trashed folder, the
    folder row is marked and no file is. *)
Theorem legacy_cascade_failure_silent
    (env : Legacy.Env) (user id e : string) (w : Legacy.World) (folder : Legacy.FolderRow) :
  Legacy.folderOf w id = Some folder ->
  Legacy.d_owner folder = user ->
  Legacy.flt env (Select "folders") = None ->
  Legacy.flt env (Update "folders") = None ->
  Legacy.flt env (Update "files") = Some e ->
  let out := Handler.run (Legacy.softDeleteFolder env user id) w in
  Legacy.status (fst out) = 200%nat
  /\ (exists d, Legacy.folderOf (snd out) id = Some d /\ Legacy.d_is_deleted d = true)
  /\ Legacy.files (snd out) = Legacy.files w.
Proof.
  intros Hsel Hown Hs Hu Hf. cbv zeta.
  rewrite (softDeleteFolder_run env user id w folder Hs Hu Hsel Hown).
  rewrite Hf. cbn [fst snd Legacy.status Legacy.files]. repeat split.
  eexists. split.
  - unfold Legacy.folderOf. cbn [Legacy.folders].
    apply (DriveMore.single_rewritten (fun r => Legacy.d_id r =? id)); [reflexivity|].
    exact Hsel.
  - reflexivity.
Qed.

End LegacyTrashMore.

(** ** The upload route on the Firebase bucket *)
Module FirebaseMore.

Import Store.

(** X25: the upload route on the Firebase bucket has no roll back.  When
    the object has been written and the insert of the row fails with [e],
    the answer is 500 with [e], no row is added, and the object stays in
    the bucket. *)
Theorem firebase_upload_keeps_blob
    (env : Firebase.Env) (userId : string) (upload : Api.Upload) (w : Firebase.World)
    (e : string) :
  Firebase.streamFails env = false ->
  Firebase.flt env (Insert "files") = Some e ->
  let out := Firebase.upload env userId (Some upload) w in
  fst out = Firebase.json 500 (Firebase.Error e)
  /\ Firebase.files (snd out) = Firebase.files w
  /\ In (Firebase.uuidv4 env ++ "_" ++ Api.originalname upload)%string
        (Firebase.bucket (snd out))
  /\ (forall k, In k (Firebase.bucket w) -> In k (Firebase.bucket (snd out))).
Proof.
  intros Hstream Hins. cbv zeta. unfold Firebase.upload. rewrite Hstream, Hins.
  cbn [fst snd Firebase.files Firebase.bucket]. repeat split.
  - now left.
  - intros k Hk.
    destruct (String.eqb_spec k (Firebase.uuidv4 env ++ "_" ++ Api.originalname upload))
      as [->|Hne]; [now left|].
    right. apply filter_In. split; [exact Hk|]. apply negb_true_iff.
    now apply String.eqb_neq.
Qed.

End FirebaseMore.

(** ** Authentication *)
Module AuthMore.

Import Query Store QueryFacts.

Lemma startsWith_app (p t : string) : Auth.startsWith p (p ++ t) = true.
Proof.
  induction p as [|a p IH]; [reflexivity|]. cbn. now rewrite Ascii.eqb_refl, IH.
Qed.

Lemma slice_app (p t : string) : Auth.slice (String.length p) (p ++ t) = t.
Proof. induction p as [|a p IH]; [reflexivity | exact IH]. Qed.

Lemma startsWith_split (p s : string) :
  Auth.startsWith p s = true -> s = (p ++ Auth.slice (String.length p) s)%string.
Proof.
  revert s. induction p as [|a p IH]; intros s H; [reflexivity|].
  destruct s as [|b s]; [discriminate|]. cbn in H.
  apply andb_true_iff in H. destruct H as [Hab Hs].
  apply Ascii.eqb_eq in Hab. subst b. cbn. f_equal. now apply IH.
Qed.

(** X26: [authenticate] lets a request through exactly when its header is
    ["Bearer "] followed by a token that verifies, and then [req.user] is
    the payload of that token; every other request is answered 401. *)
Theorem authenticate_bearer_exactly
    {U : Type} (verify : string -> option U) (authorization : option string) (user : U) :
  (Auth.authenticate verify authorization = Auth.Next user
   <-> exists token, authorization = Some ("Bearer " ++ token)%string
                     /\ verify token = Some user)
  /\ ((forall u, Auth.authenticate verify authorization <> Auth.Next u) ->
      exists error, Auth.authenticate verify authorization = Auth.Rejected 401 error).
Proof.
  split; [split|].
  - unfold Auth.authenticate. destruct authorization as [hdr|]; [|discriminate].
    destruct (Auth.startsWith "Bearer " hdr) eqn:Hs; [|discriminate].
    destruct (verify (Auth.slice 7 hdr)) as [p|] eqn:Hv; [|discriminate].
    intro H. inversion H; subst p. exists (Auth.slice 7 hdr). split; [|exact Hv].
    f_equal. exact (startsWith_split "Bearer " hdr Hs).
  - intros (token & -> & Hv). unfold Auth.authenticate.
    rewrite startsWith_app. change 7%nat with (String.length "Bearer ").
    now rewrite slice_app, Hv.
  - intro Hu. unfold Auth.authenticate in *. destruct authorization as [hdr|]; [|eauto].
    destruct (Auth.startsWith "Bearer " hdr); [|eauto].
    destruct (verify (Auth.slice 7 hdr)) as [p|]; [now destruct (Hu p) | eauto].
Qed.

Lemma splitSpaces_word (cur t : string) :
  Auth.noSpace t = true -> Auth.splitSpaces cur t = [(cur ++ t)%string].
Proof.
  revert cur. induction t as [|c t IH]; intros cur H.
  - cbn. f_equal. induction cur as [|a cur IHc]; [reflexivity | cbn; now f_equal].
  - cbn in H. apply andb_true_iff in H. destruct H as [Hc Ht].
    apply negb_true_iff in Hc. cbn. rewrite Hc, (IH _ Ht). f_equal.
    clear. induction cur as [|a cur IHc]; [reflexivity | cbn; now f_equal].
Qed.

Lemma splitSpaces_first (cur s rest : string) :
  Auth.noSpace s = true ->
  Auth.splitSpaces cur (s ++ String " " rest)
  = (cur ++ s)%string :: Auth.splitSpaces EmptyString rest.
Proof.
  revert cur. induction s as [|c s IH]; intros cur H.
  - cbn. f_equal. induction cur as [|a cur IHc]; [reflexivity | cbn; now f_equal].
  - cbn in H. apply andb_true_iff in H. destruct H as [Hc Hs].
    apply negb_true_iff in Hc. cbn. rewrite Hc, (IH _ Hs). f_equal.
    clear. induction cur as [|a cur IHc]; [reflexivity | cbn; now f_equal].
Qed.

(** X27: [requireAuth] of the server checks the second word of the header
    and never the first: for any scheme word and any token without spaces,
    the request goes on as the user of the token when [getUser] knows it and
    is answered 401 otherwise; a header of one word is answered 401. *)
Theorem requireAuth_second_word
    {U : Type} (getUser : string -> option U) (scheme token : string) :
  Auth.noSpace scheme = true -> Auth.noSpace token = true -> token <> "" ->
  Auth.requireAuth getUser (Some (scheme ++ " " ++ token)%string)
  = match getUser token with
    | Some user => Auth.Next user
    | None => Auth.Rejected 401 "Invalid token"
    end
  /\ (scheme <> "" ->
      Auth.requireAuth getUser (Some scheme)
      = Auth.Rejected 401 "Malformed authorization header").
Proof.
  intros Hs Ht Hne. split.
  - unfold Auth.requireAuth. cbn [JS.orNull].
    assert (Htruthy : JS.truthy (scheme ++ " " ++ token) = true).
    { apply truthy_true. destruct scheme; discriminate. }
    rewrite Htruthy. unfold Auth.split.
    change (scheme ++ " " ++ token)%string with (scheme ++ String " " token)%string.
    rewrite (splitSpaces_first EmptyString scheme token Hs).
    rewrite (splitSpaces_word EmptyString token Ht).
    cbn [nth_error JS.orNull append]. now rewrite (truthy_true _ Hne).
  - intro Hsne. unfold Auth.requireAuth. cbn [JS.orNull].
    rewrite (truthy_true _ Hsne). unfold Auth.split.
    now rewrite (splitSpaces_word EmptyString scheme Hs).
Qed.

Section WithCrypto.

Context {C : Auth.Crypto}.

(** X28: a login with an email that has no account is answered 401 by the
    auth controller but 500 by auth.routes, which tests the error of
    [.single()] before the row. *)
Theorem login_unknown_email
    (env : Auth.Env) (email password : string) (users : list Auth.UserRow) :
  email <> "" -> password <> "" ->
  Auth.byEmail email users = [] ->
  Auth.login env email password users = Auth.json 401 (Auth.Error "Not found")
  /\ Auth.status (Auth.routeLogin env (Some email) (Some password) users) = 500%nat.
Proof.
  intros He Hp Hnone. split.
  - unfold Auth.login. rewrite Hnone. now destruct (Auth.flt env (Select "users")).
  - unfold Auth.routeLogin. cbn [JS.orNull].
    rewrite (truthy_true _ He), (truthy_true _ Hp), Hnone.
    now destruct (Auth.flt env (Select "users")).
Qed.

(** X29: sign up, then log in.  For an email without account, when the
    insert goes through, [signup] answers 200 and adds one row with the hash
    of the password; [login] with the same password then answers 200 for
    the new user, with a password that does not match the hash 401, and a
    second [signup] with the email is answered 400 and adds nothing. *)
Theorem signup_then_login
    (env env' : Auth.Env) (email password : string) (users : list Auth.UserRow) :
  email <> "" -> password <> "" ->
  Auth.byEmail email users = [] ->
  Auth.flt env (Insert "users") = None ->
  Auth.flt env' (Select "users") = None ->
  let out := Auth.signup env (Some email) (Some password) users in
  let row := Auth.mkUserRow (Auth.rowId env) email (Auth.hash (Auth.salt env) password)
               (Auth.now env) in
  Auth.status (fst out) = 200%nat
  /\ snd out = users ++ [row]
  /\ Auth.login env' email password (snd out)
     = Auth.json 200 (Auth.UserToken (Auth.rowId env) email
                        (Auth.sign (Auth.now env') (Auth.rowId env) email))
  /\ (forall other, Auth.compare other (Auth.hash (Auth.salt env) password) = false ->
        Auth.login env' email other (snd out)
        = Auth.json 401 (Auth.Error "Invalid credentials"))
  /\ (forall again, again <> "" ->
        Auth.signup env' (Some email) (Some again) (snd out)
        = (Auth.json 400 (Auth.Error "User already exists"), snd out)).
Proof.
  intros He Hp Hnone Hins Hsel. cbv zeta.
  assert (Hout : Auth.signup env (Some email) (Some password) users
    = (Auth.json 200 (Auth.UserToken (Auth.rowId env) email
                        (Auth.sign (Auth.now env) (Auth.rowId env) email)),
       users ++ [Auth.mkUserRow (Auth.rowId env) email
                   (Auth.hash (Auth.salt env) password) (Auth.now env)])).
  { unfold Auth.signup. cbn [JS.orNull].
    rewrite (truthy_true _ He), (truthy_true _ Hp), Hnone.
    unfold Auth.insertUser. rewrite Hins.
    now destruct (Auth.flt env (Select "users")). }
  rewrite Hout. cbn [fst snd Auth.status].
  assert (Hfound : single (Auth.byEmail email
            (users ++ [Auth.mkUserRow (Auth.rowId env) email
                         (Auth.hash (Auth.salt env) password) (Auth.now env)]))
          = Some (Auth.mkUserRow (Auth.rowId env) email
                    (Auth.hash (Auth.salt env) password) (Auth.now env))).
  { unfold Auth.byEmail in *. rewrite filter_app, Hnone. cbn.
    now rewrite String.eqb_refl. }
  repeat split.
  - unfold Auth.login. rewrite Hsel, Hfound. cbn. now rewrite Auth.compare_hash.
  - intros other Hother. unfold Auth.login. rewrite Hsel, Hfound. cbn. now rewrite Hother.
  - intros again Hagain. unfold Auth.signup. cbn [JS.orNull].
    now rewrite (truthy_true _ He), (truthy_true _ Hagain), Hsel, Hfound.
Qed.

End WithCrypto.

End AuthMore.

(** ** Signed URLs *)
Module SignedUrlMore.

Import Query Store QueryFacts.

(** X30: the signed URL of a stored object is given to the owner of its
    file row only.  The route writes nothing, and when it answers a URL the
    key of the request is the [storage_path] of a file row of the caller
    and the URL is the signing of that key. *)
Theorem signedUrl_owner_only
    (env : Api.Env) (user : Api.User) (key : option string) (w : Api.World) :
  snd (Handler.run (Api.signedUrl env user key) w) = w
  /\ (forall url,
        fst (Handler.run (Api.signedUrl env user key) w) = Api.SignedUrlJson url ->
        exists k data,
          key = Some k /\ In data (Api.files (Api.db w))
          /\ Api.f_storage_path data = k /\ Api.f_owner_id data = Api.u_id user
          /\ url = Api.sign env k).
Proof.
  unfold Api.signedUrl. destruct key as [k|]; cbn [JS.orNull]; [|split; [reflexivity|]].
  2:{ intros url H. discriminate H. }
  destruct (JS.truthy k); [|split; [reflexivity | intros url H; discriminate H]].
  unfold Handler.run, Handler.bind, Handler.get, Api.fail, Handler.respond.
  destruct (Api.flt env (Select "files"));
    [split; [reflexivity | intros url H; discriminate H]|].
  destruct (single _) as [data|] eqn:Hs;
    [|split; [reflexivity | intros url H; discriminate H]].
  destruct (single_filter_sat _ _ _ Hs) as [Hin Hk]. apply String.eqb_eq in Hk.
  destruct (String.eqb_spec (Api.f_owner_id data) (Api.u_id user)) as [Ho|];
    [|split; [reflexivity | intros url H; discriminate H]].
  destruct (Api.flt env (StorageSign k));
    [split; [reflexivity | intros url H; discriminate H]|].
  split; [reflexivity|]. intros url H. inversion H. exists k, data. now repeat split.
Qed.

End SignedUrlMore.

(** ** The properties above on the sample states *)
Module Samples.

Import Query Store.

Lemma shares_routes_owner_only_witness :
  Api.refused Scenario.unshared
    (Handler.run (Api.revokeLink (Scenario.calm 1000 "T") Scenario.bob Api.file "f1")
       Scenario.unshared).
Proof.
  refine (proj1 (proj2 (@SharesMore.shares_routes_owner_only Scenario.platform
            (Scenario.calm 1000 "T") Scenario.bob Api.file "f1" Scenario.unshared _))).
  intro H. vm_compute in H. discriminate H.
Defined.

Lemma createLink_token_resolves_witness :
  exists data,
    Api.s_role data = Api.viewer /\ Api.s_owner_id data = "alice".
Proof.
  destruct (@SharesMore.createLink_token_resolves Scenario.platform
              (Scenario.calm 1000 "T1") Scenario.alice Api.file "f1" Api.viewer (Some 1%Z)
              Scenario.unshared eq_refl) as (data & _ & _ & Hr & _ & Ho & _).
  exists data. split; [exact Hr | exact Ho].
Defined.

Lemma revokeLink_kills_tokens_witness :
  fst (Handler.run (Api.revokeLink (Scenario.calm 1000 "T") Scenario.alice Api.file "f1")
         Scenario.sharedWorld)
  = Api.json 200 (Api.Message "Link revoked").
Proof.
  exact (proj1 (SharesMore.revokeLink_kills_tokens (Scenario.calm 1000 "T") Scenario.alice
                  Api.file "f1" Scenario.sharedWorld eq_refl eq_refl)).
Defined.

Lemma revoke_success_unchecked_witness :
  Handler.run (Api.revokeLink
                 (Api.mkEnv (Scenario.deleteFails "down") 1000 "u" "r" "T"
                    (fun key => key) None)
                 Scenario.alice Api.file "f1") Scenario.sharedWorld
  = (Api.json 200 (Api.Message "Link revoked"), Scenario.sharedWorld).
Proof.
  exact (proj1 (@SharesMore.revoke_success_unchecked Scenario.platform
                  (Api.mkEnv (Scenario.deleteFails "down") 1000 "u" "r" "T"
                     (fun key => key) None)
                  Scenario.alice Api.file "f1" "bob@example.com" "down"
                  Scenario.sharedWorld eq_refl) eq_refl).
Defined.

Lemma grant_replaces_role_witness :
  fst (Handler.run
         (@Api.grant Scenario.platform (Scenario.calm 1000 "T") Scenario.alice
            (Api.mkGrantBody (Some Api.file) (Some "f1") (Some "bob@example.com")
               (Some Api.editor))) Scenario.sharedWorld)
  = Api.GrantJson (Api.mkPermission Api.file "f1" "bob@example.com" Api.editor).
Proof.
  exact (proj1 (@GrantsMore.grant_replaces_role Scenario.platform (Scenario.calm 1000 "T")
                  Scenario.alice Api.file "f1" "bob@example.com" Api.editor
                  Scenario.sharedWorld eq_refl)).
Defined.

Lemma revokeGrant_removes_grant_witness :
  fst (Handler.run
         (@Api.revokeGrant Scenario.platform (Scenario.calm 1000 "T") Scenario.alice
            Api.file "f1" "bob@example.com") Scenario.sharedWorld)
  = Api.json 200 (Api.Message "Access revoked").
Proof.
  exact (proj1 (@GrantsMore.revokeGrant_removes_grant Scenario.platform
                  (Scenario.calm 1000 "T") Scenario.alice Api.file "f1" "bob@example.com"
                  Scenario.sharedWorld eq_refl eq_refl)).
Defined.

Lemma drive_mutations_owner_only_witness :
  Api.refused Scenario.shelf
    (Handler.run (Api.softDeleteFolder (Scenario.calm 1000 "T") Scenario.bob "d1")
       Scenario.shelf).
Proof.
  refine (proj1 (proj2 (proj2 (proj1 (@DriveMore.drive_mutations_owner_only
            Scenario.platform (Scenario.calm 1000 "T") Scenario.bob "d1" Scenario.shelf)
            _)))).
  intro H. vm_compute in H. discriminate H.
Defined.

Lemma drive_targets_owner_only_witness :
  Api.refusedData Scenario.shelf
    (Handler.run (@Api.createFolder Scenario.platform (Scenario.calm 1000 "T") Scenario.bob
                    (Some "Mine") (Some "d1")) Scenario.shelf).
Proof.
  refine (proj1 (@DriveMore.drive_targets_owner_only Scenario.platform
            (Scenario.calm 1000 "T") Scenario.bob "d1" Scenario.shelf _ _) (Some "Mine")).
  - discriminate.
  - intro H. vm_compute in H. discriminate H.
Defined.

Lemma moveFolder_any_owned_target_witness :
  exists row,
    fst (Handler.run (Api.moveFolder (Scenario.calm 1000 "T")
                        Scenario.alice "d1" (Some "d1")) Scenario.shelf)
    = Api.FolderJson row
    /\ Api.d_parent_id row = Some "d1".
Proof.
  destruct (DriveMore.moveFolder_any_owned_target
              (Scenario.calm 1000 "T") Scenario.alice "d1" "d1" Scenario.shelf)
    as (row & H1 & _ & H2 & _); try reflexivity; try discriminate.
  exists row. split; [exact H1 | exact H2].
Defined.

Lemma trash_restore_round_trip_witness :
  snd (Handler.run (Api.restoreFolder (Scenario.calm 2000 "T") Scenario.alice "d1")
         (snd (Handler.run (Api.softDeleteFolder (Scenario.calm 1000 "T") Scenario.alice "d1")
                 Scenario.shelf)))
  = Scenario.shelf.
Proof.
  refine (proj1 (proj1 (DriveMore.trash_restore_round_trip (Scenario.calm 1000 "T")
            (Scenario.calm 2000 "T") Scenario.alice "d1" Scenario.shelf)
            eq_refl eq_refl eq_refl eq_refl _)).
  intros r [<- | []] _. reflexivity.
Defined.

Lemma files_listed_or_trashed_witness :
  In Scenario.report
    (Api.listedFiles (fst (Handler.run (@Api.listFiles Scenario.platform
                                          (Scenario.calm 1000 "T") Scenario.alice)
                             Scenario.libraryWorld))).
Proof.
  apply (proj1 (@DriveMore.files_listed_or_trashed Scenario.platform
                  (Scenario.calm 1000 "T") Scenario.alice Scenario.libraryWorld
                  Scenario.report eq_refl eq_refl)).
  split; [simpl; now left | split; reflexivity].
Defined.

Lemma hardDeleteFile_outcomes_witness :
  fst (Handler.run (Api.hardDeleteFile (Scenario.calm 1000 "T") Scenario.alice "f1")
         Scenario.shelf)
  = Api.json 200 (Api.Message "Permanently deleted").
Proof.
  exact (proj1 (proj1 (proj2 (proj2
           (DriveMore.hardDeleteFile_outcomes (Scenario.calm 1000 "T") Scenario.alice "f1"
              Scenario.shelf Scenario.report eq_refl eq_refl eq_refl))) eq_refl)).
Defined.

Lemma upload_then_listed_witness :
  exists data,
    Api.f_owner_id data = "alice"
    /\ Api.files (Api.db (snd (Handler.run
         (@Api.uploadFile Scenario.platform (Scenario.calm 1000 "T") Scenario.alice
            (Some Scenario.notes) (Some "d1")) Scenario.shelf)))
       = [Scenario.report; data].
Proof.
  destruct (@DriveMore.upload_then_listed Scenario.platform (Scenario.calm 1000 "T")
              (Scenario.calm 2000 "T") Scenario.alice Scenario.notes (Some "d1")
              Scenario.shelf)
    as (data & url & _ & Ho & _ & _ & _ & Hfiles & _); try reflexivity.
  - intros fid Hfid. inversion Hfid. reflexivity.
  - exists data. split; [exact Ho | exact Hfiles].
Defined.

Lemma search_scope_witness :
  Api.foldersOf (@Api.search Scenario.platform noFaults Scenario.library Scenario.alice
                   (Api.mkSearchQuery None (Some "files") None None None None)) = [].
Proof.
  exact (proj1 (proj2 (@SearchMore.search_scope Scenario.platform noFaults Scenario.library
                         Scenario.alice
                         (Api.mkSearchQuery None (Some "files") None None None None)))
           eq_refl).
Defined.

Lemma gate_after_resolver_witness :
  Api.ensureAllowed (fun (_ : Api.Role) (_ : bool) => true)
    (Api.resolveUserRole noFaults 1000 Scenario.shared None Api.file "f1" None) true
  = Some (403%nat, "Not allowed").
Proof.
  refine (proj1 (SearchMore.gate_after_resolver (fun (_ : Api.Role) (_ : bool) => true)
            noFaults 1000 Scenario.shared Api.file "f1" None true) _).
  intros l _ _ _ H. discriminate H.
Defined.

Lemma legacy_guarded_routes_owner_only_witness :
  Legacy.refused Scenario.drive
    (Handler.run (Legacy.hardDeleteFolder Scenario.quiet "mallory" "d1") Scenario.drive).
Proof.
  refine (proj2 (proj2 (proj2 (proj1 (LegacyMore.legacy_guarded_routes_owner_only
            Scenario.quiet "mallory" "d1" Scenario.drive) _)))).
  intros d H. vm_compute in H. inversion H. discriminate.
Defined.

Lemma legacy_file_trash_cycle_witness :
  fst (Handler.run (Legacy.softDeleteFile Scenario.quiet "alice" "a") Scenario.drive)
  = Legacy.json 200 (Legacy.FileBody
      (Legacy.stampFile true (Some 1000%Z) 1001%Z Scenario.fileA)).
Proof.
  refine (proj1 (LegacyMore.legacy_file_trash_cycle Scenario.quiet Scenario.quiet
            Scenario.quiet "alice" "a" Scenario.drive Scenario.fileA eq_refl eq_refl _)).
  intros c Hc. repeat split; reflexivity.
Defined.

Lemma legacy_hardDeleteFile_outcomes_witness :
  fst (Handler.run (Legacy.hardDeleteFile Scenario.blobOfBStuck "alice" "b") Scenario.drive)
  = Legacy.json 200 Legacy.Ok.
Proof.
  exact (proj1 (proj1 (proj2 (proj2
           (LegacyMore.legacy_hardDeleteFile_outcomes Scenario.blobOfBStuck "alice" "b"
              Scenario.drive Scenario.fileB eq_refl eq_refl eq_refl))) eq_refl)).
Defined.

Lemma download_any_caller_witness :
  Handler.run (Legacy.download Scenario.quiet (fun path => path) "mallory" "a") Scenario.drive
  = (Legacy.UrlJson "user-alice/a_a.txt", Scenario.drive).
Proof.
  exact (LegacyMore.download_any_caller Scenario.quiet (fun path => path) "mallory" "a"
           Scenario.drive Scenario.fileA eq_refl eq_refl).
Defined.

Lemma legacy_listings_show_witness :
  In Scenario.fileC
    (Legacy.listedFiles
       (fst (Handler.run (@Legacy.listFiles Scenario.legacyPlatform Scenario.quiet
                            "alice" "root" None) Scenario.drive))).
Proof.
  apply (proj1 (@LegacyMore.legacy_listings_show Scenario.legacyPlatform Scenario.quiet
                  "alice" "root" None None Scenario.drive) eq_refl Scenario.fileC).
  repeat split; try reflexivity.
  - simpl. tauto.
  - now right.
Defined.

Lemma legacy_folder_trash_listed_witness :
  In (Legacy.markFile true (Some 1002%Z) Scenario.fileA)
    (Legacy.listedFiles
       (fst (Handler.run (Legacy.listTrash Scenario.quiet "alice")
               (snd (Handler.run (Legacy.softDeleteFolder Scenario.quiet "alice" "d1")
                       Scenario.drive))))).
Proof.
  refine (proj2 (proj2 (LegacyTrashMore.legacy_folder_trash_listed Scenario.quiet
            Scenario.quiet "alice" "d1" Scenario.drive Scenario.oldDocs
            eq_refl eq_refl _ eq_refl eq_refl) Scenario.fileA _ eq_refl) eq_refl).
  - intros c Hc. reflexivity.
  - simpl. tauto.
Defined.

Lemma legacy_cascade_failure_silent_witness :
  Legacy.files (snd (Handler.run
    (Legacy.softDeleteFolder
       (Legacy.mkEnv (Scenario.filesUpdateFails "down") Scenario.ticking "n") "alice" "d1")
    Scenario.drive))
  = Legacy.files Scenario.drive.
Proof.
  exact (proj2 (proj2 (LegacyTrashMore.legacy_cascade_failure_silent
           (Legacy.mkEnv (Scenario.filesUpdateFails "down") Scenario.ticking "n")
           "alice" "d1" "down" Scenario.drive Scenario.oldDocs
           eq_refl eq_refl eq_refl eq_refl eq_refl))).
Defined.

Lemma firebase_upload_keeps_blob_witness :
  In "u-9_notes.txt"
    (Firebase.bucket (snd (Firebase.upload Scenario.firebaseEnv "alice" (Some Scenario.notes)
                             Scenario.firebaseWorld))).
Proof.
  exact (proj1 (proj2 (proj2 (FirebaseMore.firebase_upload_keeps_blob Scenario.firebaseEnv
           "alice" Scenario.notes Scenario.firebaseWorld "insert failed" eq_refl eq_refl)))).
Defined.

Lemma authenticate_bearer_exactly_witness :
  Auth.authenticate (fun t => if (t =? "good")%string then Some "alice" else None)
    (Some "Bearer good") = Auth.Next "alice".
Proof.
  apply (proj1 (AuthMore.authenticate_bearer_exactly
                  (fun t => if (t =? "good")%string then Some "alice" else None)
                  (Some "Bearer good") "alice")).
  exists "good". split; reflexivity.
Defined.

Lemma requireAuth_second_word_witness :
  Auth.requireAuth (fun t => if (t =? "good")%string then Some "alice" else None)
    (Some "Basic good") = Auth.Next "alice".
Proof.
  refine (proj1 (AuthMore.requireAuth_second_word
            (fun t => if (t =? "good")%string then Some "alice" else None)
            "Basic" "good" eq_refl eq_refl _)).
  discriminate.
Defined.

Lemma login_unknown_email_witness :
  Auth.status (@Auth.routeLogin Scenario.crypto Scenario.authEnv (Some "eve@example.com")
                 (Some "pw") []) = 500%nat.
Proof.
  refine (proj2 (@AuthMore.login_unknown_email Scenario.crypto Scenario.authEnv
                   "eve@example.com" "pw" [] _ _ eq_refl)); discriminate.
Defined.

Lemma signup_then_login_witness :
  @Auth.login Scenario.crypto Scenario.authEnv "eve@example.com" "pw"
    (snd (@Auth.signup Scenario.crypto Scenario.authEnv (Some "eve@example.com")
            (Some "pw") []))
  = Auth.json 200 (Auth.UserToken "u1" "eve@example.com" "jwt:u1:eve@example.com").
Proof.
  refine (proj1 (proj2 (proj2 (@AuthMore.signup_then_login Scenario.crypto
            Scenario.authEnv Scenario.authEnv "eve@example.com" "pw" []
            _ _ eq_refl eq_refl eq_refl)))); discriminate.
Defined.

Lemma signedUrl_owner_only_witness :
  exists k data,
    Some "alice/1_report.txt" = Some k /\ In data (Api.files (Api.db Scenario.shelf))
    /\ Api.f_storage_path data = k /\ Api.f_owner_id data = "alice"
    /\ "signed:alice/1_report.txt" = Api.sign (Scenario.calm 1000 "T") k.
Proof.
  exact (proj2 (SignedUrlMore.signedUrl_owner_only (Scenario.calm 1000 "T") Scenario.alice
                  (Some "alice/1_report.txt") Scenario.shelf)
           "signed:alice/1_report.txt" eq_refl).
Defined.

End Samples.
